(** * The tool layer of the MCP toolkit server, in Rocq

    A shallow embedding of the TypeScript sources of the server: the result
    container ([result.ts]), the input schemas and the handlers of the tools
    ([tools/*.ts]), the mock providers ([providers/mock.ts]) and the
    dispatcher that [registerTools] installs for [CallToolRequestSchema]
    ([server.ts]); then the configuration ([config.ts]), the live providers
    and the provider factory ([providers/production.ts],
    [providers/index.ts]), the resources ([resources/index.ts]), the prompts
    ([prompts/index.ts]) and the catalog of tools ([server.ts]).  The first
    part of the file holds the definitions, the second part the lemmas and
    the theorems about them.

    JavaScript values are modelled as follows.
    - A string is a [string]: a sequence of code units below 256.
    - A number is an IEEE 754 binary64 value, [spec_float] at precision 53;
      counters and lengths, which the program only increments and never lets
      grow past the length of a string, are kept in [nat] or [Z] and turned
      into a binary64 value where the source mixes them with fractions.
    - A promise that rejects and a function that throws are the [Thrown]
      case of [outcome]. *)

From Stdlib Require Import ZArith List String Ascii Bool Lia DecimalString.
From Stdlib Require Import Floats.SpecFloat.
Import ListNotations.

Open Scope list_scope.
Open Scope string_scope.

(* ================================================================== *)
(** * Part I: definitions *)
(* ================================================================== *)

(** ** JavaScript built-ins the sources rely on *)

Module Js.

(** *** Strings *)

Definition chars (s : string) : list ascii := list_ascii_of_string s.
Definition str (cs : list ascii) : string := string_of_list_ascii cs.

(** [WhiteSpace] and [LineTerminator] code units below 256: what [trim]
    strips and what [\s] matches. *)
Definition isWhiteSpace (c : ascii) : bool :=
  let n := N_of_ascii c in
  ((n =? 9) || (n =? 10) || (n =? 11) || (n =? 12) || (n =? 13)
   || (n =? 32) || (n =? 160))%N.

Definition lowerChar (c : ascii) : ascii :=
  let n := N_of_ascii c in
  if (((65 <=? n) && (n <=? 90))
      || ((192 <=? n) && (n <=? 222) && negb (n =? 215)))%N
  then ascii_of_N (n + 32) else c.

(** [s.toLowerCase()] *)
Definition toLowerCase (s : string) : string := str (map lowerChar (chars s)).

Fixpoint dropWhiteSpace (cs : list ascii) : list ascii :=
  match cs with
  | c :: cs' => if isWhiteSpace c then dropWhiteSpace cs' else cs
  | [] => []
  end.

(** [s.trim()] *)
Definition trim (s : string) : string :=
  str (rev (dropWhiteSpace (rev (dropWhiteSpace (chars s))))).

(** [s.split(/\s+/)]: the pieces between maximal runs of white space; a run
    at either end leaves an empty piece there. *)
Fixpoint splitRuns (cs cur : list ascii) (inRun : bool) : list string :=
  match cs with
  | [] => [str (rev cur)]
  | c :: cs' =>
      if isWhiteSpace c
      then if inRun then splitRuns cs' [] true
           else str (rev cur) :: splitRuns cs' [] true
      else splitRuns cs' (c :: cur) false
  end.

Definition splitWhiteSpace (s : string) : list string :=
  splitRuns (chars s) [] false.

(** [s.includes(sub)] *)
Fixpoint includes (s sub : string) : bool :=
  String.prefix sub s
  || match s with
     | EmptyString => false
     | String _ s' => includes s' sub
     end.

(** [xs.join(sep)] and [xs.slice(0, n)] *)
Definition join (sep : string) (xs : list string) : string := String.concat sep xs.
Definition slice0 {A : Type} (n : nat) (xs : list A) : list A := firstn n xs.

(** Decimal digits of an integer, as template literals print a counter. *)
Definition decimal (z : Z) : string := NilZero.string_of_int (Z.to_int z).

(** *** Numbers: IEEE 754 binary64 *)

Definition number : Type := spec_float.
Definition prec : Z := 53.
Definition emax : Z := 1024.

Definition NaN : number := S754_nan.
Definition Infinity : number := S754_infinity false.
Definition add : number -> number -> number := SFadd prec emax.
Definition sub : number -> number -> number := SFsub prec emax.
Definition mul : number -> number -> number := SFmul prec emax.
Definition div : number -> number -> number := SFdiv prec emax.
Definition neg : number -> number := SFopp.
Definition lt : number -> number -> bool := SFltb.
Definition le : number -> number -> bool := SFleb.

(** The binary64 value nearest to an integer. *)
Definition ofZ (z : Z) : number := binary_normalize prec emax z 0 false.

(** The binary64 value nearest to [n / d]: the division of the standard on
    the two integers taken as mantissas at exponent 0. *)
Definition ofRatio (n d : positive) : number :=
  SFdiv prec emax (S754_finite false n 0) (S754_finite false d 0).

(** The value of a decimal literal [m * 10^e], as the engine reads [0.15]. *)
Definition ofDecimal (m e : Z) : number :=
  let magnitude (p : positive) : number :=
    if (0 <=? e)%Z
    then if (400 <? e)%Z then Infinity else ofZ (Zpos p * 10 ^ e)
    else if (Z.log2 (Zpos p) + 1 + e <? -400)%Z then S754_zero false
         else ofRatio p (Z.to_pos (10 ^ (- e))) in
  match m with
  | Z0 => S754_zero false
  | Zpos p => magnitude p
  | Zneg p => neg (magnitude p)
  end.

Definition isNaN (x : number) : bool :=
  match x with S754_nan => true | _ => false end.

Definition isFinite (x : number) : bool :=
  match x with S754_zero _ | S754_finite _ _ _ => true | _ => false end.

(** [Number.isInteger(x)] *)
Definition isInteger (x : number) : bool :=
  match x with
  | S754_zero _ => true
  | S754_finite _ m e => ((0 <=? e) || (Zpos m mod 2 ^ (- e) =? 0))%Z
  | _ => false
  end.

Definition isNegativeZero (x : number) : bool :=
  match x with S754_zero true => true | _ => false end.

(** [Math.min(a, b)]: NaN when either is, and -0 below +0. *)
Definition Math_min (a b : number) : number :=
  match SFcompare a b with
  | None => NaN
  | Some Lt => a
  | Some Gt => b
  | Some Eq => if isNegativeZero b then b else a
  end.

(** [Math.abs(x)] *)
Definition Math_abs (x : number) : number := SFabs x.

(** The same value, bit for bit ([Object.is]). *)
Definition sameValue (x y : number) : bool :=
  match x, y with
  | S754_zero a, S754_zero b => Bool.eqb a b
  | S754_infinity a, S754_infinity b => Bool.eqb a b
  | S754_nan, S754_nan => true
  | S754_finite a m e, S754_finite b m' e' =>
      Bool.eqb a b && (m =? m')%positive && (e =? e')%Z
  | _, _ => false
  end.

(** *** [Number::toString]: the shortest decimal that reads back as the value *)

Section NumberToString.
Local Open Scope Z_scope.

(** A positive finite value as a fraction. *)
Definition fraction (m : positive) (e : Z) : Z * Z :=
  if 0 <=? e then (Zpos m * 2 ^ e, 1) else (Zpos m, 2 ^ (- e)).

Definition scale10 (r : Z * Z) (p : Z) : Z * Z :=
  let (a, b) := r in
  if 0 <=? p then (a * 10 ^ p, b) else (a, b * 10 ^ (- p)).

Definition belowPow10 (r : Z * Z) (n : Z) : bool :=
  let (a, b) := scale10 r (- n) in a <? b.

(** The [n] with [10^(n-1) <= x < 10^n]. *)
Fixpoint decimalExponent (fuel : nat) (r : Z * Z) (n : Z) : Z :=
  match fuel with
  | O => n
  | S fuel' => if belowPow10 r n then n else decimalExponent fuel' r (n + 1)
  end.

(** The [k]-digit decimals next to [x]; the one that reads back as [x], the
    nearer of the two when both do. *)
Definition shortestAt (x : number) (r : Z * Z) (n k : Z) : option (Z * Z) :=
  let (a, b) := scale10 r (k - n) in
  let lo := a / b in
  let rem := a mod b in
  let hi := lo + 1 in
  let readsLo := sameValue x (ofDecimal lo (n - k)) in
  let readsHi := sameValue x (ofDecimal hi (n - k)) in
  let hiN := if hi =? 10 ^ k then (10 ^ (k - 1), n + 1) else (hi, n) in
  let nearerLo := (2 * rem <? b) || ((2 * rem =? b) && Z.even lo) in
  match readsLo, readsHi with
  | true, true => Some (if nearerLo then (lo, n) else hiN)
  | true, false => Some (lo, n)
  | false, true => Some hiN
  | false, false => None
  end.

Fixpoint shortest (fuel : nat) (x : number) (r : Z * Z) (n k : Z) : Z * Z * Z :=
  match shortestAt x r n k with
  | Some (s, n') => (s, n', k)
  | None =>
      match fuel with
      | O => (fst (scale10 r (k - n)) / snd (scale10 r (k - n)), n, k)
      | S fuel' => shortest fuel' x r n (k + 1)
      end
  end.

Definition zeros (n : Z) : string := str (repeat "0"%char (Z.to_nat n)).

Definition layout (s n k : Z) : string :=
  let ds := decimal s in
  if (k <=? n) && (n <=? 21) then ds ++ zeros (n - k)
  else if (0 <? n) && (n <=? 21)
  then substring 0 (Z.to_nat n) ds ++ "." ++ substring (Z.to_nat n) (Z.to_nat (k - n)) ds
  else if (-6 <? n) && (n <=? 0) then "0." ++ zeros (- n) ++ ds
  else
    let e := n - 1 in
    let es := (if 0 <=? e then "+" else "-") ++ decimal (Z.abs e) in
    if k =? 1 then ds ++ "e" ++ es
    else substring 0 1 ds ++ "." ++ substring 1 (Z.to_nat (k - 1)) ds ++ "e" ++ es.

Definition positiveToString (m : positive) (e : Z) : string :=
  let r := fraction m e in
  let n := decimalExponent 700 r (-330) in
  let '(s, n', k) := shortest 16 (S754_finite false m e) r n 1 in
  layout s n' k.

End NumberToString.

(** [String(x)] for a number, also what a template literal interpolates. *)
Definition numberToString (x : number) : string :=
  match x with
  | S754_nan => "NaN"
  | S754_zero _ => "0"
  | S754_infinity false => "Infinity"
  | S754_infinity true => "-Infinity"
  | S754_finite false m e => positiveToString m e
  | S754_finite true m e => "-" ++ positiveToString m e
  end.

(** *** JSON values, as they arrive over the wire *)

#[warnings="-register-all"]
Inductive json : Type :=
| JNull
| JBool (b : bool)
| JNum (x : number)
| JStr (s : string)
| JArr (items : list json)
| JObj (fields : list (string * json)).

(** The own property [k] of an object literal; [None] is [undefined]. *)
Fixpoint ownProperty {A : Type} (k : string) (fields : list (string * A)) : option A :=
  match fields with
  | [] => None
  | (k', v) :: rest => if String.eqb k k' then Some v else ownProperty k rest
  end.

(** The names every object inherits from [Object.prototype]. *)
Definition objectPrototypeMembers : list string :=
  ["constructor"; "__defineGetter__"; "__defineSetter__"; "hasOwnProperty";
   "__lookupGetter__"; "__lookupSetter__"; "isPrototypeOf";
   "propertyIsEnumerable"; "toString"; "valueOf"; "__proto__";
   "toLocaleString"].

Definition inheritsMember (k : string) : bool :=
  existsb (String.eqb k) objectPrototypeMembers.

(** A value that the source types as an [A] and that, at run time, is
    either an [A] or a member inherited from [Object.prototype] (a function,
    or the prototype object itself for [__proto__]). *)
Inductive dyn (A : Type) : Type :=
| Typed (a : A)
| Foreign (member : string).
Arguments Typed {A} a.
Arguments Foreign {A} member.

(** [obj[k]] on an object literal whose own properties hold values of type
    [A]; [None] is [undefined], the only falsy outcome. *)
Definition getProperty {A : Type} (fields : list (string * A)) (k : string) : option (dyn A) :=
  match ownProperty k fields with
  | Some a => Some (Typed a)
  | None => if inheritsMember k then Some (Foreign k) else None
  end.

(** [raw[k]] on a JSON value, for a key that [Object.prototype],
    [Array.prototype] and the wrappers of the primitives do not define. *)
Definition member (k : string) (raw : json) : option json :=
  match raw with
  | JObj fields => ownProperty k fields
  | _ => None
  end.

(** [x ?? d] *)
Definition nullish (x : option json) (d : json) : json :=
  match x with
  | None | Some JNull => d
  | Some v => v
  end.

(** *** [StringToNumber], the reading of a string by [Number(...)] *)

Section StringToNumber.
Local Open Scope Z_scope.

Definition digitOf (radix : Z) (c : ascii) : option Z :=
  let n := Z.of_N (N_of_ascii c) in
  let v := if (48 <=? n) && (n <=? 57) then n - 48
           else if (97 <=? n) && (n <=? 102) then n - 87
           else if (65 <=? n) && (n <=? 70) then n - 55
           else radix in
  if v <? radix then Some v else None.

(** The longest run of decimal digits at the head: the accumulated value,
    the number of digits read and what follows. *)
Fixpoint readDigits (cs : list ascii) (acc count : Z) : Z * Z * list ascii :=
  match cs with
  | c :: cs' =>
      match digitOf 10 c with
      | Some d => readDigits cs' (10 * acc + d) (count + 1)
      | None => (acc, count, cs)
      end
  | [] => (acc, count, [])
  end.

Fixpoint readRadix (radix : Z) (cs : list ascii) (acc : Z) : option Z :=
  match cs with
  | [] => Some acc
  | c :: cs' =>
      match digitOf radix c with
      | Some d => readRadix radix cs' (radix * acc + d)
      | None => None
      end
  end.

Definition nonDecimal (radix : Z) (ds : list ascii) : number :=
  match ds with
  | [] => NaN
  | _ => match readRadix radix ds 0 with Some v => ofZ v | None => NaN end
  end.

Definition readSign (cs : list ascii) : bool * list ascii :=
  match cs with
  | "-"%char :: cs' => (true, cs')
  | "+"%char :: cs' => (false, cs')
  | _ => (false, cs)
  end.

Definition isExponentMark (c : ascii) : bool :=
  Ascii.eqb c "e" || Ascii.eqb c "E".

Definition unsignedDecimal (cs : list ascii) : number :=
  if String.eqb (str cs) "Infinity" then Infinity
  else
    let '(i, ni, r1) := readDigits cs 0 0 in
    let '(m, nf, r2) :=
      match r1 with
      | "."%char :: r => readDigits r i 0
      | _ => (i, 0, r1)
      end in
    if ni + nf =? 0 then NaN
    else
      match r2 with
      | [] => ofDecimal m (- nf)
      | c :: r3 =>
          if isExponentMark c
          then
            let (negative, r4) := readSign r3 in
            let '(e, ne, r5) := readDigits r4 0 0 in
            match r5 with
            | [] => if ne =? 0 then NaN
                    else ofDecimal m ((if negative then - e else e) - nf)
            | _ => NaN
            end
          else NaN
      end.

Definition stringToNumber (s : string) : number :=
  match chars (trim s) with
  | [] => S754_zero false
  | "0"%char :: "x"%char :: ds | "0"%char :: "X"%char :: ds => nonDecimal 16 ds
  | "0"%char :: "o"%char :: ds | "0"%char :: "O"%char :: ds => nonDecimal 8 ds
  | "0"%char :: "b"%char :: ds | "0"%char :: "B"%char :: ds => nonDecimal 2 ds
  | cs =>
      let (negative, rest) := readSign cs in
      let x := unsignedDecimal rest in
      if negative then neg x else x
  end.

End StringToNumber.

(** *** The conversions [String(v)], [Number(v)] and [Boolean(v)]

    [String] and [Number] turn an object into a primitive by calling its
    [toString] ([Number] after its [valueOf], which for a value read from
    JSON returns the object itself, or is an own key that cannot be
    called).  A value read from JSON inherits a [toString] that can be
    called, unless it has an own key of that name: the key then holds a
    value that cannot be called, and the conversion throws a [TypeError].
    An array is joined from the conversions of its elements, so it throws
    when one of them does.  [None] is this throw. *)

Definition nl : string := String (ascii_of_nat 10) EmptyString.

(** The values of [f] on the elements of a list, unless it throws on one. *)
Fixpoint mapOption {A B : Type} (f : A -> option B) (xs : list A) : option (list B) :=
  match xs with
  | [] => Some []
  | x :: xs' =>
      match f x with
      | Some y => option_map (cons y) (mapOption f xs')
      | None => None
      end
  end.

Fixpoint toString (v : json) : option string :=
  match v with
  | JNull => Some "null"
  | JBool b => Some (if b then "true" else "false")
  | JNum x => Some (numberToString x)
  | JStr s => Some s
  | JArr items =>
      option_map (join ",")
        (mapOption (fun item => match item with JNull => Some "" | _ => toString item end)
                   items)
  | JObj fields =>
      match ownProperty "toString" fields with
      | Some _ => None
      | None => Some "[object Object]"
      end
  end.

Definition toNumber (v : json) : option number :=
  match v with
  | JNull => Some (S754_zero false)
  | JBool b => Some (if b then ofZ 1 else S754_zero false)
  | JNum x => Some x
  | JStr s => Some (stringToNumber s)
  | JArr _ => option_map stringToNumber (toString v)
  | JObj fields =>
      match ownProperty "toString" fields with
      | Some _ => None
      | None => Some NaN
      end
  end.

Definition toBoolean (v : json) : bool :=
  match v with
  | JNull => false
  | JBool b => b
  | JNum x => negb (isNaN x || match x with S754_zero _ => true | _ => false end)
  | JStr s => negb (String.eqb s "")
  | JArr _ | JObj _ => true
  end.

(** *** [JSON.stringify(v, null, 2)] *)

Definition hexDigit (n : N) : ascii :=
  ascii_of_N (if (n <? 10)%N then n + 48 else n + 87).

Definition quoteChar (c : ascii) : string :=
  let n := N_of_ascii c in
  if (n =? 34)%N then "\" ++ String c ""
  else if (n =? 92)%N then "\\"
  else if (n =? 8)%N then "\b"
  else if (n =? 12)%N then "\f"
  else if (n =? 10)%N then "\n"
  else if (n =? 13)%N then "\r"
  else if (n =? 9)%N then "\t"
  else if (n <? 32)%N
  then "\u00" ++ String (hexDigit (n / 16)) (String (hexDigit (n mod 16)) "")
  else String c "".

Definition quote (s : string) : string :=
  let dq := String (ascii_of_nat 34) "" in
  dq ++ String.concat "" (map quoteChar (chars s)) ++ dq.

Fixpoint stringifyAt (indent : string) (v : json) : string :=
  let inner := indent ++ "  " in
  let sep := "," ++ nl ++ inner in
  match v with
  | JNull => "null"
  | JBool b => if b then "true" else "false"
  | JNum x => if isFinite x then numberToString x else "null"
  | JStr s => quote s
  | JArr [] => "[]"
  | JArr items =>
      "[" ++ nl ++ inner ++ join sep (map (stringifyAt inner) items) ++ nl ++ indent ++ "]"
  | JObj [] => "{}"
  | JObj fields =>
      "{" ++ nl ++ inner
      ++ join sep (map (fun kv : string * json => let (k, x) := kv in quote k ++ ": " ++ stringifyAt inner x) fields)
      ++ nl ++ indent ++ "}"
  end.

Definition stringify (v : json) : string := stringifyAt "" v.

(** [v.field] on such a value: the members of [Object.prototype] have none
    of the fields of the records of this program, so the access is
    [undefined] on them. *)
Definition dynField {A B : Type} (field : A -> B) (v : dyn A) : option B :=
  match v with
  | Typed a => Some (field a)
  | Foreign _ => None
  end.

(** [JSON.stringify(v, null, 2)] of a value typed [A]: a function has no
    JSON text ([None] is [undefined]) and [Object.prototype] has no
    enumerable property. *)
Definition stringifyDyn {A : Type} (toJson : A -> json) (v : dyn A) : option string :=
  match v with
  | Typed a => Some (stringify (toJson a))
  | Foreign m => if String.eqb m "__proto__" then Some "{}" else None
  end.

(** *** The regular expressions of the entity patterns *)

Inductive charSet : Type := Upper | Lower | Digit | Space | OneOf (cs : string).

Definition between (lo hi : N) (c : ascii) : bool :=
  ((lo <=? N_of_ascii c) && (N_of_ascii c <=? hi))%N.

Definition inSet (k : charSet) (c : ascii) : bool :=
  match k with
  | Upper => between 65 90 c
  | Lower => between 97 122 c
  | Digit => between 48 57 c
  | Space => isWhiteSpace c
  | OneOf cs => existsb (Ascii.eqb c) (chars cs)
  end.

(** [\w] *)
Definition isWordChar (c : option ascii) : bool :=
  match c with
  | Some c => between 65 90 c || between 97 122 c || between 48 57 c || Ascii.eqb c "_"
  | None => false
  end.

Inductive regex : Type :=
| Word (w : string)
| Many (k : charSet) (least : nat) (most : option nat)
| Boundary
| Then_ (r1 r2 : regex)
| Or_ (r1 r2 : regex).

(** Two pattern characters are the same under the [i] flag when their
    lower-case forms are, the patterns holding ASCII letters only. *)
Definition sameChar (ignoreCase : bool) (c d : ascii) : bool :=
  if ignoreCase && between 0 127 d then Ascii.eqb (lowerChar c) (lowerChar d)
  else Ascii.eqb c d.

Definition matcher : Type := option ascii -> list ascii -> option (list ascii).

Fixpoint matchWord (ignoreCase : bool) (w : list ascii) (prev : option ascii)
    (input : list ascii) : option (option ascii * list ascii) :=
  match w with
  | [] => Some (prev, input)
  | c :: w' =>
      match input with
      | d :: input' =>
          if sameChar ignoreCase c d then matchWord ignoreCase w' (Some d) input' else None
      | [] => None
      end
  end.

Definition exhausted (most : option nat) : bool :=
  match most with Some O => true | _ => false end.

(** Greedy repetition: one more character first, fewer when what follows
    fails. *)
Fixpoint matchMany (k : charSet) (least : nat) (most : option nat)
    (prev : option ascii) (input : list ascii) (next : matcher) : option (list ascii) :=
  let stop := if Nat.eqb least 0 then next prev input else None in
  match input with
  | d :: input' =>
      if inSet k d && negb (exhausted most)
      then match matchMany k (pred least) (option_map pred most) (Some d) input' next with
           | Some out => Some out
           | None => stop
           end
      else stop
  | [] => stop
  end.

Fixpoint matchRegex (ignoreCase : bool) (r : regex) (prev : option ascii)
    (input : list ascii) (next : matcher) : option (list ascii) :=
  match r with
  | Word w =>
      match matchWord ignoreCase (chars w) prev input with
      | Some (prev', input') => next prev' input'
      | None => None
      end
  | Many k least most => matchMany k least most prev input next
  | Boundary =>
      if xorb (isWordChar prev) (isWordChar (hd_error input)) then next prev input else None
  | Then_ r1 r2 =>
      matchRegex ignoreCase r1 prev input (fun p i => matchRegex ignoreCase r2 p i next)
  | Or_ r1 r2 =>
      match matchRegex ignoreCase r1 prev input next with
      | Some out => Some out
      | None => matchRegex ignoreCase r2 prev input next
      end
  end.

(** [text.matchAll(pattern)] for a global pattern that matches no empty
    string: the matched texts, left to right, each search resuming where the
    last match ended. *)
Fixpoint scan (ignoreCase : bool) (r : regex) (prev : option ascii)
    (input : list ascii) (skip : nat) : list string :=
  match input with
  | [] => []
  | c :: rest =>
      match skip with
      | S skip' => scan ignoreCase r (Some c) rest skip'
      | O =>
          match matchRegex ignoreCase r prev input (fun _ out => Some out) with
          | Some out =>
              match (List.length input - List.length out)%nat with
              | O => scan ignoreCase r (Some c) rest 0
              | S m => str (firstn (S m) input) :: scan ignoreCase r (Some c) rest m
              end
          | None => scan ignoreCase r (Some c) rest 0
          end
      end
  end.

Definition matchAll (ignoreCase : bool) (r : regex) (text : string) : list string :=
  scan ignoreCase r None (chars text) 0.

Fixpoint sequence (rs : list regex) (last : regex) : regex :=
  match rs with
  | [] => last
  | r :: rs' => Then_ r (sequence rs' last)
  end.

Fixpoint anyOf (w : string) (ws : list string) : regex :=
  match ws with
  | [] => Word w
  | w' :: ws' => Or_ (Word w) (anyOf w' ws')
  end.

(** [text.matchAll(m)] for a member [m] of [Object.prototype], which is no
    regular expression: the pattern is made of [String(m)], with the flag
    [g].  For the prototype itself the text is ["[object Object]"], a class
    of characters; for a function named [f] it is
    ["function f() { [native code] }"], where the parentheses are an empty
    group, the braces stand for themselves and the brackets are a class.
    The member [constructor] is the function [Object]. *)
Definition memberPattern (member : string) : regex :=
  if String.eqb member "__proto__" then Many (OneOf "object Object") 1 (Some 1%nat)
  else
    let f := if String.eqb member "constructor" then "Object" else member in
    sequence [Word ("function " ++ f); Word " { "; Many (OneOf "native code") 1 (Some 1%nat)]
             (Word " }").

End Js.

Import Js.

(** ** [result.ts]: the result container *)

Inductive Result (T E : Type) : Type :=
| Ok (value : T)
| Err (error : E).
Arguments Ok {T E} value.
Arguments Err {T E} error.

Definition isOk {T E : Type} (r : Result T E) : bool :=
  match r with Ok _ => true | Err _ => false end.

Definition unwrapOr {T E : Type} (result : Result T E) (defaultValue : T) : T :=
  match result with
  | Ok value => value
  | Err _ => defaultValue
  end.

Definition mapResult {T U E : Type} (result : Result T E) (fn : T -> U) : Result U E :=
  match result with
  | Ok value => Ok (fn value)
  | Err error => Err error
  end.

(** ** Calls that may throw

    An [async] function settles with a value or rejects with what was
    thrown; [await] on a rejection throws it again at the caller. *)

Inductive outcome (X A : Type) : Type :=
| Returned (a : A)
| Thrown (e : X).
Arguments Returned {X A} a.
Arguments Thrown {X A} e.

Definition await {X A B : Type} (c : outcome X A) (k : A -> outcome X B) : outcome X B :=
  match c with
  | Returned a => k a
  | Thrown e => Thrown e
  end.

Notation "'let*' x ':=' c 'in' k" := (await c (fun x => k))
  (at level 10, x name, c at level 100, k at level 200).

(** A value thrown by a collaborator of the server (a provider, the SDK),
    known by what [String(err)] makes of it. *)
Record fault : Type := { rendering : string }.

Definition promise (A : Type) : Type := outcome fault A.

(** The [TypeError] of a conversion to a primitive that finds nothing it
    can call. *)
Definition cannotConvert : fault :=
  {| rendering := "TypeError: Cannot convert object to primitive value" |}.

(** ** Zod: the schemas of the tool inputs and [schema.parse] *)

Module Zod.

Inductive check : Type :=
| Int
| Positive
| Min (bound : number)
| Max (bound : number).

Inductive schema : Type :=
| ZString (minLength : nat)
| ZNumber (checks : list check)
| ZEnum (values : list string)
| ZArray (item : schema).

(** A key of [z.object({...})]; [default] is [Some d] for
    [.optional().default(d)] and [None] for a required key. *)
Record field : Type := { name : string; type : schema; default : option json }.

Inductive code : Type := invalid_type | too_small | too_big | invalid_enum_value.

Inductive step : Type := Key (k : string) | Index (i : nat).

Record issue : Type := { problem : code; path : list step }.

Definition checkNumber (x : number) (at_ : list step) (c : check) : list issue :=
  match c with
  | Int => if isInteger x then [] else [{| problem := invalid_type; path := at_ |}]
  | Positive => if le x (S754_zero false) then [{| problem := too_small; path := at_ |}] else []
  | Min bound => if lt x bound then [{| problem := too_small; path := at_ |}] else []
  | Max bound => if lt bound x then [{| problem := too_big; path := at_ |}] else []
  end.

(** The issues a value raises against a schema; none when it conforms. *)
Fixpoint validate (s : schema) (at_ : list step) (v : json) : list issue :=
  match s, v with
  | ZString minLength, JStr x =>
      if (String.length x <? minLength)%nat
      then [{| problem := too_small; path := at_ |}] else []
  | ZNumber checks, JNum x =>
      if isNaN x then [{| problem := invalid_type; path := at_ |}]
      else flat_map (checkNumber x at_) checks
  | ZEnum values, JStr x =>
      if existsb (String.eqb x) values then []
      else [{| problem := invalid_enum_value; path := at_ |}]
  | ZArray item, JArr xs =>
      (fix each (i : nat) (xs : list json) : list issue :=
         match xs with
         | [] => []
         | x :: xs' => (validate item (at_ ++ [Index i])%list x ++ each (S i) xs')%list
         end) O xs
  | _, _ => [{| problem := invalid_type; path := at_ |}]
  end.

(** One key of the object: its value when present and conforming, its
    default when absent, issues otherwise. *)
Definition parseField (f : field) (data : list (string * json)) : list issue + json :=
  match ownProperty (name f) data with
  | None =>
      match default f with
      | Some d => inr d
      | None => inl [{| problem := invalid_type; path := [Key (name f)] |}]
      end
  | Some v =>
      match validate (type f) [Key (name f)] v with
      | [] => inr v
      | issues => inl issues
      end
  end.

(** All keys of the shape: the issues of all of them, and the parsed object
    (unknown keys are stripped). *)
Fixpoint parseFields (shape : list field) (data : list (string * json))
  : list issue * list (string * json) :=
  match shape with
  | [] => ([], [])
  | f :: shape' =>
      let (issues, parsed) := parseFields shape' data in
      match parseField f data with
      | inl mine => ((mine ++ issues)%list, parsed)
      | inr v => (issues, (name f, v) :: parsed)
      end
  end.

(** [schema.parse(args)]: the parsed object, or the issues of the [ZodError]
    it throws. *)
Definition parse (shape : list field) (args : option json)
  : list issue + list (string * json) :=
  match args with
  | Some (JObj data) =>
      match parseFields shape data with
      | ([], parsed) => inr parsed
      | (issues, _) => inl issues
      end
  | _ => inl [{| problem := invalid_type; path := [] |}]
  end.

(** The typed view of a parsed object, [z.infer<typeof Schema>]. *)
Definition getString (k : string) (parsed : list (string * json)) : string :=
  match ownProperty k parsed with Some (JStr s) => s | _ => "" end.

Definition getNumber (k : string) (parsed : list (string * json)) : number :=
  match ownProperty k parsed with Some (JNum x) => x | _ => NaN end.

Definition getStrings (k : string) (parsed : list (string * json)) : list string :=
  match ownProperty k parsed with
  | Some (JArr xs) => map (fun x => match x with JStr s => s | _ => "" end) xs
  | _ => []
  end.

End Zod.

(** What the dispatcher can throw: the [ZodError] of a failed [parse], or
    what a handler threw. *)
Inductive thrown : Type :=
| ZodError (issues : list Zod.issue)
| HandlerFault (e : fault).

(** ** [providers/provider.ts]: the provider interfaces *)

Module CompletionOptions.
Record t : Type := { maxTokens : option number; temperature : option number; model : option string }.
End CompletionOptions.

Module SearchResult.
Record t : Type := { title : string; url : string; snippet : string; score : number }.
Definition toJson (r : t) : json :=
  JObj [("title", JStr (title r)); ("url", JStr (url r));
        ("snippet", JStr (snippet r)); ("score", JNum (score r))].
End SearchResult.

Module WeatherData.
Inductive unit_ : Type := celsius | fahrenheit.
Definition unitName (u : unit_) : string :=
  match u with celsius => "celsius" | fahrenheit => "fahrenheit" end.
Record t : Type := {
  location : string;
  temperature : number;
  unit : unit_;
  condition : string;
  humidity : number;
  wind_speed : number;
  forecast : string
}.
Definition toJson (d : t) : json :=
  JObj [("location", JStr (location d)); ("temperature", JNum (temperature d));
        ("unit", JStr (unitName (unit d))); ("condition", JStr (condition d));
        ("humidity", JNum (humidity d)); ("wind_speed", JNum (wind_speed d));
        ("forecast", JStr (forecast d))].
End WeatherData.

Definition TextProvider : Type :=
  string -> CompletionOptions.t -> promise (Result string string).
Definition WebSearchProvider : Type :=
  string -> number -> promise (Result (list SearchResult.t) string).
Definition WeatherProvider : Type :=
  string -> promise (Result (dyn WeatherData.t) string).

Module Providers.
Record t : Type := { text : TextProvider; search : WebSearchProvider; weather : WeatherProvider }.
End Providers.

(** ** [providers/mock.ts]: the mock providers *)

Module Mock.

(** [MockTextProvider.complete] *)
Definition complete (prompt : string) (_options : CompletionOptions.t)
  : promise (Result string string) :=
  let words := splitWhiteSpace (toLowerCase prompt) in
  let topics := join ", " (slice0 5 words) in
  let templates :=
    [ "Based on the analysis of " ++ topics ++ ", the key findings suggest a nuanced perspective. The evidence points to several interconnected factors that influence the outcome.";
      "Regarding " ++ topics ++ ": the current understanding indicates multiple contributing factors. Research suggests that a comprehensive approach yields the best results.";
      "The topic of " ++ topics ++ " involves several important considerations. A balanced assessment reveals both strengths and areas for further investigation." ] in
  let index := (String.length prompt mod List.length templates)%nat in
  Returned (Ok (nth index templates "")).

Definition domains : list string :=
  ["docs.example.com"; "blog.techsite.com"; "research.papers.io";
   "tutorial.dev"; "wiki.knowledge.org"].

(** [1.0 - i * 0.15] *)
Definition scoreAt (i : nat) : number :=
  sub (ofDecimal 10 (-1)) (mul (ofZ (Z.of_nat i)) (ofDecimal 15 (-2))).

(** The result pushed at index [i]. *)
Definition resultAt (query : string) (words : list string) (i : nat) : SearchResult.t :=
  {| SearchResult.title := join " " (slice0 3 words) ++ " - Result " ++ decimal (Z.of_nat (i + 1));
     SearchResult.url := "https://" ++ nth i domains "undefined" ++ "/" ++ join "-" words;
     SearchResult.snippet :=
       "Comprehensive guide about " ++ query
       ++ ". This resource covers the fundamentals and advanced topics related to "
       ++ join " " (slice0 2 words) ++ ".";
     SearchResult.score := scoreAt i |}.

(** The [for] loop of [search], from index [i] on: it goes on while
    [i < Math.min(maxResults, domains.length)]; [fuel] bounds the number of
    turns. *)
Fixpoint searchFrom (fuel : nat) (query : string) (words : list string)
    (maxResults : number) (i : nat) : list SearchResult.t :=
  match fuel with
  | O => []
  | S fuel' =>
      if lt (ofZ (Z.of_nat i)) (Math_min maxResults (ofZ (Z.of_nat (List.length domains))))
      then resultAt query words i :: searchFrom fuel' query words maxResults (S i)
      else []
  end.

(** [MockWebSearchProvider.search]; the loop takes no more turns than there
    are domains (lemma [search_fuel] below). *)
Definition search (query : string) (maxResults : number)
  : promise (Result (list SearchResult.t) string) :=
  let words := splitWhiteSpace (toLowerCase query) in
  Returned (Ok (searchFrom (List.length domains) query words maxResults 0)).

(** [MockWeatherProvider.mockData] *)
Definition mockData : list (string * WeatherData.t) :=
  [ ("san francisco",
     {| WeatherData.location := "San Francisco, CA";
        WeatherData.temperature := ofZ 62;
        WeatherData.unit := WeatherData.fahrenheit;
        WeatherData.condition := "Partly Cloudy";
        WeatherData.humidity := ofZ 72;
        WeatherData.wind_speed := ofZ 12;
        WeatherData.forecast := "Mild with coastal fog clearing by afternoon" |});
    ("new york",
     {| WeatherData.location := "New York, NY";
        WeatherData.temperature := ofZ 45;
        WeatherData.unit := WeatherData.fahrenheit;
        WeatherData.condition := "Clear";
        WeatherData.humidity := ofZ 55;
        WeatherData.wind_speed := ofZ 8;
        WeatherData.forecast := "Clear skies with seasonal temperatures" |});
    ("london",
     {| WeatherData.location := "London, UK";
        WeatherData.temperature := ofZ 8;
        WeatherData.unit := WeatherData.celsius;
        WeatherData.condition := "Overcast";
        WeatherData.humidity := ofZ 85;
        WeatherData.wind_speed := ofZ 15;
        WeatherData.forecast := "Grey skies with chance of light rain" |}) ].

(** [MockWeatherProvider.getWeather]: [this.mockData[key]] is a property
    access on an object literal, so it also finds what the literal
    inherits. *)
Definition getWeather (location : string) : promise (Result (dyn WeatherData.t) string) :=
  let key := trim (toLowerCase location) in
  match getProperty mockData key with
  | Some data => Returned (Ok data)
  | None =>
      Returned (Ok (Typed
        {| WeatherData.location := location;
           WeatherData.temperature := ofZ 70;
           WeatherData.unit := WeatherData.fahrenheit;
           WeatherData.condition := "Clear";
           WeatherData.humidity := ofZ 50;
           WeatherData.wind_speed := ofZ 10;
           WeatherData.forecast := "Typical conditions for " ++ location |}))
  end.

Definition providers : Providers.t :=
  {| Providers.text := complete; Providers.search := search; Providers.weather := getWeather |}.

End Mock.

(** ** [tools/text-analysis.ts] *)

Module TextAnalysis.

Definition SummarizeSchema : list Zod.field :=
  [ {| Zod.name := "text"; Zod.type := Zod.ZString 1; Zod.default := None |};
    {| Zod.name := "maxLength"; Zod.type := Zod.ZNumber [Zod.Int; Zod.Positive];
       Zod.default := Some (JNum (ofZ 100)) |} ].

Definition SentimentSchema : list Zod.field :=
  [ {| Zod.name := "text"; Zod.type := Zod.ZString 1; Zod.default := None |} ].

Definition entityTypes : list string :=
  ["person"; "organization"; "location"; "date"; "technology"].

Definition EntitySchema : list Zod.field :=
  [ {| Zod.name := "text"; Zod.type := Zod.ZString 1; Zod.default := None |};
    {| Zod.name := "types"; Zod.type := Zod.ZArray (Zod.ZEnum entityTypes);
       Zod.default := Some (JArr [JStr "person"; JStr "organization"; JStr "location"]) |} ].

Module SummarizeInput.
Record t : Type := { text : string; maxLength : number }.
Definition ofParsed (o : list (string * json)) : t :=
  {| text := Zod.getString "text" o; maxLength := Zod.getNumber "maxLength" o |}.
End SummarizeInput.

Module SentimentInput.
Record t : Type := { text : string }.
Definition ofParsed (o : list (string * json)) : t := {| text := Zod.getString "text" o |}.
End SentimentInput.

Module EntityInput.
Record t : Type := { text : string; types : list string }.
Definition ofParsed (o : list (string * json)) : t :=
  {| text := Zod.getString "text" o; types := Zod.getStrings "types" o |}.
End EntityInput.

Inductive sentiment_ : Type := positive_ | negative_ | neutral | mixed.

Definition sentimentName (s : sentiment_) : string :=
  match s with
  | positive_ => "positive" | negative_ => "negative" | neutral => "neutral" | mixed => "mixed"
  end.

Module SentimentResult.
Record t : Type := { sentiment : sentiment_; confidence : number; explanation : string }.
Definition toJson (r : t) : json :=
  JObj [("sentiment", JStr (sentimentName (sentiment r)));
        ("confidence", JNum (confidence r)); ("explanation", JStr (explanation r))].
End SentimentResult.

Module Entity.
Record t : Type := { text : string; type : string; confidence : number }.
Definition toJson (e : t) : json :=
  JObj [("text", JStr (text e)); ("type", JStr (type e)); ("confidence", JNum (confidence e))].
End Entity.

Definition summarize (input : SummarizeInput.t) (provider : TextProvider)
  : promise (Result string string) :=
  let prompt :=
    "Summarize the following text in " ++ numberToString (SummarizeInput.maxLength input)
    ++ " words or fewer:" ++ nl ++ nl ++ SummarizeInput.text input in
  provider prompt
    {| CompletionOptions.maxTokens := Some (mul (SummarizeInput.maxLength input) (ofZ 2));
       CompletionOptions.temperature := None;
       CompletionOptions.model := None |}.

Definition positiveWords : list string :=
  ["good"; "great"; "excellent"; "amazing"; "wonderful"; "love"; "best";
   "happy"; "fantastic"; "brilliant"; "outstanding"; "perfect"].

Definition negativeWords : list string :=
  ["bad"; "terrible"; "awful"; "worst"; "hate"; "horrible"; "poor";
   "disappointing"; "failure"; "broken"; "useless"; "wrong"].

(** One turn of the [for (const word of words)] loop on the two counters. *)
Definition countWord (counts : nat * nat) (word : string) : nat * nat :=
  let (positiveCount, negativeCount) := counts in
  (if existsb (includes word) positiveWords then S positiveCount else positiveCount,
   if existsb (includes word) negativeWords then S negativeCount else negativeCount).

Definition countWords (words : list string) : nat * nat :=
  fold_left countWord words (O, O).

(** The classification of [analyzeSentiment] from the two counters. *)
Definition classify (positiveCount negativeCount : nat) : SentimentResult.t :=
  let total := (positiveCount + negativeCount)%nat in
  let p := Z.of_nat positiveCount in
  let n := Z.of_nat negativeCount in
  let '(sentiment, confidence, explanation) :=
    if Nat.eqb total 0 then
      (neutral, ofDecimal 6 (-1), "No strong sentiment indicators found in the text.")
    else if (0 <? positiveCount)%nat && (0 <? negativeCount)%nat then
      (mixed,
       add (ofDecimal 5 (-1)) (div (ofZ (Z.abs (p - n))) (ofZ (Z.of_nat total * 2))),
       "Found " ++ decimal p ++ " positive and " ++ decimal n ++ " negative indicators.")
    else if (negativeCount <? positiveCount)%nat then
      (positive_,
       add (ofDecimal 6 (-1)) (Math_min (ofDecimal 35 (-2)) (mul (ofZ p) (ofDecimal 1 (-1)))),
       "Strong positive sentiment with " ++ decimal p ++ " positive indicators.")
    else
      (negative_,
       add (ofDecimal 6 (-1)) (Math_min (ofDecimal 35 (-2)) (mul (ofZ n) (ofDecimal 1 (-1)))),
       "Negative sentiment detected with " ++ decimal n ++ " negative indicators.") in
  {| SentimentResult.sentiment := sentiment;
     SentimentResult.confidence := Math_min confidence (ofDecimal 10 (-1));
     SentimentResult.explanation := explanation |}.

Definition analyzeSentiment (input : SentimentInput.t) (_provider : TextProvider)
  : promise (Result SentimentResult.t string) :=
  let text := toLowerCase (SentimentInput.text input) in
  let words := splitWhiteSpace text in
  let (positiveCount, negativeCount) := countWords words in
  Returned (Ok (classify positiveCount negativeCount)).

Definition months : regex :=
  anyOf "January" ["February"; "March"; "April"; "May"; "June"; "July"; "August";
                   "September"; "October"; "November"; "December"].

(** [patterns]: each pattern with its [i] flag. *)
Definition patterns : list (string * (bool * regex)) :=
  [ ("person",
     (false, sequence [Boundary; Many Upper 1 (Some 1%nat); Many Lower 1 None; Word " ";
                       Many Upper 1 (Some 1%nat); Many Lower 1 None] Boundary));
    ("organization",
     (true, sequence [Boundary;
                      anyOf "Google" ["Microsoft"; "Apple"; "Amazon"; "Meta"; "OpenAI";
                                      "Anthropic"; "Netflix"; "Tesla"]] Boundary));
    ("location",
     (true, sequence [Boundary;
                      anyOf "New York" ["San Francisco"; "London"; "Tokyo"; "Paris"; "Berlin";
                                        "Seattle"; "Austin"; "Chicago"]] Boundary));
    ("date",
     (true, Or_ (sequence [Boundary; Many Digit 4 (Some 4%nat); Many (OneOf "-/") 1 (Some 1%nat);
                           Many Digit 2 (Some 2%nat); Many (OneOf "-/") 1 (Some 1%nat);
                           Many Digit 2 (Some 2%nat)] Boundary)
                (sequence [Boundary; months; Many Space 1 None; Many Digit 1 (Some 2%nat);
                           Many (OneOf ",") 0 (Some 1%nat); Many Space 1 None;
                           Many Digit 4 (Some 4%nat)] Boundary)));
    ("technology",
     (true, sequence [Boundary;
                      anyOf "Python" ["TypeScript"; "JavaScript"; "React"; "Docker"; "Kubernetes";
                                      "GraphQL"; "REST"; "PostgreSQL"; "MongoDB"; "Redis";
                                      "LangChain"; "ChromaDB"]] Boundary)) ].

(** The inner loop over the matches of one pattern: [seen] holds the
    lower-cased texts already pushed for this type. *)
Fixpoint pushMatches (type : string) (matches : list string) (seen : list string)
  : list Entity.t :=
  match matches with
  | [] => []
  | entityText :: rest =>
      if existsb (String.eqb (toLowerCase entityText)) seen
      then pushMatches type rest seen
      else {| Entity.text := entityText; Entity.type := type;
              Entity.confidence := ofDecimal 85 (-2) |}
           :: pushMatches type rest (toLowerCase entityText :: seen)
  end.

(** [patterns[type]] finds a pattern for the five types of the schema, and
    for a name that the table inherits the member of that name, which is
    truthy and is matched as [memberPattern] tells; a type for which it
    finds nothing is skipped. *)
Definition extractEntities (input : EntityInput.t) (_provider : TextProvider)
  : promise (Result (list Entity.t) string) :=
  let text := EntityInput.text input in
  Returned (Ok (flat_map
    (fun type =>
       match getProperty patterns type with
       | Some (Typed (ignoreCase, pattern)) => pushMatches type (matchAll ignoreCase pattern text) []
       | Some (Foreign member) => pushMatches type (matchAll false (memberPattern member) text) []
       | None => []
       end)
    (EntityInput.types input))).

End TextAnalysis.

(** ** [tools/web-search.ts] *)

Module WebSearch.

Definition SearchSchema : list Zod.field :=
  [ {| Zod.name := "query"; Zod.type := Zod.ZString 1; Zod.default := None |};
    {| Zod.name := "maxResults";
       Zod.type := Zod.ZNumber [Zod.Int; Zod.Min (ofZ 1); Zod.Max (ofZ 20)];
       Zod.default := Some (JNum (ofZ 5)) |} ].

Module SearchInput.
Record t : Type := { query : string; maxResults : number }.
Definition ofParsed (o : list (string * json)) : t :=
  {| query := Zod.getString "query" o; maxResults := Zod.getNumber "maxResults" o |}.
End SearchInput.

Definition webSearch (input : SearchInput.t) (provider : WebSearchProvider)
  : promise (Result (list SearchResult.t) string) :=
  provider (SearchInput.query input) (SearchInput.maxResults input).

End WebSearch.

(** ** [tools/weather.ts] *)

Module Weather.

Definition WeatherSchema : list Zod.field :=
  [ {| Zod.name := "location"; Zod.type := Zod.ZString 1; Zod.default := None |};
    {| Zod.name := "unit"; Zod.type := Zod.ZEnum ["celsius"; "fahrenheit"];
       Zod.default := Some (JStr "fahrenheit") |} ].

Module WeatherInput.
Record t : Type := { location : string; unit : string }.
Definition ofParsed (o : list (string * json)) : t :=
  {| location := Zod.getString "location" o; unit := Zod.getString "unit" o |}.
End WeatherInput.

Definition getWeather (input : WeatherInput.t) (provider : WeatherProvider)
  : promise (Result (dyn WeatherData.t) string) :=
  provider (WeatherInput.location input).

End Weather.

(** ** The SDK server, as far as the two callback tools use it *)

Module Sdk.

Inductive messageContent : Type :=
| TextContent (text : string)
| ImageContent (data mimeType : string)
| AudioContent (data mimeType : string).

Module SamplingMessage.
Record t : Type := { role : string; content : messageContent }.
End SamplingMessage.

Module CreateMessageRequest.
Record t : Type := {
  messages : list SamplingMessage.t;
  maxTokens : number;
  systemPrompt : string
}.
End CreateMessageRequest.

Module CreateMessageResult.
Record t : Type := { role : string; content : messageContent; model : string }.
End CreateMessageResult.

Module ElicitRequest.
Record t : Type := { message : string; requestedSchema : json }.
End ElicitRequest.

(** [{ action: string; content?: unknown }]: [content] is [None] when the
    property is absent. *)
Module ElicitResult.
Record t : Type := { action : string; content : option json }.
End ElicitResult.

Module Server.
Record t : Type := {
  createMessage : CreateMessageRequest.t -> promise CreateMessageResult.t;
  elicitInput : ElicitRequest.t -> promise ElicitResult.t
}.
End Server.

End Sdk.

(** ** [tools/sampling.ts] *)

Module Sampling.
Import Sdk.

Definition SmartSummarizeSchema : list Zod.field :=
  [ {| Zod.name := "text"; Zod.type := Zod.ZString 1; Zod.default := None |};
    {| Zod.name := "maxLength"; Zod.type := Zod.ZNumber [Zod.Int; Zod.Positive];
       Zod.default := Some (JNum (ofZ 150)) |} ].

Module SmartSummarizeInput.
Record t : Type := { text : string; maxLength : number }.
Definition ofParsed (o : list (string * json)) : t :=
  {| text := Zod.getString "text" o; maxLength := Zod.getNumber "maxLength" o |}.
End SmartSummarizeInput.

(** The one request [smartSummarize] sends. *)
Definition samplingRequest (input : SmartSummarizeInput.t) : CreateMessageRequest.t :=
  {| CreateMessageRequest.messages :=
       [ {| SamplingMessage.role := "user";
            SamplingMessage.content :=
              TextContent
                ("Please summarize the following text in approximately "
                 ++ numberToString (SmartSummarizeInput.maxLength input)
                 ++ " words or fewer. Be concise and capture the key points:"
                 ++ nl ++ nl ++ SmartSummarizeInput.text input) |} ];
     CreateMessageRequest.maxTokens := mul (SmartSummarizeInput.maxLength input) (ofZ 4);
     CreateMessageRequest.systemPrompt :=
       "You are a helpful assistant that creates concise, accurate summaries." |}.

Definition smartSummarize (input : SmartSummarizeInput.t) (server : Server.t)
  : promise (Result string string) :=
  match Server.createMessage server (samplingRequest input) with
  | Returned response =>
      match CreateMessageResult.content response with
      | TextContent text => Returned (Ok text)
      | _ => Returned (Err "Client returned non-text sampling response")
      end
  | Thrown err => Returned (Err ("Sampling request failed: " ++ rendering err))
  end.

End Sampling.

(** ** [tools/elicitation.ts] *)

Module Elicitation.
Import Sdk.

Definition ConfigureAnalysisSchema : list Zod.field :=
  [ {| Zod.name := "text"; Zod.type := Zod.ZString 1; Zod.default := None |} ].

Module ConfigureAnalysisInput.
Record t : Type := { text : string }.
Definition ofParsed (o : list (string * json)) : t := {| text := Zod.getString "text" o |}.
End ConfigureAnalysisInput.

(** [depth] is whatever the client sent: the source only casts it. *)
Module AnalysisConfig.
Record t : Type := {
  depth : json;
  includeSentiment : bool;
  includeEntities : bool;
  maxSummaryWords : number
}.
Definition toJson (c : t) : json :=
  JObj [("depth", depth c); ("includeSentiment", JBool (includeSentiment c));
        ("includeEntities", JBool (includeEntities c));
        ("maxSummaryWords", JNum (maxSummaryWords c))].
End AnalysisConfig.

Inductive action_ : Type := accept | decline | cancel.

Definition actionName (a : action_) : string :=
  match a with accept => "accept" | decline => "decline" | cancel => "cancel" end.

Module ConfigureAnalysisResult.
Record t : Type := { action : action_; config : option AnalysisConfig.t; message : string }.
Definition toJson (r : t) : json :=
  JObj (("action", JStr (actionName (action r)))
        :: match config r with
           | Some c => [("config", AnalysisConfig.toJson c)]
           | None => []
           end
        ++ [("message", JStr (message r))])%list.
End ConfigureAnalysisResult.

Definition ANALYSIS_CONFIG_SCHEMA : json :=
  JObj
    [ ("type", JStr "object");
      ("properties",
       JObj
         [ ("depth",
            JObj [("type", JStr "string");
                  ("enum", JArr [JStr "quick"; JStr "standard"; JStr "deep"]);
                  ("description", JStr "Analysis depth level");
                  ("default", JStr "standard")]);
           ("includeSentiment",
            JObj [("type", JStr "boolean");
                  ("description", JStr "Include sentiment analysis");
                  ("default", JBool true)]);
           ("includeEntities",
            JObj [("type", JStr "boolean");
                  ("description", JStr "Include entity extraction");
                  ("default", JBool true)]);
           ("maxSummaryWords",
            JObj [("type", JStr "number");
                  ("description", JStr "Maximum words in summary");
                  ("default", JNum (ofZ 100))]) ]);
      ("required",
       JArr [JStr "depth"; JStr "includeSentiment"; JStr "includeEntities";
             JStr "maxSummaryWords"]) ].

(** The one request [configureAnalysis] sends. *)
Definition elicitRequest (input : ConfigureAnalysisInput.t) : ElicitRequest.t :=
  {| ElicitRequest.message :=
       "Configure analysis options for the provided text ("
       ++ decimal (Z.of_nat (String.length (ConfigureAnalysisInput.text input)))
       ++ " characters):";
     ElicitRequest.requestedSchema := ANALYSIS_CONFIG_SCHEMA |}.

Definition defaultConfig : AnalysisConfig.t :=
  {| AnalysisConfig.depth := JStr "standard";
     AnalysisConfig.includeSentiment := true;
     AnalysisConfig.includeEntities := true;
     AnalysisConfig.maxSummaryWords := ofZ 100 |}.

(** [content != null] *)
Definition notNullish (content : option json) : option json :=
  match content with
  | None | Some JNull => None
  | Some raw => Some raw
  end.

(** The configuration read from the form data the user submitted; [None]
    when [Number(...)] throws on what the data hold for the number of
    words. *)
Definition readConfig (raw : json) : option AnalysisConfig.t :=
  option_map
    (fun maxSummaryWords =>
       {| AnalysisConfig.depth := nullish (member "depth" raw) (JStr "standard");
          AnalysisConfig.includeSentiment :=
            toBoolean (nullish (member "includeSentiment" raw) (JBool true));
          AnalysisConfig.includeEntities :=
            toBoolean (nullish (member "includeEntities" raw) (JBool true));
          AnalysisConfig.maxSummaryWords := maxSummaryWords |})
    (toNumber (nullish (member "maxSummaryWords" raw) (JNum (ofZ 100)))).

Definition boolText (b : bool) : string := if b then "true" else "false".

(** The [try] of [configureAnalysis] holds the request only: the
    conversions of what the user submitted come after it, and what they
    throw rejects the promise. *)
Definition configureAnalysis (input : ConfigureAnalysisInput.t) (server : Server.t)
  : promise (Result ConfigureAnalysisResult.t string) :=
  match Server.elicitInput server (elicitRequest input) with
  | Thrown _err =>
      Returned (Ok
        {| ConfigureAnalysisResult.action := accept;
           ConfigureAnalysisResult.config := Some defaultConfig;
           ConfigureAnalysisResult.message :=
             "Using default configuration (elicitation not supported by client)." |})
  | Returned elicitResult =>
      match (if String.eqb (ElicitResult.action elicitResult) "accept"
             then notNullish (ElicitResult.content elicitResult) else None) with
      | Some raw =>
          match readConfig raw with
          | None => Thrown cannotConvert
          | Some config =>
              match toString (AnalysisConfig.depth config) with
              | None => Thrown cannotConvert
              | Some depth =>
                  Returned (Ok
                    {| ConfigureAnalysisResult.action := accept;
                       ConfigureAnalysisResult.config := Some config;
                       ConfigureAnalysisResult.message :=
                         "Analysis configured: depth=" ++ depth
                         ++ ", sentiment=" ++ boolText (AnalysisConfig.includeSentiment config)
                         ++ ", entities=" ++ boolText (AnalysisConfig.includeEntities config)
                         ++ ", maxWords="
                         ++ numberToString (AnalysisConfig.maxSummaryWords config) |})
              end
          end
      | None =>
          if String.eqb (ElicitResult.action elicitResult) "decline"
          then
            Returned (Ok
              {| ConfigureAnalysisResult.action := decline;
                 ConfigureAnalysisResult.config := None;
                 ConfigureAnalysisResult.message :=
                   "User declined to configure analysis. Using default settings would be required to proceed." |})
          else
            Returned (Ok
              {| ConfigureAnalysisResult.action := cancel;
                 ConfigureAnalysisResult.config := None;
                 ConfigureAnalysisResult.message :=
                   "User cancelled the analysis configuration dialog." |})
      end
  end.

End Elicitation.

(** ** [server.ts]: the dispatcher of tool calls *)

Module ServerTs.
Import TextAnalysis WebSearch Weather Sampling Elicitation.

Module TextItem.
Record t : Type := { type : string; text : option string }.
End TextItem.

(** [isError] is [false] where the source leaves the property out. *)
Module CallToolResult.
Record t : Type := {
  content : list TextItem.t;
  structuredContent : option json;
  isError : bool
}.
End CallToolResult.

(** The handlers the dispatcher imports. *)
Module Handlers.
Record t : Type := {
  summarize : SummarizeInput.t -> TextProvider -> promise (Result string string);
  analyzeSentiment : SentimentInput.t -> TextProvider -> promise (Result SentimentResult.t string);
  extractEntities : EntityInput.t -> TextProvider -> promise (Result (list Entity.t) string);
  webSearch : SearchInput.t -> WebSearchProvider -> promise (Result (list SearchResult.t) string);
  getWeather : WeatherInput.t -> WeatherProvider -> promise (Result (dyn WeatherData.t) string);
  smartSummarize : SmartSummarizeInput.t -> Sdk.Server.t -> promise (Result string string);
  configureAnalysis :
    ConfigureAnalysisInput.t -> Sdk.Server.t -> promise (Result ConfigureAnalysisResult.t string)
}.
End Handlers.

(** The names [ListToolsRequestSchema] advertises. *)
Definition toolNames : list string :=
  ["summarize"; "analyze_sentiment"; "extract_entities"; "brave_web_search";
   "get_weather"; "smart_summarize"; "configure_analysis"].

(** The schema each [case] of the dispatcher parses its arguments with. *)
Definition inputSchemas : list (string * list Zod.field) :=
  [ ("summarize", SummarizeSchema);
    ("analyze_sentiment", SentimentSchema);
    ("extract_entities", EntitySchema);
    ("brave_web_search", SearchSchema);
    ("get_weather", WeatherSchema);
    ("smart_summarize", SmartSummarizeSchema);
    ("configure_analysis", ConfigureAnalysisSchema) ].

(** [Schema.parse(args)] in the dispatcher: a failure throws. *)
Definition parseArgs (shape : list Zod.field) (args : option json)
  : outcome thrown (list (string * json)) :=
  match Zod.parse shape args with
  | inr parsed => Returned parsed
  | inl issues => Thrown (ZodError issues)
  end.

(** [await handler(...)] in the dispatcher, which has no [try]. *)
Definition awaitHandler {A : Type} (call : promise A) : outcome thrown A :=
  match call with
  | Returned a => Returned a
  | Thrown e => Thrown (HandlerFault e)
  end.

Definition textItem (text : option string) : TextItem.t :=
  {| TextItem.type := "text"; TextItem.text := text |}.

(** [{ content: [{ type: "text", text: `Error: ${result.error}` }], isError: true }] *)
Definition errorResult (error : string) : CallToolResult.t :=
  {| CallToolResult.content := [textItem (Some ("Error: " ++ error))];
     CallToolResult.structuredContent := None;
     CallToolResult.isError := true |}.

Definition textResult (text : option string) (structured : option json) : CallToolResult.t :=
  {| CallToolResult.content := [textItem text];
     CallToolResult.structuredContent := structured;
     CallToolResult.isError := false |}.

(** What each [case] returns from the result of its handler. *)
Definition respond {A : Type} (result : Result A string) (onValue : A -> CallToolResult.t)
  : CallToolResult.t :=
  match result with
  | Err error => errorResult error
  | Ok value => onValue value
  end.

(** The handler installed for [CallToolRequestSchema], over the handlers it
    imports. *)
Definition callToolWith (h : Handlers.t) (providers : Providers.t) (server : Sdk.Server.t)
    (name : string) (args : option json) : outcome thrown CallToolResult.t :=
  if String.eqb name "summarize" then
    let* parsed := parseArgs SummarizeSchema args in
    let* result := awaitHandler
      (Handlers.summarize h (SummarizeInput.ofParsed parsed) (Providers.text providers)) in
    Returned (respond result (fun value =>
      textResult (Some value) (Some (JObj [("summary", JStr value)]))))
  else if String.eqb name "analyze_sentiment" then
    let* parsed := parseArgs SentimentSchema args in
    let* result := awaitHandler
      (Handlers.analyzeSentiment h (SentimentInput.ofParsed parsed) (Providers.text providers)) in
    Returned (respond result (fun value =>
      textResult (Some (stringify (SentimentResult.toJson value)))
                 (Some (SentimentResult.toJson value))))
  else if String.eqb name "extract_entities" then
    let* parsed := parseArgs EntitySchema args in
    let* result := awaitHandler
      (Handlers.extractEntities h (EntityInput.ofParsed parsed) (Providers.text providers)) in
    Returned (respond result (fun value =>
      textResult (Some (stringify (JArr (map Entity.toJson value))))
                 (Some (JObj [("entities", JArr (map Entity.toJson value))]))))
  else if String.eqb name "brave_web_search" then
    let* parsed := parseArgs SearchSchema args in
    let* result := awaitHandler
      (Handlers.webSearch h (SearchInput.ofParsed parsed) (Providers.search providers)) in
    Returned (respond result (fun value =>
      textResult (Some (stringify (JArr (map SearchResult.toJson value)))) None))
  else if String.eqb name "get_weather" then
    let* parsed := parseArgs WeatherSchema args in
    let* result := awaitHandler
      (Handlers.getWeather h (WeatherInput.ofParsed parsed) (Providers.weather providers)) in
    Returned (respond result (fun value =>
      textResult (stringifyDyn WeatherData.toJson value) None))
  else if String.eqb name "smart_summarize" then
    let* parsed := parseArgs SmartSummarizeSchema args in
    let* result := awaitHandler
      (Handlers.smartSummarize h (SmartSummarizeInput.ofParsed parsed) server) in
    Returned (respond result (fun value => textResult (Some value) None))
  else if String.eqb name "configure_analysis" then
    let* parsed := parseArgs ConfigureAnalysisSchema args in
    let* result := awaitHandler
      (Handlers.configureAnalysis h (ConfigureAnalysisInput.ofParsed parsed) server) in
    Returned (respond result (fun value =>
      textResult (Some (stringify (ConfigureAnalysisResult.toJson value))) None))
  else
    Returned
      {| CallToolResult.content := [textItem (Some ("Unknown tool: " ++ name))];
         CallToolResult.structuredContent := None;
         CallToolResult.isError := true |}.

(** The call each [case] makes once its arguments are parsed, with the value
    of a success already turned into the response of the case; [None] for a
    name that has no [case]. *)
Definition handlerCall (h : Handlers.t) (providers : Providers.t) (server : Sdk.Server.t)
    (name : string) (parsed : list (string * json))
  : option (promise (Result CallToolResult.t string)) :=
  let rendered {A : Type} (call : promise (Result A string)) (onValue : A -> CallToolResult.t) :=
    Some (await call (fun result => Returned (mapResult result onValue))) in
  if String.eqb name "summarize" then
    rendered (Handlers.summarize h (SummarizeInput.ofParsed parsed) (Providers.text providers))
      (fun value => textResult (Some value) (Some (JObj [("summary", JStr value)])))
  else if String.eqb name "analyze_sentiment" then
    rendered
      (Handlers.analyzeSentiment h (SentimentInput.ofParsed parsed) (Providers.text providers))
      (fun value => textResult (Some (stringify (SentimentResult.toJson value)))
                               (Some (SentimentResult.toJson value)))
  else if String.eqb name "extract_entities" then
    rendered
      (Handlers.extractEntities h (EntityInput.ofParsed parsed) (Providers.text providers))
      (fun value => textResult (Some (stringify (JArr (map Entity.toJson value))))
                               (Some (JObj [("entities", JArr (map Entity.toJson value))])))
  else if String.eqb name "brave_web_search" then
    rendered (Handlers.webSearch h (SearchInput.ofParsed parsed) (Providers.search providers))
      (fun value => textResult (Some (stringify (JArr (map SearchResult.toJson value)))) None)
  else if String.eqb name "get_weather" then
    rendered (Handlers.getWeather h (WeatherInput.ofParsed parsed) (Providers.weather providers))
      (fun value => textResult (stringifyDyn WeatherData.toJson value) None)
  else if String.eqb name "smart_summarize" then
    rendered (Handlers.smartSummarize h (SmartSummarizeInput.ofParsed parsed) server)
      (fun value => textResult (Some value) None)
  else if String.eqb name "configure_analysis" then
    rendered (Handlers.configureAnalysis h (ConfigureAnalysisInput.ofParsed parsed) server)
      (fun value => textResult (Some (stringify (ConfigureAnalysisResult.toJson value))) None)
  else None.

(** The handlers of the repository. *)
Definition toolHandlers : Handlers.t :=
  {| Handlers.summarize := TextAnalysis.summarize;
     Handlers.analyzeSentiment := TextAnalysis.analyzeSentiment;
     Handlers.extractEntities := TextAnalysis.extractEntities;
     Handlers.webSearch := WebSearch.webSearch;
     Handlers.getWeather := Weather.getWeather;
     Handlers.smartSummarize := Sampling.smartSummarize;
     Handlers.configureAnalysis := Elicitation.configureAnalysis |}.

Definition callTool : Providers.t -> Sdk.Server.t -> string -> option json
    -> outcome thrown CallToolResult.t :=
  callToolWith toolHandlers.

End ServerTs.

(** ** Predicates of the statements *)

(** *** Values that are not negative *)

(** Neither NaN nor below zero. *)
Definition nonneg (x : number) : Prop :=
  match x with
  | S754_zero _ | S754_finite false _ _ | S754_infinity false => True
  | _ => False
  end.

(** Neither NaN nor of the other sign. *)
Definition signed (s : bool) (x : number) : Prop :=
  match x with
  | S754_zero s' | S754_finite s' _ _ | S754_infinity s' => s' = s
  | S754_nan => False
  end.

(** Neither NaN nor zero, of sign [s]. *)
Definition nonzero (s : bool) (x : number) : Prop :=
  match x with
  | S754_finite s' _ _ | S754_infinity s' => s' = s
  | _ => False
  end.

Definition zero : number := S754_zero false.
Definition one : number := ofDecimal 10 (-1).

(** *** What it is for arguments to conform to a schema

    Stated from the schema alone, to be compared with what [Zod.parse]
    computes. *)

Definition satisfies (x : number) (c : Zod.check) : Prop :=
  match c with
  | Zod.Int => isInteger x = true
  | Zod.Positive => lt zero x = true
  | Zod.Min bound => le bound x = true
  | Zod.Max bound => le x bound = true
  end.

#[warnings="-register-all"]
Inductive conforms : Zod.schema -> json -> Prop :=
| conforms_string minLength s :
    (minLength <= String.length s)%nat -> conforms (Zod.ZString minLength) (JStr s)
| conforms_number checks x :
    isNaN x = false -> Forall (satisfies x) checks -> conforms (Zod.ZNumber checks) (JNum x)
| conforms_enum values s :
    In s values -> conforms (Zod.ZEnum values) (JStr s)
| conforms_array item xs :
    Forall (conforms item) xs -> conforms (Zod.ZArray item) (JArr xs).

(** The ways raw arguments violate the schema of an operation: they are no
    object at all, a required field is missing, or a field that is present
    has the wrong type or breaks a constraint of its schema. *)
Inductive violates (shape : list Zod.field) : option json -> Prop :=
| violates_not_object args :
    (forall data, args <> Some (JObj data)) -> violates shape args
| violates_missing data f :
    In f shape -> Zod.default f = None -> ownProperty (Zod.name f) data = None ->
    violates shape (Some (JObj data))
| violates_field data f v :
    In f shape -> ownProperty (Zod.name f) data = Some v -> ~ conforms (Zod.type f) v ->
    violates shape (Some (JObj data)).

(** *** Values that [String] and [Number] cannot convert

    Stated from the shape of the value alone, to be compared with what
    [toString] and [toNumber] compute: an object that has an own key
    [toString], or an array that holds such a value. *)
Inductive throwsOnConversion : json -> Prop :=
| throws_object fields value :
    ownProperty "toString" fields = Some value -> throwsOnConversion (JObj fields)
| throws_array items item :
    In item items -> item <> JNull -> throwsOnConversion item ->
    throwsOnConversion (JArr items).

(** The bounds of a schema are numbers. *)
Fixpoint boundsAreNumbers (s : Zod.schema) : bool :=
  match s with
  | Zod.ZNumber checks =>
      forallb (fun c => match c with
                        | Zod.Min b | Zod.Max b => negb (isNaN b)
                        | _ => true
                        end) checks
  | Zod.ZArray item => boundsAreNumbers item
  | _ => true
  end.

(** ** Clients, providers and arguments of the examples *)

Import TextAnalysis WebSearch Weather Sampling Elicitation ServerTs.

Definition textClient (text : string) : Sdk.Server.t :=
  {| Sdk.Server.createMessage := fun _ =>
       Returned {| Sdk.CreateMessageResult.role := "assistant";
                   Sdk.CreateMessageResult.content := Sdk.TextContent text;
                   Sdk.CreateMessageResult.model := "claude-test" |};
     Sdk.Server.elicitInput := fun _ =>
       Returned {| Sdk.ElicitResult.action := "accept"; Sdk.ElicitResult.content := None |} |}.

(** A client without the elicitation capability: every request to it
    throws. *)
Definition bareClient : Sdk.Server.t :=
  {| Sdk.Server.createMessage := fun _ =>
       Thrown {| rendering := "Error: Client does not support sampling" |};
     Sdk.Server.elicitInput := fun _ =>
       Thrown {| rendering := "Error: Client does not support elicitation" |} |}.

(** A client that accepts every elicitation with the payload [raw]. *)
Definition acceptingClient (raw : json) : Sdk.Server.t :=
  {| Sdk.Server.createMessage := fun _ =>
       Thrown {| rendering := "Error: Client does not support sampling" |};
     Sdk.Server.elicitInput := fun _ =>
       Returned {| Sdk.ElicitResult.action := "accept";
                   Sdk.ElicitResult.content := Some raw |} |}.

(** A payload whose depth is an object with an own key [toString]. *)
Definition depthWithToString : json :=
  JObj [("depth", JObj [("toString", JNull)]); ("maxSummaryWords", JNum (ofZ 50))].

Definition weatherArgs (location unit : string) : option json :=
  Some (JObj [("location", JStr location); ("unit", JStr unit)]).

Definition tooManyResults : option json :=
  Some (JObj [("query", JStr "MCP protocol"); ("maxResults", JNum (ofZ 21))]).

(** A weather provider that rejects, as the live provider does when the
    body of the response lacks the object it reads the temperature from. *)
Definition brokenWeather : WeatherProvider :=
  fun _ => Thrown {| rendering := "TypeError: Cannot read properties of undefined (reading 'temp')" |}.

Definition brokenProviders : Providers.t :=
  {| Providers.text := Mock.complete;
     Providers.search := Mock.search;
     Providers.weather := brokenWeather |}.

Definition shortText : option json :=
  Some (JObj [("text", JStr "Anthropic builds safe AI."); ("maxLength", JNum (ofZ 20))]).

(** ** More built-ins, for the rest of the server *)

(** The double quote, which the templates of the prompts put around a
    text. *)
Definition dq : string := String (ascii_of_nat 34) EmptyString.

(** [parseInt(s, 10)]: leading white space and a sign are skipped, the
    longest run of decimal digits is read, and what follows is ignored; NaN
    when there is no digit. *)
Definition parseInt10 (s : string) : number :=
  let (negative, rest) := readSign (dropWhiteSpace (chars s)) in
  let '(value, count, _) := readDigits rest 0 0 in
  if (count =? 0)%Z then NaN
  else if (value =? 0)%Z then S754_zero negative
  else if negative then neg (ofZ value) else ofZ value.

(** [ToIntegerOrInfinity] *)
Inductive extendedInteger : Type :=
| MinusInfinity
| Finite (z : Z)
| PlusInfinity.

Definition toIntegerOrInfinity (x : number) : extendedInteger :=
  match x with
  | S754_nan | S754_zero _ => Finite 0
  | S754_infinity false => PlusInfinity
  | S754_infinity true => MinusInfinity
  | S754_finite s m e =>
      let magnitude := (if 0 <=? e then Zpos m * 2 ^ e else Zpos m / 2 ^ (- e))%Z in
      Finite (if s then (- magnitude)%Z else magnitude)
  end.

(** [xs.slice(0, end)] for a number [end]: below zero it counts from the
    end of the array. *)
Definition sliceTo {A : Type} (xs : list A) (end_ : number) : list A :=
  let len := Z.of_nat (List.length xs) in
  let final :=
    match toIntegerOrInfinity end_ with
    | MinusInfinity => 0%Z
    | PlusInfinity => len
    | Finite z => if (z <? 0)%Z then Z.max (len + z) 0 else Z.min z len
    end in
  firstn (Z.to_nat final) xs.

(** [xs.map((x, i) => f(x, i))], from index [i] on. *)
Fixpoint mapFrom {A B : Type} (f : A -> nat -> B) (i : nat) (xs : list A) : list B :=
  match xs with
  | [] => []
  | x :: xs' => f x i :: mapFrom f (S i) xs'
  end.

(** [Math.round(x)]: the nearest integer, the upper one of two that are
    equally near; a value that is an integer already is returned as it is. *)
Definition Math_round (x : number) : number :=
  match x with
  | S754_finite s m e =>
      if isInteger x then x
      else
        let d := (2 ^ (- e))%Z in
        let n := if s then Zneg m else Zpos m in
        let r := ((2 * n + d) / (2 * d))%Z in
        if (r =? 0)%Z then S754_zero s else ofZ r
  | _ => x
  end.

(** [JSON.stringify(v)], with no indentation. *)
Fixpoint stringifyFlat (v : json) : string :=
  match v with
  | JNull => "null"
  | JBool b => if b then "true" else "false"
  | JNum x => if isFinite x then numberToString x else "null"
  | JStr s => quote s
  | JArr items => "[" ++ join "," (map stringifyFlat items) ++ "]"
  | JObj fields =>
      "{"
      ++ join "," (map (fun kv : string * json => let (k, x) := kv in quote k ++ ":" ++ stringifyFlat x) fields)
      ++ "}"
  end.

(** ** [config.ts] *)

Module Config.

(** [mode] is typed as one of three names, and holds whatever the
    environment gave. *)
Module ServerConfig.
Record t : Type := {
  mode : string;
  name : string;
  version : string;
  openaiApiKey : option string;
  weatherApiKey : option string;
  braveApiKey : option string;
  openWeatherMapApiKey : option string;
  maxConcurrentTools : number;
  toolTimeoutMs : number
}.
End ServerConfig.

(** [Partial<ServerConfig>]: [None] for a key that is absent. *)
Module Overrides.
Record t : Type := {
  mode : option string;
  name : option string;
  version : option string;
  openaiApiKey : option string;
  weatherApiKey : option string;
  braveApiKey : option string;
  openWeatherMapApiKey : option string;
  maxConcurrentTools : option number;
  toolTimeoutMs : option number
}.
Definition none : t :=
  {| mode := None; name := None; version := None; openaiApiKey := None;
     weatherApiKey := None; braveApiKey := None; openWeatherMapApiKey := None;
     maxConcurrentTools := None; toolTimeoutMs := None |}.
End Overrides.

(** [process.env]: the variables that are set, with their values. *)
Definition environment : Type := list (string * string).

(** [env[k] ?? d] *)
Definition orDefault (x : option string) (d : string) : string :=
  match x with Some v => v | None => d end.

(** A key of [...overrides] replaces the one before it. *)
Definition spread {A : Type} (override : option A) (base : A) : A :=
  match override with Some v => v | None => base end.

Definition spreadOptional {A : Type} (override : option A) (base : option A) : option A :=
  match override with Some v => Some v | None => base end.

(** [loadConfig(overrides)], under the environment [env]; no argument is
    [Overrides.none]. *)
Definition loadConfig (env : environment) (overrides : Overrides.t) : ServerConfig.t :=
  {| ServerConfig.mode :=
       spread (Overrides.mode overrides) (orDefault (ownProperty "MCP_MODE" env) "mock");
     ServerConfig.name :=
       spread (Overrides.name overrides)
         (orDefault (ownProperty "MCP_SERVER_NAME" env) "mcp-toolkit-server");
     ServerConfig.version :=
       spread (Overrides.version overrides)
         (orDefault (ownProperty "MCP_SERVER_VERSION" env) "0.1.0");
     ServerConfig.openaiApiKey :=
       spreadOptional (Overrides.openaiApiKey overrides) (ownProperty "OPENAI_API_KEY" env);
     ServerConfig.weatherApiKey :=
       spreadOptional (Overrides.weatherApiKey overrides) (ownProperty "WEATHER_API_KEY" env);
     ServerConfig.braveApiKey :=
       spreadOptional (Overrides.braveApiKey overrides) (ownProperty "BRAVE_API_KEY" env);
     ServerConfig.openWeatherMapApiKey :=
       spreadOptional (Overrides.openWeatherMapApiKey overrides)
         (ownProperty "OPENWEATHERMAP_API_KEY" env);
     ServerConfig.maxConcurrentTools :=
       spread (Overrides.maxConcurrentTools overrides)
         (parseInt10 (orDefault (ownProperty "MCP_MAX_CONCURRENT" env) "5"));
     ServerConfig.toolTimeoutMs :=
       spread (Overrides.toolTimeoutMs overrides)
         (parseInt10 (orDefault (ownProperty "MCP_TOOL_TIMEOUT_MS" env) "30000")) |}.

Definition isMockMode (config : ServerConfig.t) : bool :=
  String.eqb (ServerConfig.mode config) "mock" || String.eqb (ServerConfig.mode config) "hybrid".

End Config.

(** ** [providers/production.ts]: the providers that call the live services *)

(** What the providers see of [fetch]: the request they build and the
    response they read.  The address is kept as the [URL] object holds it,
    its base and its search parameters; the body of a response is read at
    the type the source casts it to. *)
Module Http.

Module Request.
Record t : Type := {
  url : string;
  searchParams : list (string * string);
  headers : list (string * string)
}.
End Request.

Module Response.
Record t (Body : Type) : Type := { ok : bool; status : number; json : promise Body }.
Arguments ok {Body} _.
Arguments status {Body} _.
Arguments json {Body} _.
End Response.

Definition fetch (Body : Type) : Type := Request.t -> promise (Response.t Body).

End Http.

(** The interfaces the providers cast the bodies to. *)
Module BraveSearchResponse.
Module Item.
Record t : Type := { title : string; url : string; description : option string }.
End Item.
Module Web.
Record t : Type := { results : option (list Item.t) }.
End Web.
Record t : Type := { web : option Web.t }.
End BraveSearchResponse.

Module OWMCurrentResponse.
Module Sys.
Record t : Type := { country : option string }.
End Sys.
Module Main.
Record t : Type := { temp : number; humidity : number }.
End Main.
Module Condition.
Record t : Type := { description : string }.
End Condition.
Module Wind.
Record t : Type := { speed : number }.
End Wind.
Record t : Type := {
  name : string;
  sys : option Sys.t;
  main : Main.t;
  weather : list Condition.t;
  wind : Wind.t
}.
End OWMCurrentResponse.

(** The two services, each as [fetch] answers for its address. *)
Module Network.
Record t : Type := {
  brave : Http.fetch BraveSearchResponse.t;
  openWeatherMap : Http.fetch OWMCurrentResponse.t
}.
End Network.

Module BraveWebSearchProvider.

Definition request (apiKey query : string) (maxResults : number) : Http.Request.t :=
  {| Http.Request.url := "https://api.search.brave.com/res/v1/web/search";
     Http.Request.searchParams :=
       [("q", query); ("count", numberToString (Math_min maxResults (ofZ 20)))];
     Http.Request.headers :=
       [("Accept", "application/json"); ("Accept-Encoding", "gzip");
        ("X-Subscription-Token", apiKey)] |}.

(** [1.0 - i * 0.1] *)
Definition scoreAt (i : nat) : number :=
  sub (ofDecimal 10 (-1)) (mul (ofZ (Z.of_nat i)) (ofDecimal 1 (-1))).

Definition resultOf (r : BraveSearchResponse.Item.t) (i : nat) : SearchResult.t :=
  {| SearchResult.title := BraveSearchResponse.Item.title r;
     SearchResult.url := BraveSearchResponse.Item.url r;
     SearchResult.snippet :=
       match BraveSearchResponse.Item.description r with Some d => d | None => "" end;
     SearchResult.score := scoreAt i |}.

(** [data.web?.results ?? []] *)
Definition rawResults (data : BraveSearchResponse.t) : list BraveSearchResponse.Item.t :=
  match BraveSearchResponse.web data with
  | Some web =>
      match BraveSearchResponse.Web.results web with
      | Some results => results
      | None => []
      end
  | None => []
  end.

(** [search(query, maxResults)] of a provider built with [apiKey]; the
    default of [maxResults] is for a caller that passes none, and
    [webSearch] always passes one. *)
Definition search (fetch : Http.fetch BraveSearchResponse.t) (apiKey : string)
    (query : string) (maxResults : number) : promise (Result (list SearchResult.t) string) :=
  match fetch (request apiKey query maxResults) with
  | Thrown err => Returned (Err ("Brave Search fetch failed: " ++ rendering err))
  | Returned response =>
      if negb (Http.Response.ok response)
      then Returned (Err ("Brave Search API error: HTTP "
                          ++ numberToString (Http.Response.status response)))
      else
        match Http.Response.json response with
        | Thrown _ => Returned (Err "Failed to parse Brave Search response")
        | Returned data =>
            Returned (Ok (mapFrom resultOf 0 (sliceTo (rawResults data) maxResults)))
        end
  end.

End BraveWebSearchProvider.

Module OpenWeatherMapProvider.

Definition request (apiKey location : string) : Http.Request.t :=
  {| Http.Request.url := "https://api.openweathermap.org/data/2.5/weather";
     Http.Request.searchParams := [("q", location); ("appid", apiKey); ("units", "imperial")];
     Http.Request.headers := [] |}.

(** [countryCode ? `${data.name}, ${countryCode}` : data.name] *)
Definition locationName (data : OWMCurrentResponse.t) : string :=
  match OWMCurrentResponse.sys data with
  | Some sys =>
      match OWMCurrentResponse.Sys.country sys with
      | Some countryCode =>
          if String.eqb countryCode "" then OWMCurrentResponse.name data
          else OWMCurrentResponse.name data ++ ", " ++ countryCode
      | None => OWMCurrentResponse.name data
      end
  | None => OWMCurrentResponse.name data
  end.

(** [getWeather(location)] of a provider built with [apiKey]. *)
Definition getWeather (fetch : Http.fetch OWMCurrentResponse.t) (apiKey : string)
    (location : string) : promise (Result (dyn WeatherData.t) string) :=
  match fetch (request apiKey location) with
  | Thrown err => Returned (Err ("OpenWeatherMap fetch failed: " ++ rendering err))
  | Returned response =>
      if negb (Http.Response.ok response)
      then Returned (Err ("OpenWeatherMap API error: HTTP "
                          ++ numberToString (Http.Response.status response)))
      else
        match Http.Response.json response with
        | Thrown _ => Returned (Err "Failed to parse OpenWeatherMap response")
        | Returned data =>
            Returned (Ok (Typed
              {| WeatherData.location := locationName data;
                 WeatherData.temperature :=
                   Math_round (OWMCurrentResponse.Main.temp (OWMCurrentResponse.main data));
                 WeatherData.unit := WeatherData.fahrenheit;
                 WeatherData.condition :=
                   match OWMCurrentResponse.weather data with
                   | first :: _ => OWMCurrentResponse.Condition.description first
                   | [] => "Unknown"
                   end;
                 WeatherData.humidity :=
                   OWMCurrentResponse.Main.humidity (OWMCurrentResponse.main data);
                 WeatherData.wind_speed :=
                   Math_round (OWMCurrentResponse.Wind.speed (OWMCurrentResponse.wind data));
                 WeatherData.forecast := "Current conditions for " ++ locationName data |}))
        end
  end.

End OpenWeatherMapProvider.

(** ** [providers/index.ts]: the provider factory *)

(** [config.braveApiKey ? ... : ...]: a key that is set and not empty. *)
Definition truthyKey (key : option string) : option string :=
  match key with
  | Some k => if String.eqb k "" then None else Some k
  | None => None
  end.

(** [createProviders(config)], on the network [net]. *)
Definition createProviders (net : Network.t) (config : Config.ServerConfig.t) : Providers.t :=
  if String.eqb (Config.ServerConfig.mode config) "production" then
    {| Providers.text := Mock.complete;
       Providers.search :=
         match truthyKey (Config.ServerConfig.braveApiKey config) with
         | Some apiKey => BraveWebSearchProvider.search (Network.brave net) apiKey
         | None => Mock.search
         end;
       Providers.weather :=
         match truthyKey (Config.ServerConfig.openWeatherMapApiKey config) with
         | Some apiKey => OpenWeatherMapProvider.getWeather (Network.openWeatherMap net) apiKey
         | None => Mock.getWeather
         end |}
  else
    {| Providers.text := Mock.complete;
       Providers.search := Mock.search;
       Providers.weather := Mock.getWeather |}.

(** ** [resources/index.ts] *)

Module Resources.

Module ResourceDefinition.
Record t : Type := { uri : string; name : string; description : string; mimeType : string }.
End ResourceDefinition.

Definition getResourceDefinitions : list ResourceDefinition.t :=
  [ {| ResourceDefinition.uri := "toolkit://config";
       ResourceDefinition.name := "Server Configuration";
       ResourceDefinition.description := "Current server configuration and mode";
       ResourceDefinition.mimeType := "application/json" |};
    {| ResourceDefinition.uri := "toolkit://tools";
       ResourceDefinition.name := "Available Tools";
       ResourceDefinition.description := "List of all available tools with their schemas";
       ResourceDefinition.mimeType := "application/json" |};
    {| ResourceDefinition.uri := "toolkit://health";
       ResourceDefinition.name := "Health Status";
       ResourceDefinition.description := "Server health and readiness status";
       ResourceDefinition.mimeType := "application/json" |} ].

(** What the health resource reads of the process at the time of the call:
    [process.uptime()] and [new Date().toISOString()]. *)
Module Clock.
Record t : Type := { uptime : number; timestamp : string }.
End Clock.

Definition toolEntry (name description category : string) : json :=
  JObj [("name", JStr name); ("description", JStr description); ("category", JStr category)].

(** The tools the resource [toolkit://tools] lists. *)
Definition listedTools : list json :=
  [ toolEntry "summarize" "Summarize text to a specified length" "text-analysis";
    toolEntry "analyze_sentiment" "Analyze sentiment of text" "text-analysis";
    toolEntry "extract_entities" "Extract named entities from text" "text-analysis";
    toolEntry "web_search" "Search the web for information" "web";
    toolEntry "get_weather" "Get current weather for a location" "weather" ].

Definition readResource (clock : Clock.t) (uri : string) (config : Config.ServerConfig.t)
  : string :=
  if String.eqb uri "toolkit://config" then
    stringify
      (JObj [("mode", JStr (Config.ServerConfig.mode config));
             ("name", JStr (Config.ServerConfig.name config));
             ("version", JStr (Config.ServerConfig.version config));
             ("maxConcurrentTools", JNum (Config.ServerConfig.maxConcurrentTools config));
             ("toolTimeoutMs", JNum (Config.ServerConfig.toolTimeoutMs config))])
  else if String.eqb uri "toolkit://tools" then
    stringify (JObj [("tools", JArr listedTools); ("count", JNum (ofZ 5))])
  else if String.eqb uri "toolkit://health" then
    stringify
      (JObj [("status", JStr "healthy");
             ("mode", JStr (Config.ServerConfig.mode config));
             ("uptime", JNum (Clock.uptime clock));
             ("timestamp", JStr (Clock.timestamp clock))])
  else
    stringifyFlat (JObj [("error", JStr ("Unknown resource: " ++ uri))]).

End Resources.

(** ** [prompts/index.ts] *)

Module Prompts.

Module PromptArgument.
Record t : Type := { name : string; description : string; required : bool }.
End PromptArgument.

Module PromptDefinition.
Record t : Type := { name : string; description : string; arguments : list PromptArgument.t }.
End PromptDefinition.

Inductive role_ : Type := user | assistant.

Definition roleName (r : role_) : string :=
  match r with user => "user" | assistant => "assistant" end.

Module PromptMessage.
Record t : Type := { role : role_; content : string }.
End PromptMessage.

Definition getPromptDefinitions : list PromptDefinition.t :=
  [ {| PromptDefinition.name := "research_topic";
       PromptDefinition.description :=
         "Research a topic by searching the web, summarizing findings, and extracting key entities";
       PromptDefinition.arguments :=
         [ {| PromptArgument.name := "topic";
              PromptArgument.description := "The topic to research";
              PromptArgument.required := true |};
           {| PromptArgument.name := "depth";
              PromptArgument.description := "Research depth: quick, standard, or deep";
              PromptArgument.required := false |} ] |};
    {| PromptDefinition.name := "analyze_text";
       PromptDefinition.description :=
         "Analyze text for sentiment, entities, and provide a summary";
       PromptDefinition.arguments :=
         [ {| PromptArgument.name := "text";
              PromptArgument.description := "The text to analyze";
              PromptArgument.required := true |} ] |};
    {| PromptDefinition.name := "weather_briefing";
       PromptDefinition.description :=
         "Get a weather briefing with recommendations for a location";
       PromptDefinition.arguments :=
         [ {| PromptArgument.name := "location";
              PromptArgument.description := "City or location name";
              PromptArgument.required := true |} ] |} ].

(** [args[k] ?? d] on the record of arguments, whose values are strings. *)
Definition argument (args : list (string * string)) (k d : string) : string :=
  match ownProperty k args with Some v => v | None => d end.

Definition userMessage (content : string) : list PromptMessage.t :=
  [ {| PromptMessage.role := user; PromptMessage.content := content |} ].

Definition generatePromptMessages (name : string) (args : list (string * string))
  : list PromptMessage.t :=
  if String.eqb name "research_topic" then
    let topic := argument args "topic" "general topic" in
    let depth := argument args "depth" "standard" in
    userMessage
      ("I'd like to research " ++ dq ++ topic ++ dq ++ " at a " ++ depth ++ " level. Please:"
       ++ nl ++ nl ++ "1. Search for the most relevant and recent information"
       ++ nl ++ "2. Summarize the key findings"
       ++ nl ++ "3. Extract important entities (people, organizations, technologies)"
       ++ nl ++ "4. Provide a structured overview with sources"
       ++ nl ++ nl
       ++ "Use the web_search, summarize, and extract_entities tools to gather and process the information.")
  else if String.eqb name "analyze_text" then
    let text := argument args "text" "" in
    userMessage
      ("Please analyze the following text comprehensively:"
       ++ nl ++ nl ++ dq ++ text ++ dq
       ++ nl ++ nl ++ "Perform:"
       ++ nl ++ "1. Sentiment analysis (using analyze_sentiment tool)"
       ++ nl ++ "2. Entity extraction (using extract_entities tool)"
       ++ nl ++ "3. Brief summary (using summarize tool)"
       ++ nl ++ nl ++ "Provide a structured analysis report.")
  else if String.eqb name "weather_briefing" then
    let location := argument args "location" "current location" in
    userMessage
      ("Get the current weather for " ++ location ++ " and provide:"
       ++ nl ++ nl ++ "1. Current conditions (temperature, humidity, wind)"
       ++ nl ++ "2. Brief forecast"
       ++ nl ++ "3. Activity recommendations based on the weather"
       ++ nl ++ nl ++ "Use the get_weather tool to fetch the data.")
  else
    userMessage
      ("Unknown prompt: " ++ name
       ++ ". Available prompts: research_topic, analyze_text, weather_briefing.").

End Prompts.

(** ** [server.ts]: the catalog of tools, the resources and the prompts *)

Module ServerCatalog.

Module ToolAnnotations.
Record t : Type := {
  readOnlyHint : bool;
  idempotentHint : bool;
  destructiveHint : bool;
  openWorldHint : bool
}.
End ToolAnnotations.

Definition SENTIMENT_OUTPUT_SCHEMA : json :=
  JObj
    [ ("type", JStr "object");
      ("properties",
       JObj
         [ ("sentiment",
            JObj [("type", JStr "string");
                  ("enum", JArr [JStr "positive"; JStr "negative"; JStr "neutral"; JStr "mixed"]);
                  ("description", JStr "Overall sentiment classification")]);
           ("confidence",
            JObj [("type", JStr "number");
                  ("description", JStr "Confidence score between 0 and 1")]);
           ("explanation",
            JObj [("type", JStr "string");
                  ("description", JStr "Human-readable explanation of the sentiment")]) ]);
      ("required", JArr [JStr "sentiment"; JStr "confidence"; JStr "explanation"]) ].

Definition ENTITIES_OUTPUT_SCHEMA : json :=
  JObj
    [ ("type", JStr "object");
      ("properties",
       JObj
         [ ("entities",
            JObj
              [ ("type", JStr "array");
                ("items",
                 JObj
                   [ ("type", JStr "object");
                     ("properties",
                      JObj
                        [ ("text", JObj [("type", JStr "string");
                                         ("description", JStr "The entity text")]);
                          ("type", JObj [("type", JStr "string");
                                         ("description",
                                          JStr "Entity type (person, organization, etc.)")]);
                          ("confidence", JObj [("type", JStr "number");
                                               ("description", JStr "Confidence score")]) ]);
                     ("required", JArr [JStr "text"; JStr "type"; JStr "confidence"]) ]) ]) ]);
      ("required", JArr [JStr "entities"]) ].

Definition SUMMARIZE_OUTPUT_SCHEMA : json :=
  JObj
    [ ("type", JStr "object");
      ("properties",
       JObj
         [ ("summary",
            JObj [("type", JStr "string");
                  ("description", JStr "The condensed summary of the input text")]) ]);
      ("required", JArr [JStr "summary"]) ].

(** A property of an advertised input schema: its JSON type and its
    default, if it has one. *)
Module Property.
Record t : Type := { type : string; default : option json }.
End Property.

(** An entry of the answer to [ListToolsRequestSchema]; the descriptions
    are left out, and of the input schema the properties and the required
    keys are kept. *)
Module Tool.
Record t : Type := {
  name : string;
  properties : list (string * Property.t);
  required : list string;
  outputSchema : option json;
  annotations : ToolAnnotations.t
}.
End Tool.

Definition plain (type : string) : Property.t :=
  {| Property.type := type; Property.default := None |}.

Definition withDefault (type : string) (d : json) : Property.t :=
  {| Property.type := type; Property.default := Some d |}.

Definition hints (readOnly idempotent destructive openWorld : bool) : ToolAnnotations.t :=
  {| ToolAnnotations.readOnlyHint := readOnly;
     ToolAnnotations.idempotentHint := idempotent;
     ToolAnnotations.destructiveHint := destructive;
     ToolAnnotations.openWorldHint := openWorld |}.

Definition listTools : list Tool.t :=
  [ {| Tool.name := "summarize";
       Tool.properties :=
         [("text", plain "string"); ("maxLength", withDefault "number" (JNum (ofZ 100)))];
       Tool.required := ["text"];
       Tool.outputSchema := Some SUMMARIZE_OUTPUT_SCHEMA;
       Tool.annotations := hints true true false false |};
    {| Tool.name := "analyze_sentiment";
       Tool.properties := [("text", plain "string")];
       Tool.required := ["text"];
       Tool.outputSchema := Some SENTIMENT_OUTPUT_SCHEMA;
       Tool.annotations := hints true true false false |};
    {| Tool.name := "extract_entities";
       Tool.properties :=
         [("text", plain "string");
          ("types",
           withDefault "array" (JArr [JStr "person"; JStr "organization"; JStr "location"]))];
       Tool.required := ["text"];
       Tool.outputSchema := Some ENTITIES_OUTPUT_SCHEMA;
       Tool.annotations := hints true true false false |};
    {| Tool.name := "brave_web_search";
       Tool.properties :=
         [("query", plain "string"); ("maxResults", withDefault "number" (JNum (ofZ 5)))];
       Tool.required := ["query"];
       Tool.outputSchema := None;
       Tool.annotations := hints true false false true |};
    {| Tool.name := "get_weather";
       Tool.properties :=
         [("location", plain "string"); ("unit", withDefault "string" (JStr "fahrenheit"))];
       Tool.required := ["location"];
       Tool.outputSchema := None;
       Tool.annotations := hints true false false true |};
    {| Tool.name := "smart_summarize";
       Tool.properties :=
         [("text", plain "string"); ("maxLength", withDefault "number" (JNum (ofZ 150)))];
       Tool.required := ["text"];
       Tool.outputSchema := None;
       Tool.annotations := hints true false false false |};
    {| Tool.name := "configure_analysis";
       Tool.properties := [("text", plain "string")];
       Tool.required := ["text"];
       Tool.outputSchema := None;
       Tool.annotations := hints false false false false |} ].

(** The keys a JSON schema requires of an object. *)
Definition requiredKeys (schema : json) : list string :=
  match member "required" schema with
  | Some (JArr keys) => flat_map (fun k => match k with JStr s => [s] | _ => [] end) keys
  | _ => []
  end.

Module ResourceContents.
Record t : Type := { uri : string; mimeType : string; text : string }.
End ResourceContents.

(** The handler installed for [ReadResourceRequestSchema]. *)
Definition readResourceHandler (clock : Resources.Clock.t) (config : Config.ServerConfig.t)
    (uri : string) : list ResourceContents.t :=
  [ {| ResourceContents.uri := uri;
       ResourceContents.mimeType := "application/json";
       ResourceContents.text := Resources.readResource clock uri config |} ].

Module PromptResult.
Record t : Type := { role : Prompts.role_; content : TextItem.t }.
End PromptResult.

(** The handler installed for [GetPromptRequestSchema]; [arguments] is
    [None] when the request has none. *)
Definition getPromptHandler (name : string) (arguments : option (list (string * string)))
  : list PromptResult.t :=
  let messages :=
    Prompts.generatePromptMessages name
      (match arguments with Some args => args | None => [] end) in
  map (fun m =>
         {| PromptResult.role := Prompts.PromptMessage.role m;
            PromptResult.content := textItem (Some (Prompts.PromptMessage.content m)) |})
      messages.

(** [createServer(config)], as far as the handlers of the tool calls go:
    the dispatcher over the providers of the factory. *)
Definition createServer (net : Network.t) (config : Config.ServerConfig.t)
  : Sdk.Server.t -> string -> option json -> outcome thrown CallToolResult.t :=
  callTool (createProviders net config).

End ServerCatalog.

Import Config Resources Prompts ServerCatalog.

(** ** Predicates, networks and bodies of the statements on the rest of the
    server *)

(** Some word of the text, in lower case, contains one of the indicators. *)
Definition mentions (indicators : list string) (text : string) : bool :=
  existsb (fun word => existsb (includes word) indicators)
          (splitWhiteSpace (toLowerCase text)).

(** The three summaries the mock text provider has for the prompt of
    [summarize]. *)
Definition mockSummaries : list string :=
  [ "Based on the analysis of summarize, the, following, text, in, the key findings suggest a nuanced perspective. The evidence points to several interconnected factors that influence the outcome.";
    "Regarding summarize, the, following, text, in: the current understanding indicates multiple contributing factors. Research suggests that a comprehensive approach yields the best results.";
    "The topic of summarize, the, following, text, in involves several important considerations. A balanced assessment reveals both strengths and areas for further investigation." ].

(** A network on which every request fails. *)
Definition offline : Network.t :=
  {| Network.brave := fun _ => Thrown {| rendering := "TypeError: fetch failed" |};
     Network.openWeatherMap := fun _ => Thrown {| rendering := "TypeError: fetch failed" |} |}.

(** The configuration of production mode with the given keys, over an
    empty environment. *)
Definition productionConfig (brave openWeatherMap : option string) : Config.ServerConfig.t :=
  Config.loadConfig []
    {| Config.Overrides.mode := Some "production";
       Config.Overrides.name := None;
       Config.Overrides.version := None;
       Config.Overrides.openaiApiKey := None;
       Config.Overrides.weatherApiKey := None;
       Config.Overrides.braveApiKey := brave;
       Config.Overrides.openWeatherMapApiKey := openWeatherMap;
       Config.Overrides.maxConcurrentTools := None;
       Config.Overrides.toolTimeoutMs := None |}.

(** A body of the search service with [n] results. *)
Definition braveBody (n : nat) : BraveSearchResponse.t :=
  {| BraveSearchResponse.web :=
       Some {| BraveSearchResponse.Web.results :=
                 Some (map (fun i =>
                              {| BraveSearchResponse.Item.title := "Result " ++ decimal (Z.of_nat i);
                                 BraveSearchResponse.Item.url :=
                                   "https://example.com/" ++ decimal (Z.of_nat i);
                                 BraveSearchResponse.Item.description := None |})
                           (seq 1 n)) |} |}.

(** A search service that answers every request with [data]. *)
Definition braveAnswers (data : BraveSearchResponse.t) : Http.fetch BraveSearchResponse.t :=
  fun _ => Returned {| Http.Response.ok := true;
                       Http.Response.status := ofZ 200;
                       Http.Response.json := Returned data |}.

(** The body of the weather service in the tests of the live provider. *)
Definition sanFranciscoBody : OWMCurrentResponse.t :=
  {| OWMCurrentResponse.name := "San Francisco";
     OWMCurrentResponse.sys := Some {| OWMCurrentResponse.Sys.country := Some "US" |};
     OWMCurrentResponse.main :=
       {| OWMCurrentResponse.Main.temp := ofDecimal 655 (-1);
          OWMCurrentResponse.Main.humidity := ofZ 70 |};
     OWMCurrentResponse.weather :=
       [ {| OWMCurrentResponse.Condition.description := "partly cloudy" |} ];
     OWMCurrentResponse.wind := {| OWMCurrentResponse.Wind.speed := ofDecimal 102 (-1) |} |}.

(** A weather service that answers every request with [data]. *)
Definition weatherAnswers (data : OWMCurrentResponse.t) : Http.fetch OWMCurrentResponse.t :=
  fun _ => Returned {| Http.Response.ok := true;
                       Http.Response.status := ofZ 200;
                       Http.Response.json := Returned data |}.

(* ================================================================== *)
(** * Part II: lemmas and theorems *)
(* ================================================================== *)

Arguments ofDecimal : simpl never.
Arguments ofZ : simpl never.
Arguments numberToString : simpl never.
Arguments stringify : simpl never.

Section Binary64.
Local Open Scope Z_scope.

(** ** Rounding keeps the sign and never yields NaN *)

Lemma shr_1_nonneg mrs : 0 <= shr_m mrs -> 0 <= shr_m (shr_1 mrs).
Proof. destruct mrs as [m r s]; destruct m as [|p|p]; try destruct p; simpl; lia. Qed.

Lemma iter_pos_nonneg p : forall mrs, 0 <= shr_m mrs -> 0 <= shr_m (iter_pos shr_1 p mrs).
Proof.
  induction p as [p IH|p IH|]; intros mrs H; simpl.
  - apply IH, IH, shr_1_nonneg, H.
  - apply IH, IH, H.
  - apply shr_1_nonneg, H.
Qed.

Lemma shr_record_of_loc_m m l : shr_m (shr_record_of_loc m l) = m.
Proof. destruct l as [|[]]; reflexivity. Qed.

Lemma shr_fexp_nonneg m e l :
  0 <= m -> 0 <= shr_m (fst (shr_fexp prec emax m e l)).
Proof.
  intros H. unfold shr_fexp, shr.
  destruct (fexp prec emax (Zdigits2 m + e) - e); simpl;
    rewrite ?shr_record_of_loc_m; try assumption.
  apply iter_pos_nonneg. rewrite shr_record_of_loc_m. assumption.
Qed.

Lemma round_nearest_even_bounds m l :
  m <= round_nearest_even m l <= m + 1.
Proof. destruct l as [|[]]; simpl; try destruct (Z.even m); lia. Qed.

Lemma binary_round_aux_signed s m e l :
  0 <= m -> signed s (binary_round_aux prec emax s m e l).
Proof.
  intros H. unfold binary_round_aux.
  pose proof (shr_fexp_nonneg m e l H) as H1.
  destruct (shr_fexp prec emax m e l) as [mrs' e'] eqn:E1. simpl in H1.
  pose proof (round_nearest_even_bounds (shr_m mrs') (loc_of_shr_record mrs')) as H2.
  pose proof (shr_fexp_nonneg (round_nearest_even (shr_m mrs') (loc_of_shr_record mrs')) e' loc_Exact ltac:(lia)) as H3.
  destruct (shr_fexp prec emax _ e' loc_Exact) as [mrs'' e''] eqn:E2. simpl in H3.
  destruct (shr_m mrs'') as [|p|p]; [reflexivity | | lia].
  destruct (e'' <=? emax - prec); reflexivity.
Qed.

Lemma binary_round_signed s m e : signed s (binary_round prec emax s m e).
Proof.
  unfold binary_round.
  destruct (shl_align m e _) as [mz ez].
  apply binary_round_aux_signed. lia.
Qed.

(** ** Rounding a positive value never flushes it to zero *)

Lemma shr_1_half mrs : 0 <= shr_m mrs -> shr_m (shr_1 mrs) = shr_m mrs / 2.
Proof.
  destruct mrs as [m r s]; simpl shr_m; intros H.
  rewrite <- Z.div2_div.
  destruct m as [|p|p]; try destruct p; simpl; try reflexivity; lia.
Qed.

Lemma pow2_xO p : 2 ^ Zpos p~0 = 2 ^ Zpos p * 2 ^ Zpos p.
Proof. rewrite Pos2Z.inj_xO, <- Z.pow_add_r by lia. f_equal. lia. Qed.

Lemma pow2_xI p : 2 ^ Zpos p~1 = 2 * (2 ^ Zpos p * 2 ^ Zpos p).
Proof.
  rewrite Pos2Z.inj_xI, <- Z.pow_add_r, <- Z.pow_succ_r by lia. f_equal. lia.
Qed.

Lemma iter_pos_shift p :
  forall mrs, 0 <= shr_m mrs ->
    shr_m (iter_pos shr_1 p mrs) = shr_m mrs / 2 ^ Zpos p.
Proof.
  assert (pow_pos : forall q, 0 < 2 ^ Zpos q) by (intros q; apply Z.pow_pos_nonneg; lia).
  induction p as [p IH|p IH|]; intros mrs H; simpl iter_pos.
  - rewrite IH by (apply iter_pos_nonneg, shr_1_nonneg, H).
    rewrite IH by (apply shr_1_nonneg, H).
    rewrite shr_1_half by assumption.
    pose proof (pow_pos p) as Hp.
    rewrite !Z.div_div by lia.
    rewrite pow2_xI. f_equal; ring.
  - rewrite IH by (apply iter_pos_nonneg, H).
    rewrite IH by assumption.
    pose proof (pow_pos p) as Hp.
    rewrite Z.div_div by lia.
    rewrite pow2_xO. reflexivity.
  - rewrite shr_1_half by assumption. reflexivity.
Qed.

Lemma digits2_pos_spec p :
  2 ^ (Zpos (digits2_pos p) - 1) <= Zpos p < 2 ^ Zpos (digits2_pos p).
Proof.
  induction p as [p IH|p IH|]; simpl digits2_pos.
  - rewrite Pos2Z.inj_succ.
    replace (Z.succ (Zpos (digits2_pos p)) - 1) with (Z.succ (Zpos (digits2_pos p) - 1)) by lia.
    rewrite !Z.pow_succ_r by lia. lia.
  - rewrite Pos2Z.inj_succ.
    replace (Z.succ (Zpos (digits2_pos p)) - 1) with (Z.succ (Zpos (digits2_pos p) - 1)) by lia.
    rewrite !Z.pow_succ_r by lia. lia.
  - simpl. lia.
Qed.

Lemma shr_fexp_positive m e l :
  0 < m -> emin prec emax <= e ->
  0 < shr_m (fst (shr_fexp prec emax m e l))
  /\ emin prec emax <= snd (shr_fexp prec emax m e l).
Proof.
  intros Hm He. unfold shr_fexp, shr.
  destruct m as [|a|a]; try lia. simpl Zdigits2.
  pose proof (digits2_pos_spec a) as [Hlo _].
  set (d := Zpos (digits2_pos a)) in *.
  destruct (fexp prec emax (d + e) - e) as [|p|p] eqn:E; simpl fst; simpl snd;
    rewrite ?shr_record_of_loc_m; try (split; lia).
  rewrite iter_pos_shift by (rewrite shr_record_of_loc_m; lia).
  rewrite shr_record_of_loc_m.
  assert (Hp : Zpos p <= d - 1).
  { unfold fexp, emin, prec, emax in *. lia. }
  split; [|lia].
  apply Z.div_str_pos. split; [apply Z.pow_pos_nonneg; lia|].
  apply Z.le_trans with (2 ^ (d - 1)); [|assumption].
  apply Z.pow_le_mono_r; lia.
Qed.

Lemma binary_round_aux_nonzero s m e l :
  0 < m -> emin prec emax <= e -> nonzero s (binary_round_aux prec emax s m e l).
Proof.
  intros Hm He. unfold binary_round_aux.
  destruct (shr_fexp_positive m e l Hm He) as [H1 H1'].
  destruct (shr_fexp prec emax m e l) as [mrs' e']. simpl in H1, H1'.
  pose proof (round_nearest_even_bounds (shr_m mrs') (loc_of_shr_record mrs')) as H2.
  destruct (shr_fexp_positive (round_nearest_even (shr_m mrs') (loc_of_shr_record mrs'))
              e' loc_Exact ltac:(lia) H1') as [H3 _].
  destruct (shr_fexp prec emax _ e' loc_Exact) as [mrs'' e'']. simpl in H3.
  destruct (shr_m mrs'') as [|p|p]; try lia.
  destruct (e'' <=? emax - prec); reflexivity.
Qed.

Lemma shl_align_exponent m e e' :
  snd (shl_align m e e') = Z.min e e'.
Proof.
  unfold shl_align. destruct (e' - e) eqn:E; simpl; lia.
Qed.

Lemma binary_round_nonzero s m e :
  emin prec emax <= e -> nonzero s (binary_round prec emax s m e).
Proof.
  intros He. unfold binary_round.
  pose proof (shl_align_exponent m e (fexp prec emax (Zpos (digits2_pos m) + e))) as H.
  destruct (shl_align m e _) as [mz ez]. simpl in H.
  apply binary_round_aux_nonzero; [lia|].
  subst ez. unfold fexp in *. lia.
Qed.

Lemma ofZ_nonzero z : 0 < z -> nonzero false (ofZ z).
Proof.
  intros H. destruct z as [|a|a]; try lia.
  apply binary_round_nonzero. unfold emin, prec, emax. lia.
Qed.

(** ** Integers below 2^53 are binary64 values *)

Lemma shr_fexp_canonical m e :
  Zpos (digits2_pos m) = prec -> emin prec emax <= e ->
  shr_fexp prec emax (Zpos m) e loc_Exact
  = ({| shr_m := Zpos m; shr_r := false; shr_s := false |}, e).
Proof.
  intros Hd He. unfold shr_fexp.
  change (Zdigits2 (Zpos m)) with (Zpos (digits2_pos m)). rewrite Hd.
  replace (fexp prec emax (prec + e) - e) with 0
    by (unfold fexp, emin, prec, emax in *; lia).
  reflexivity.
Qed.

Lemma binary_round_aux_canonical s m e :
  Zpos (digits2_pos m) = prec -> emin prec emax <= e <= emax - prec ->
  binary_round_aux prec emax s (Zpos m) e loc_Exact = S754_finite s m e.
Proof.
  intros Hd [He He']. unfold binary_round_aux.
  rewrite shr_fexp_canonical by assumption.
  change (round_nearest_even _ _) with (Zpos m).
  rewrite shr_fexp_canonical by assumption.
  change (shr_m _) with (Zpos m). cbv iota beta.
  destruct (Z.leb_spec e (emax - prec)); [reflexivity|lia].
Qed.

Lemma digits2_pos_iter_xO m k :
  Zpos (digits2_pos (Pos.iter xO m k)) = Zpos (digits2_pos m) + Zpos k.
Proof.
  induction k as [|k IH] using Pos.peano_ind.
  - simpl. lia.
  - rewrite Pos.iter_succ. simpl digits2_pos. lia.
Qed.

Lemma ofZ_finite z :
  0 < z < 2 ^ 53 -> exists m e, ofZ z = S754_finite false m e.
Proof.
  intros [H0 H]. destruct z as [|a|a]; try lia.
  unfold ofZ, binary_normalize, binary_round.
  pose proof (digits2_pos_spec a) as [Hlo _].
  assert (Hd : Zpos (digits2_pos a) <= 53).
  { destruct (Z.le_gt_cases (Zpos (digits2_pos a)) 53) as [|Hgt]; [assumption|].
    assert (2 ^ 53 <= 2 ^ (Zpos (digits2_pos a) - 1)) by (apply Z.pow_le_mono_r; lia).
    lia. }
  unfold shl_align.
  replace (fexp prec emax (Zpos (digits2_pos a) + 0) - 0)
    with (Zpos (digits2_pos a) - 53) by (unfold fexp, emin, prec, emax; lia).
  destruct (Zpos (digits2_pos a) - 53) as [|k|k] eqn:E; try lia.
  - exists a, 0. apply binary_round_aux_canonical; unfold emin, prec, emax; lia.
  - eexists _, _. apply binary_round_aux_canonical.
    + rewrite digits2_pos_iter_xO. unfold prec. lia.
    + unfold fexp, emin, prec, emax. lia.
Qed.

(** ** The operations of the confidence formula on values that are not
    negative *)

Lemma signed_false_nonneg x : signed false x -> nonneg x.
Proof. destruct x as [s|s| |s m e]; simpl; intros H; subst; exact I || assumption. Qed.

Lemma nonzero_nonneg x : nonzero false x -> nonneg x.
Proof. destruct x as [s|s| |s m e]; simpl; intros H; subst; exact I || assumption. Qed.

Lemma ofZ_nonneg z : 0 <= z -> nonneg (ofZ z).
Proof.
  intros H. destruct z as [|a|a]; try lia; [exact I|].
  apply signed_false_nonneg, binary_round_signed.
Qed.

Lemma mul_finite_nonneg x m e : nonneg x -> nonneg (mul x (S754_finite false m e)).
Proof.
  destruct x as [s|[]| |[] mx ex]; simpl; intros H; try contradiction; try exact I.
  apply signed_false_nonneg. apply (binary_round_aux_signed false). lia.
Qed.

Lemma compare_nonneg a b : nonneg a -> nonneg b -> SFcompare a b <> None.
Proof.
  destruct a as [s|[]| |[] ma ea], b as [s'|[]| |[] mb eb]; simpl;
    intros Ha Hb; try contradiction; discriminate.
Qed.

Lemma Math_min_nonneg a b : nonneg a -> nonneg b -> nonneg (Math_min a b).
Proof.
  intros Ha Hb. unfold Math_min.
  pose proof (compare_nonneg a b Ha Hb) as H.
  destruct (SFcompare a b) as [[]|]; try congruence; try assumption.
  destruct (isNegativeZero b); assumption.
Qed.

Lemma add_nonneg x y : nonneg x -> nonneg y -> nonneg (add x y).
Proof.
  destruct x as [[]|[]| |[] mx ex], y as [[]|[]| |[] my ey]; simpl;
    intros Hx Hy; try contradiction; try exact I.
  unfold cond_Zopp.
  change (Zpos ?a + Zpos ?b) with (Zpos (a + b)).
  apply signed_false_nonneg, binary_round_signed.
Qed.

(** A quotient of a value that is finite and not negative by one that is
    positive. *)
Lemma div_nonneg a b :
  nonneg a -> isFinite a = true -> nonzero false b -> nonneg (div a b).
Proof.
  destruct a as [s|[]| |[] ma ea], b as [s'|[]| |[] mb eb]; simpl;
    intros Ha Hfin Hb; try contradiction; try discriminate; try exact I.
  unfold SFdiv_core_binary.
  set (e' := Z.min _ _).
  set (m' := match ea - eb - e' with Z0 => _ | Zpos _ => _ | Zneg _ => _ end).
  assert (Hm' : 0 <= m').
  { subst m'. destruct (ea - eb - e'); try lia. apply Z.shiftl_nonneg. lia. }
  pose proof (Z.div_pos m' (Zpos mb) Hm' ltac:(lia)) as Hq.
  unfold Z.div in Hq.
  destruct (Z.div_eucl m' (Zpos mb)) as [q r]. simpl in Hq.
  apply signed_false_nonneg, binary_round_aux_signed. assumption.
Qed.

Lemma one_value : one = S754_finite false 4503599627370496 (-52).
Proof. vm_compute. reflexivity. Qed.

(** [Math.min(confidence, 1.0)] of a confidence that is not negative lies
    between 0 and 1. *)
Lemma clamp_unit_interval c :
  nonneg c -> le zero (Math_min c one) = true /\ le (Math_min c one) one = true.
Proof.
  intros Hc. rewrite one_value. unfold Math_min, le, SFleb, zero.
  destruct (SFcompare c (S754_finite false 4503599627370496 (-52))) as [[]|] eqn:E.
  - cbn [isNegativeZero]. rewrite E.
    destruct c as [s|[]| |[] m e]; cbn in Hc |- *; try contradiction; auto.
  - rewrite E. destruct c as [s|[]| |[] m e]; cbn in Hc |- *; try contradiction; auto.
  - cbn. auto.
  - exfalso. revert E. apply compare_nonneg; [assumption|exact I].
Qed.

End Binary64.

(** ** The counters of [analyzeSentiment] *)

Lemma chars_length s : List.length (chars s) = String.length s.
Proof. induction s as [|c s IH]; simpl; congruence. Qed.

Lemma chars_str cs : chars (str cs) = cs.
Proof. apply list_ascii_of_string_of_list_ascii. Qed.

Lemma toLowerCase_length s : String.length (toLowerCase s) = String.length s.
Proof.
  unfold toLowerCase. rewrite <- chars_length, chars_str, length_map. apply chars_length.
Qed.

Lemma splitRuns_length cs : forall cur inRun,
  (List.length (splitRuns cs cur inRun) <= S (List.length cs))%nat.
Proof.
  induction cs as [|c cs IH]; intros cur inRun; simpl; [lia|].
  pose proof (IH [] true). pose proof (IH (c :: cur) false).
  destruct (isWhiteSpace c); [destruct inRun|]; simpl; lia.
Qed.

Lemma splitWhiteSpace_length s :
  (List.length (splitWhiteSpace s) <= S (String.length s))%nat.
Proof. unfold splitWhiteSpace. rewrite <- chars_length. apply splitRuns_length. Qed.

Lemma countWord_fold words : forall p n,
  (fst (fold_left countWord words (p, n)) <= p + List.length words
   /\ snd (fold_left countWord words (p, n)) <= n + List.length words)%nat.
Proof.
  induction words as [|w words IH]; intros p n; cbn [fold_left List.length]; [cbn; lia|].
  unfold countWord at 2 4.
  destruct (existsb (includes w) positiveWords), (existsb (includes w) negativeWords);
    match goal with |- context [fold_left countWord words (?a, ?b)] =>
      specialize (IH a b) end; lia.
Qed.

Lemma countWords_bound words :
  (fst (countWords words) <= List.length words
   /\ snd (countWords words) <= List.length words)%nat.
Proof. apply (countWord_fold words 0 0). Qed.

(** ** The confidence of a classification *)

Section Confidence.
Local Open Scope Z_scope.

Lemma literal_nonneg m e : 0 <= m -> nonneg (ofDecimal m e).
Proof.
  intros H. unfold ofDecimal.
  destruct m as [|p|p]; try lia; [exact I|].
  destruct (0 <=? e).
  - destruct (400 <? e); [exact I|]. apply ofZ_nonneg. 
    pose proof (Z.pow_nonneg 10 e ltac:(lia)). lia.
  - destruct (_ <? -400); [exact I|].
    unfold ofRatio. apply (div_nonneg (S754_finite false p 0)); try reflexivity; exact I.
Qed.

Lemma tenth_value : ofDecimal 1 (-1) = S754_finite false 7205759403792794 (-56).
Proof. vm_compute. reflexivity. Qed.

Lemma classify_unit_interval p n :
  Z.of_nat p <= 2 ^ 53 -> Z.of_nat n <= 2 ^ 53 ->
  le zero (SentimentResult.confidence (classify p n)) = true
  /\ le (SentimentResult.confidence (classify p n)) one = true.
Proof.
  intros Hp53 Hn53. unfold classify.
  assert (Hscaled : forall k, nonneg
            (add (ofDecimal 6 (-1))
                 (Math_min (ofDecimal 35 (-2)) (mul (ofZ (Z.of_nat k)) (ofDecimal 1 (-1)))))).
  { intros k. apply add_nonneg; [apply literal_nonneg; lia|].
    apply Math_min_nonneg; [apply literal_nonneg; lia|].
    rewrite tenth_value. apply mul_finite_nonneg, ofZ_nonneg. lia. }
  destruct (Nat.eqb (p + n) 0) eqn:E0;
    [|destruct ((0 <? p)%nat && (0 <? n)%nat) eqn:E1;
      [|destruct (n <? p)%nat eqn:E2]];
    cbv beta iota zeta delta [SentimentResult.confidence];
    apply clamp_unit_interval; [ | |exact (Hscaled p)|exact (Hscaled n)].
  - apply literal_nonneg. lia.
  - apply andb_true_iff in E1 as [Hp Hn].
    apply Nat.ltb_lt in Hp, Hn.
    apply add_nonneg; [apply literal_nonneg; lia|].
    apply div_nonneg.
    + apply ofZ_nonneg. lia.
    + destruct (Z.eq_dec (Z.abs (Z.of_nat p - Z.of_nat n)) 0) as [Hz|Hz].
      * rewrite Hz. reflexivity.
      * destruct (ofZ_finite (Z.abs (Z.of_nat p - Z.of_nat n))) as (m & e & Hv); [lia|].
        rewrite Hv. reflexivity.
    + apply ofZ_nonzero. lia.
Qed.

End Confidence.

(** ** [analyze_sentiment] *)

Lemma neutral_confidence :
  Math_min (ofDecimal 6 (-1)) (ofDecimal 10 (-1)) = ofDecimal 6 (-1).
Proof. vm_compute. reflexivity. Qed.

(** C5. For every input text (a string no longer than the 2^53 - 1 code
    units the language allows), [analyzeSentiment] succeeds and the
    confidence of its result lies between 0 and 1, bounds included; when no
    word of the text holds a sentiment word, the result is [neutral] with
    confidence 0.6. *)
Theorem analyzeSentiment_confidence_in_unit_interval :
  forall (text : string) (provider : TextProvider),
    (Z.of_nat (String.length text) < 2 ^ 53)%Z ->
    exists r : SentimentResult.t,
      analyzeSentiment {| SentimentInput.text := text |} provider = Returned (Ok r)
      /\ le zero (SentimentResult.confidence r) = true
      /\ le (SentimentResult.confidence r) one = true
      /\ (countWords (splitWhiteSpace (toLowerCase text)) = (O, O) ->
          SentimentResult.sentiment r = neutral
          /\ SentimentResult.confidence r = ofDecimal 6 (-1)).
Proof.
  intros text provider Hlen.
  unfold analyzeSentiment. cbn [SentimentInput.text].
  pose proof (countWords_bound (splitWhiteSpace (toLowerCase text))) as [Hp Hn].
  pose proof (splitWhiteSpace_length (toLowerCase text)) as Hwords.
  rewrite toLowerCase_length in Hwords.
  destruct (countWords (splitWhiteSpace (toLowerCase text))) as [p n] eqn:Hcount.
  cbn [fst snd] in Hp, Hn.
  exists (classify p n). split; [reflexivity|].
  destruct (classify_unit_interval p n) as [Hlow Hhigh]; try lia.
  repeat split; try assumption.
  - injection H as -> ->. reflexivity.
  - injection H as -> ->. unfold classify. cbn [Nat.add Nat.eqb SentimentResult.confidence].
    apply neutral_confidence.
Qed.

Lemma analyzeSentiment_confidence_witness :
  exists r : SentimentResult.t,
    analyzeSentiment {| SentimentInput.text := "This is great and amazing!" |} Mock.complete
    = Returned (Ok r)
    /\ le zero (SentimentResult.confidence r) = true
    /\ le (SentimentResult.confidence r) one = true
    /\ (countWords (splitWhiteSpace (toLowerCase "This is great and amazing!")) = (O, O) ->
        SentimentResult.sentiment r = neutral
        /\ SentimentResult.confidence r = ofDecimal 6 (-1)).
Proof.
  apply (analyzeSentiment_confidence_in_unit_interval "This is great and amazing!" Mock.complete).
  vm_compute. reflexivity.
Defined.

(** ** Comparisons of numbers *)

Lemma SFcompare_swap x y : SFcompare y x = option_map CompOpp (SFcompare x y).
Proof.
  destruct x as [[]|[]| |[] mx ex], y as [[]|[]| |[] my ey]; try reflexivity;
    cbn [SFcompare option_map]; rewrite (Z.compare_antisym ex ey);
    destruct (ex ?= ey)%Z; cbn [CompOpp]; try reflexivity;
    change (Pos.compare_cont Eq my mx) with (Pos.compare_cont (CompOpp Eq) my mx);
    rewrite <- (Pos.compare_cont_antisym mx my Eq);
    destruct (Pos.compare_cont Eq mx my); reflexivity.
Qed.

Lemma SFcompare_numbers x y :
  isNaN x = false -> isNaN y = false -> exists c, SFcompare x y = Some c.
Proof.
  destruct x as [[]|[]| |[] mx ex], y as [[]|[]| |[] my ey]; cbn [isNaN SFcompare];
    intros Hx Hy; try discriminate; eexists; reflexivity.
Qed.

(** [x] is not below [b] exactly when [b <= x], for numbers. *)
Lemma not_lt_iff_le x b :
  isNaN x = false -> isNaN b = false -> (lt x b = false <-> le b x = true).
Proof.
  intros Hx Hb. unfold lt, le, SFltb, SFleb. rewrite (SFcompare_swap x b).
  destruct (SFcompare_numbers x b Hx Hb) as [c ->]. destruct c; cbn; intuition congruence.
Qed.

(** [x <= b] fails exactly when [b < x], for numbers. *)
Lemma not_le_iff_lt x b :
  isNaN x = false -> isNaN b = false -> (le x b = false <-> lt b x = true).
Proof.
  intros Hx Hb. unfold lt, le, SFltb, SFleb. rewrite (SFcompare_swap x b).
  destruct (SFcompare_numbers x b Hx Hb) as [c ->]. destruct c; cbn; intuition congruence.
Qed.

(** ** The mock web search *)

Section MockSearch.

Lemma small_cases (P : Z -> Prop) (lo hi : Z) :
  (forall k : nat, (k <= Z.to_nat (hi - lo))%nat -> P (lo + Z.of_nat k)%Z) ->
  forall z, (lo <= z <= hi)%Z -> P z.
Proof.
  intros H z Hz.
  replace z with (lo + Z.of_nat (Z.to_nat (z - lo)))%Z by lia.
  apply H. lia.
Qed.

(** The test of the loop, [i < Math.min(maxResults, domains.length)], for a
    bound within the schema and an index the loop can reach. *)
Lemma loop_test (N : Z) (i : nat) :
  (1 <= N <= 20)%Z -> (i <= 5)%nat ->
  lt (ofZ (Z.of_nat i)) (Math_min (ofZ N) (ofZ (Z.of_nat (List.length Mock.domains))))
  = (Z.of_nat i <? Z.min N 5)%Z.
Proof.
  intros HN Hi. revert N HN.
  apply (small_cases _ 1 20). intros k Hk. revert i Hi.
  do 20 (destruct k as [|k]; [intros i Hi;
    do 6 (destruct i as [|i]; [vm_compute; reflexivity|]); exfalso; lia|]).
  exfalso. cbn in Hk. lia.
Qed.

(** The test of the loop fails at [i = domains.length] for every
    [maxResults], NaN included: the loop takes no more turns than there are
    domains. *)
Lemma loop_test_at_end (maxResults : number) :
  lt (ofZ (Z.of_nat (List.length Mock.domains)))
     (Math_min maxResults (ofZ (Z.of_nat (List.length Mock.domains)))) = false.
Proof.
  replace (ofZ (Z.of_nat (List.length Mock.domains)))
    with (S754_finite false 5629499534213120 (-50)) by (vm_compute; reflexivity).
  unfold Math_min, lt, SFltb.
  destruct (SFcompare maxResults (S754_finite false 5629499534213120 (-50)))
    as [[]|] eqn:E; cbn [isNegativeZero];
    try rewrite (SFcompare_swap maxResults), E; reflexivity.
Qed.

(** More fuel than there are domains changes nothing. *)
Lemma search_fuel (extra : nat) query words (maxResults : number) :
  Mock.searchFrom (List.length Mock.domains + extra) query words maxResults 0
  = Mock.searchFrom (List.length Mock.domains) query words maxResults 0.
Proof.
  change (List.length Mock.domains) with 5%nat.
  cbn [Nat.add Mock.searchFrom].
  repeat match goal with
         | |- (if ?test then _ else _) = (if ?test then _ else _) =>
             destruct test; [f_equal|reflexivity]
         end.
  destruct extra as [|extra]; [reflexivity|].
  cbn [Mock.searchFrom]. rewrite loop_test_at_end. reflexivity.
Qed.

(** The loop, whatever fuel is left once it covers the results to come. *)
Lemma searchFrom_results query words (N : Z) :
  (1 <= N <= 20)%Z ->
  forall fuel i : nat,
    (i <= Z.to_nat (Z.min N 5))%nat -> (Z.to_nat (Z.min N 5) - i <= fuel)%nat ->
    Mock.searchFrom fuel query words (ofZ N) i
    = map (Mock.resultAt query words) (seq i (Z.to_nat (Z.min N 5) - i)).
Proof.
  intros HN. induction fuel as [|fuel IH]; intros i Hi Hfuel.
  - replace (Z.to_nat (Z.min N 5) - i)%nat with O by lia. reflexivity.
  - cbn [Mock.searchFrom]. rewrite loop_test by lia.
    destruct (Z.ltb_spec (Z.of_nat i) (Z.min N 5)) as [Hlt|Hge].
    + rewrite IH by lia.
      replace (Z.to_nat (Z.min N 5) - i)%nat with (S (Z.to_nat (Z.min N 5) - S i)) by lia.
      reflexivity.
    + replace (Z.to_nat (Z.min N 5) - i)%nat with O by lia. reflexivity.
Qed.

Lemma scores_decrease (i j : nat) :
  (i < j < 5)%nat -> lt (Mock.scoreAt j) (Mock.scoreAt i) = true.
Proof.
  intros H.
  do 5 (destruct i as [|i]; [do 5 (destruct j as [|j]; [try lia; vm_compute; reflexivity|]); lia|]).
  lia.
Qed.

End MockSearch.

(** C6. For every query and every [maxResults = N] within the bound of the
    schema (an integer from 1 to 20), the mock web search succeeds with
    exactly min(N, number of placeholder domains) results, the score of the
    result at index [i] is [1.0 - i * 0.15], and the scores strictly
    decrease along the list. *)
Theorem mock_search_count_and_scores :
  forall (query : string) (N : Z),
    (1 <= N <= 20)%Z ->
    exists results : list SearchResult.t,
      Mock.search query (ofZ N) = Returned (Ok results)
      /\ List.length results = Z.to_nat (Z.min N (Z.of_nat (List.length Mock.domains)))
      /\ (forall i, (i < List.length results)%nat ->
            option_map SearchResult.score (nth_error results i)
            = Some (sub (ofDecimal 10 (-1)) (mul (ofZ (Z.of_nat i)) (ofDecimal 15 (-2)))))
      /\ (forall i j ri rj, (i < j)%nat ->
            nth_error results i = Some ri -> nth_error results j = Some rj ->
            lt (SearchResult.score rj) (SearchResult.score ri) = true).
Proof.
  intros query N HN.
  set (words := splitWhiteSpace (toLowerCase query)).
  set (K := Z.to_nat (Z.min N 5)).
  assert (HK : (K <= 5)%nat) by (subst K; lia).
  assert (Hres : Mock.search query (ofZ N)
                 = Returned (Ok (map (Mock.resultAt query words) (seq 0 K)))).
  { unfold Mock.search. fold words.
    rewrite (searchFrom_results query words N HN) by (unfold Mock.domains; cbn [List.length]; lia).
    fold K. rewrite Nat.sub_0_r. reflexivity. }
  assert (Hnth : forall i, (i < K)%nat ->
            nth_error (map (Mock.resultAt query words) (seq 0 K)) i
            = Some (Mock.resultAt query words i)).
  { intros i Hi. rewrite nth_error_map, nth_error_seq.
    destruct (Nat.ltb_spec i K); [reflexivity|lia]. }
  exists (map (Mock.resultAt query words) (seq 0 K)).
  rewrite length_map, length_seq.
  split; [exact Hres|]. split; [reflexivity|]. split.
  - intros i Hi. rewrite Hnth by assumption. reflexivity.
  - intros i j ri rj Hij Hi Hj.
    assert (Hj' : (j < K)%nat).
    { assert (Hsome : nth_error (map (Mock.resultAt query words) (seq 0 K)) j <> None)
        by congruence.
      apply nth_error_Some in Hsome. rewrite length_map, length_seq in Hsome. exact Hsome. }
    rewrite Hnth in Hi, Hj by lia.
    injection Hi as <-. injection Hj as <-.
    apply scores_decrease. lia.
Qed.

Lemma mock_search_witness :
  exists results : list SearchResult.t,
    Mock.search "MCP protocol" (ofZ 3) = Returned (Ok results)
    /\ List.length results = Z.to_nat (Z.min 3 (Z.of_nat (List.length Mock.domains)))
    /\ (forall i, (i < List.length results)%nat ->
          option_map SearchResult.score (nth_error results i)
          = Some (sub (ofDecimal 10 (-1)) (mul (ofZ (Z.of_nat i)) (ofDecimal 15 (-2)))))
    /\ (forall i j ri rj, (i < j)%nat ->
          nth_error results i = Some ri -> nth_error results j = Some rj ->
          lt (SearchResult.score rj) (SearchResult.score ri) = true).
Proof.
  apply (mock_search_count_and_scores "MCP protocol" 3). lia.
Defined.

(** ** The mock weather provider *)

(** A location whose trimmed lower-case form is a key of the table gets the
    entry of the key: for the key of San Francisco, the canned 62 degrees. *)
Lemma mock_weather_known_key :
  forall (location : string) (data : WeatherData.t),
    ownProperty (trim (toLowerCase location)) Mock.mockData = Some data ->
    Mock.getWeather location = Returned (Ok (Typed data)).
Proof.
  intros location data H. unfold Mock.getWeather, getProperty. rewrite H. reflexivity.
Qed.

Lemma mock_weather_san_francisco :
  forall location : string,
    trim (toLowerCase location) = "san francisco" ->
    exists data,
      Mock.getWeather location = Returned (Ok (Typed data))
      /\ WeatherData.temperature data = ofZ 62.
Proof.
  intros location H. eexists. split.
  - apply mock_weather_known_key. rewrite H. reflexivity.
  - reflexivity.
Qed.

(** A location whose key is neither in the table nor a name that objects
    inherit is echoed in a successful result. *)
Lemma mock_weather_unknown_key :
  forall location : string,
    ownProperty (trim (toLowerCase location)) Mock.mockData = None ->
    inheritsMember (trim (toLowerCase location)) = false ->
    exists data,
      Mock.getWeather location = Returned (Ok (Typed data))
      /\ WeatherData.location data = location.
Proof.
  intros location Hown Hinherit. unfold Mock.getWeather, getProperty.
  rewrite Hown, Hinherit. eexists. split; reflexivity.
Qed.

(** C7, at the input that breaks it. The location [constructor] is no key of
    the table, and the provider does not answer with a reading that echoes
    it: the lookup finds the member of that name that the table inherits
    from [Object.prototype], which is truthy, and the provider returns it as
    if it were the entry of a known place; it has no [location]. *)
Theorem mock_weather_inherited_key :
  ownProperty (trim (toLowerCase "constructor")) Mock.mockData = None
  /\ Mock.getWeather "constructor" = Returned (Ok (Foreign "constructor"))
  /\ dynField WeatherData.location (Foreign "constructor") = None
  /\ Mock.getWeather " __PROTO__ " = Returned (Ok (Foreign "__proto__")).
Proof. split; [|split; [|split]]; reflexivity. Qed.

(** ** The two callback tools *)

Lemma prefix_refl s : String.prefix s s = true.
Proof.
  induction s as [|c s IH]; [reflexivity|].
  cbn [String.prefix]. destruct (ascii_dec c c); [exact IH|congruence].
Qed.

Lemma includes_refl s : includes s s = true.
Proof. destruct s; cbn [includes]; rewrite prefix_refl; reflexivity. Qed.

(** A text includes what it ends with. *)
Lemma includes_suffix a b : includes (a ++ b) b = true.
Proof.
  induction a as [|c a IH]; [apply includes_refl|].
  cbn [append includes]. rewrite IH. apply orb_true_r.
Qed.

(** C4. [smartSummarize] sends one sampling request and answers, for every
    input and every response of the client: the text of the client,
    verbatim, in a success when the payload is of type text; a failure whose
    message flags the non-text payload otherwise; and, when the request
    throws, a failure whose message names what was thrown. *)
Theorem smartSummarize_outcomes :
  forall (input : SmartSummarizeInput.t) (server : Sdk.Server.t),
    (forall response text,
        Sdk.Server.createMessage server (samplingRequest input) = Returned response ->
        Sdk.CreateMessageResult.content response = Sdk.TextContent text ->
        smartSummarize input server = Returned (Ok text))
    /\ (forall response,
        Sdk.Server.createMessage server (samplingRequest input) = Returned response ->
        (forall text, Sdk.CreateMessageResult.content response <> Sdk.TextContent text) ->
        smartSummarize input server
        = Returned (Err "Client returned non-text sampling response")
        /\ includes "Client returned non-text sampling response" "non-text" = true)
    /\ (forall err,
        Sdk.Server.createMessage server (samplingRequest input) = Thrown err ->
        smartSummarize input server
        = Returned (Err ("Sampling request failed: " ++ rendering err))
        /\ includes ("Sampling request failed: " ++ rendering err) (rendering err) = true).
Proof.
  intros input server. unfold smartSummarize. split; [|split].
  - intros response text Hcall Htext. rewrite Hcall, Htext. reflexivity.
  - intros response Hcall Hother. rewrite Hcall. split; [|reflexivity].
    destruct (Sdk.CreateMessageResult.content response) as [text| |];
      [destruct (Hother text); reflexivity|reflexivity|reflexivity].
  - intros err Hcall. rewrite Hcall. split; [reflexivity|apply includes_suffix].
Qed.

Lemma smartSummarize_witness :
  smartSummarize
    {| SmartSummarizeInput.text := "Anthropic builds safe AI systems.";
       SmartSummarizeInput.maxLength := ofZ 20 |}
    (textClient "AI builds safe systems.")
  = Returned (Ok "AI builds safe systems.").
Proof.
  apply (proj1 (smartSummarize_outcomes
                  {| SmartSummarizeInput.text := "Anthropic builds safe AI systems.";
                     SmartSummarizeInput.maxLength := ofZ 20 |}
                  (textClient "AI builds safe systems."))
               {| Sdk.CreateMessageResult.role := "assistant";
                  Sdk.CreateMessageResult.content := Sdk.TextContent "AI builds safe systems.";
                  Sdk.CreateMessageResult.model := "claude-test" |});
    reflexivity.
Defined.

(** *** What the conversions throw on *)

Lemma json_induction (P : json -> Prop) :
  P JNull -> (forall b, P (JBool b)) -> (forall x, P (JNum x)) -> (forall s, P (JStr s)) ->
  (forall items, Forall P items -> P (JArr items)) ->
  (forall fields, P (JObj fields)) ->
  forall v, P v.
Proof.
  intros Hnull Hbool Hnum Hstr Harr Hobj.
  fix IH 1. intros [|b|x|s|items|fields].
  - exact Hnull.
  - apply Hbool.
  - apply Hnum.
  - apply Hstr.
  - apply Harr.
    exact ((fix each (items : list json) : Forall P items :=
              match items with
              | [] => Forall_nil P
              | item :: rest => Forall_cons item (IH item) (each rest)
              end) items).
  - apply Hobj.
Qed.

Lemma mapOption_throws {A B : Type} (f : A -> option B) xs :
  mapOption f xs = None <-> exists x, In x xs /\ f x = None.
Proof.
  induction xs as [|x xs IH]; cbn [mapOption].
  - split; [discriminate|intros (x & [] & _)].
  - destruct (f x) as [y|] eqn:Hx.
    + destruct (mapOption f xs) as [ys|]; cbn [option_map].
      * split; [discriminate|]. intros (bad & [<-|Hin] & Hbad); [congruence|].
        exfalso. assert (Hnone : Some ys = None) by (apply IH; exists bad; split; assumption).
        discriminate Hnone.
      * split; [|reflexivity]. intros _.
        destruct (proj1 IH eq_refl) as (bad & Hin & Hbad).
        exists bad. split; [right; exact Hin|exact Hbad].
    + split; [|reflexivity]. intros _. exists x. split; [left; reflexivity|exact Hx].
Qed.

(** [String(v)] throws exactly on the values that [throwsOnConversion]
    tells. *)
Lemma toString_throws v : toString v = None <-> throwsOnConversion v.
Proof.
  induction v as [|b|x|s|items IH|fields] using json_induction;
    try (split; [discriminate|intros H; inversion H]).
  - cbn [toString]. rewrite Forall_forall in IH. split.
    + intros Hnone.
      destruct (mapOption _ items) eqn:Hjoined; [discriminate Hnone|].
      apply mapOption_throws in Hjoined as (item & Hin & Hbad).
      assert (Hnot : item <> JNull) by (intros ->; discriminate Hbad).
      apply (throws_array items item Hin Hnot). apply IH; [exact Hin|].
      destruct item; try discriminate Hbad; exact Hbad.
    + intros H. inversion H as [|? item Hin Hnot Hbad]; subst.
      assert (Hjoined : mapOption (fun item => match item with
                                               | JNull => Some ""
                                               | _ => toString item
                                               end) items = None).
      { apply mapOption_throws. exists item. split; [exact Hin|].
        apply IH in Hbad; [|exact Hin]. destruct item; try exact Hbad. congruence. }
      rewrite Hjoined. reflexivity.
  - cbn [toString]. destruct (ownProperty "toString" fields) as [value|] eqn:Hown.
    + split; [intros _; exact (throws_object fields value Hown)|reflexivity].
    + split; [discriminate|]. intros H. inversion H; congruence.
Qed.

(** [Number(v)] throws on the same values. *)
Lemma toNumber_throws v : toNumber v = None <-> throwsOnConversion v.
Proof.
  destruct v as [|b|x|s|items|fields];
    try (split; [discriminate|intros H; inversion H]).
  - rewrite <- toString_throws. unfold toNumber.
    destruct (toString (JArr items)); split; try discriminate; reflexivity.
  - cbn [toNumber]. destruct (ownProperty "toString" fields) as [value|] eqn:Hown.
    + split; [intros _; exact (throws_object fields value Hown)|reflexivity].
    + split; [discriminate|]. intros H. inversion H; congruence.
Qed.

(** [configureAnalysis] returns a success or throws the [TypeError] of a
    conversion; it returns no failure and throws nothing else. *)
Lemma configureAnalysis_succeeds_or_throws input server :
  (exists r, configureAnalysis input server = Returned (Ok r))
  \/ configureAnalysis input server = Thrown cannotConvert.
Proof.
  unfold configureAnalysis.
  destruct (Sdk.Server.elicitInput server (elicitRequest input)) as [result|err];
    [|left; eexists; reflexivity].
  destruct (if String.eqb (Sdk.ElicitResult.action result) "accept"
            then notNullish (Sdk.ElicitResult.content result) else None) as [raw|].
  - destruct (readConfig raw) as [config|]; [|right; reflexivity].
    destruct (toString (AnalysisConfig.depth config)); [left; eexists|right]; reflexivity.
  - destruct (String.eqb (Sdk.ElicitResult.action result) "decline");
      left; eexists; reflexivity.
Qed.




(** C10. When the client answers the elicitation with action [accept] and a
    payload that is absent or null, [configureAnalysis] returns a success
    whose action is [cancel], with no configuration: the accept branch asks
    for a payload, the decline branch does not match, and the last return is
    the one of a cancel. *)
Theorem configureAnalysis_accept_without_payload :
  forall (input : ConfigureAnalysisInput.t) (server : Sdk.Server.t) (content : option json),
    Sdk.Server.elicitInput server (elicitRequest input)
    = Returned {| Sdk.ElicitResult.action := "accept"; Sdk.ElicitResult.content := content |} ->
    content = None \/ content = Some JNull ->
    configureAnalysis input server
    = Returned (Ok {| ConfigureAnalysisResult.action := cancel;
                      ConfigureAnalysisResult.config := None;
                      ConfigureAnalysisResult.message :=
                        "User cancelled the analysis configuration dialog." |}).
Proof.
  intros input server content Hcall Hcontent.
  unfold configureAnalysis. rewrite Hcall.
  destruct Hcontent as [-> | ->]; reflexivity.
Qed.

Lemma configureAnalysis_accept_without_payload_witness :
  configureAnalysis {| ConfigureAnalysisInput.text := "Some text." |} (textClient "unused")
  = Returned (Ok {| ConfigureAnalysisResult.action := cancel;
                    ConfigureAnalysisResult.config := None;
                    ConfigureAnalysisResult.message :=
                      "User cancelled the analysis configuration dialog." |}).
Proof.
  apply (configureAnalysis_accept_without_payload
           {| ConfigureAnalysisInput.text := "Some text." |} (textClient "unused") None).
  - reflexivity.
  - left. reflexivity.
Defined.

(** ** [get_weather] and the unit it is asked for *)

(** C9. The result of the [get_weather] handler does not depend on the
    [unit] argument: for every location and every weather provider the
    handler returns the same result whatever the unit, and so does the
    dispatcher for the units celsius and fahrenheit; the unit of the result
    is the one of the provider, as for the entry of London of the mock,
    which is in celsius when fahrenheit is asked for. *)
Theorem getWeather_independent_of_unit :
  (forall (location : string) (provider : WeatherProvider) (unit1 unit2 : string),
      Weather.getWeather
        {| WeatherInput.location := location; WeatherInput.unit := unit1 |} provider
      = Weather.getWeather
          {| WeatherInput.location := location; WeatherInput.unit := unit2 |} provider)
  /\ (forall (providers : Providers.t) (server : Sdk.Server.t) (location : string),
      callTool providers server "get_weather" (weatherArgs location "celsius")
      = callTool providers server "get_weather" (weatherArgs location "fahrenheit"))
  /\ (exists data : WeatherData.t,
      Weather.getWeather
        {| WeatherInput.location := "london"; WeatherInput.unit := "fahrenheit" |}
        Mock.getWeather
      = Returned (Ok (Typed data))
      /\ WeatherData.unit data = WeatherData.celsius).
Proof.
  split; [|split].
  - intros location provider unit1 unit2. reflexivity.
  - intros providers server location. destruct location; reflexivity.
  - eexists. split; reflexivity.
Qed.

(** ** The dispatcher *)

(** C8. For every operation name that is not in the catalog and every
    argument map, the dispatcher does not throw: it returns a response
    flagged as an error, whose text names the unknown operation.  This holds
    whatever the handlers are. *)
Theorem callTool_unknown_tool :
  forall (h : Handlers.t) (providers : Providers.t) (server : Sdk.Server.t)
         (name : string) (args : option json),
    ~ In name toolNames ->
    exists response : CallToolResult.t,
      callToolWith h providers server name args = Returned response
      /\ CallToolResult.isError response = true
      /\ CallToolResult.content response = [textItem (Some ("Unknown tool: " ++ name))]
      /\ includes ("Unknown tool: " ++ name) name = true.
Proof.
  intros h providers server name args Hname.
  unfold callToolWith.
  repeat match goal with
         | |- context [String.eqb name ?known] =>
             destruct (String.eqb_spec name known) as [->|_];
             [exfalso; apply Hname; unfold toolNames; cbn [In]; tauto|]
         end.
  eexists. split; [reflexivity|]. split; [reflexivity|]. split; [reflexivity|].
  apply includes_suffix.
Qed.

Lemma callTool_unknown_tool_witness :
  exists response : CallToolResult.t,
    callToolWith toolHandlers Mock.providers bareClient "nonexistent_tool" (Some (JObj []))
    = Returned response
    /\ CallToolResult.isError response = true
    /\ CallToolResult.content response
       = [textItem (Some ("Unknown tool: " ++ "nonexistent_tool"))]
    /\ includes ("Unknown tool: " ++ "nonexistent_tool") "nonexistent_tool" = true.
Proof.
  apply (callTool_unknown_tool toolHandlers Mock.providers bareClient
           "nonexistent_tool" (Some (JObj []))).
  unfold toolNames. cbn [In]. intros H.
  repeat (destruct H as [H|H]; [discriminate H|]). exact H.
Defined.

(** *** [Zod.validate] finds an issue exactly when the value does not
    conform *)

Lemma checkNumber_passes x at_ c :
  isNaN x = false ->
  match c with Zod.Min b | Zod.Max b => isNaN b = false | _ => True end ->
  (Zod.checkNumber x at_ c = [] <-> satisfies x c).
Proof.
  intros Hx Hc. destruct c as [| |b|b]; cbn [Zod.checkNumber satisfies].
  - destruct (isInteger x); intuition congruence.
  - pose proof (not_le_iff_lt x zero Hx eq_refl) as Hswap. unfold zero in *.
    destruct (le x (S754_zero false)); [|intuition congruence].
    split; [discriminate|]. intros Hlt.
    destruct Hswap as [_ Hback]. specialize (Hback Hlt). discriminate.
  - pose proof (not_lt_iff_le x b Hx Hc) as Hswap.
    destruct (lt x b); [|intuition congruence].
    split; [discriminate|]. intros Hle.
    destruct Hswap as [_ Hback]. specialize (Hback Hle). discriminate.
  - pose proof (not_lt_iff_le b x Hc Hx) as Hswap.
    destruct (lt b x); [|intuition congruence].
    split; [discriminate|]. intros Hle.
    destruct Hswap as [_ Hback]. specialize (Hback Hle). discriminate.
Qed.

Lemma checks_pass x at_ checks :
  isNaN x = false ->
  boundsAreNumbers (Zod.ZNumber checks) = true ->
  (flat_map (Zod.checkNumber x at_) checks = [] <-> Forall (satisfies x) checks).
Proof.
  intros Hx. cbn [boundsAreNumbers].
  induction checks as [|c checks IH]; intros Hb; cbn [flat_map forallb] in *.
  - split; [constructor|reflexivity].
  - apply andb_true_iff in Hb as [Hc Hrest].
    assert (Hc' : match c with Zod.Min b | Zod.Max b => isNaN b = false | _ => True end).
    { destruct c; try exact I; apply negb_true_iff; exact Hc. }
    pose proof (checkNumber_passes x at_ c Hx Hc') as Hone.
    specialize (IH Hrest). split.
    + intros Happ. apply app_eq_nil in Happ as [H1 H2].
      constructor; [apply Hone, H1|apply IH, H2].
    + intros Hall. inversion Hall as [|? ? H1 H2]; subst.
      apply Hone in H1. apply IH in H2. rewrite H1, H2. reflexivity.
Qed.

Lemma existsb_eqb_In s values : existsb (String.eqb s) values = true <-> In s values.
Proof.
  rewrite existsb_exists. split.
  - intros (v & Hin & Heq). apply String.eqb_eq in Heq. subst. exact Hin.
  - intros Hin. exists s. split; [exact Hin|apply String.eqb_refl].
Qed.

Lemma validate_conforms s :
  boundsAreNumbers s = true ->
  forall at_ v, Zod.validate s at_ v = [] <-> conforms s v.
Proof.
  induction s as [minLength|checks|values|item IH]; intros Hb at_ v.
  - destruct v; cbn [Zod.validate]; try (split; [discriminate|intros H; inversion H]).
    destruct (Nat.ltb_spec (String.length s) minLength).
    + split; [discriminate|]. intros H'; inversion H'; subst. lia.
    + split; [|reflexivity]. intros _. constructor. assumption.
  - destruct v; cbn [Zod.validate]; try (split; [discriminate|intros H; inversion H]).
    destruct (isNaN x) eqn:Hx.
    + split; [discriminate|]. intros H'; inversion H'; subst. congruence.
    + rewrite (checks_pass x at_ checks Hx Hb). split.
      * intros Hall. constructor; assumption.
      * intros H'; inversion H'; subst. assumption.
  - destruct v; cbn [Zod.validate]; try (split; [discriminate|intros H; inversion H]).
    pose proof (existsb_eqb_In s values) as Hin.
    destruct (existsb (String.eqb s) values).
    + split; [|reflexivity]. intros _. constructor. apply Hin. reflexivity.
    + split; [discriminate|]. intros H'; inversion H'; subst.
      apply Hin in H1. discriminate.
  - cbn [boundsAreNumbers] in Hb. specialize (IH Hb).
    destruct v; cbn [Zod.validate]; try (split; [discriminate|intros H; inversion H]).
    assert (Heach : forall xs i,
      (fix each (i : nat) (xs : list json) {struct xs} : list Zod.issue :=
         match xs with
         | [] => []
         | x :: xs' => (Zod.validate item (at_ ++ [Zod.Index i]) x ++ each (S i) xs')%list
         end) i xs = [] <-> Forall (conforms item) xs).
    { induction xs as [|x xs IHxs]; intros i.
      - split; [constructor|reflexivity].
      - split.
        + intros Happ. apply app_eq_nil in Happ as [H1 H2].
          constructor; [apply (IH (at_ ++ [Zod.Index i])%list x), H1|apply (IHxs (S i)), H2].
        + intros Hall. inversion Hall as [|? ? H1 H2]; subst.
          apply (IH (at_ ++ [Zod.Index i])%list) in H1. apply (IHxs (S i)) in H2.
          rewrite H1, H2. reflexivity. }
    rewrite (Heach items O). split.
    + intros Hall. constructor. assumption.
    + intros H'; inversion H'; subst. assumption.
Qed.

(** *** [Zod.parse] throws exactly on the arguments that violate the shape *)

Lemma parseField_rejects f data :
  boundsAreNumbers (Zod.type f) = true ->
  ((exists issues, Zod.parseField f data = inl issues)
   <-> (Zod.default f = None /\ ownProperty (Zod.name f) data = None)
       \/ (exists v, ownProperty (Zod.name f) data = Some v /\ ~ conforms (Zod.type f) v)).
Proof.
  intros Hb. unfold Zod.parseField.
  destruct (ownProperty (Zod.name f) data) as [v|] eqn:Hown.
  - pose proof (validate_conforms (Zod.type f) Hb [Zod.Key (Zod.name f)] v) as Hv.
    destruct (Zod.validate (Zod.type f) [Zod.Key (Zod.name f)] v) as [|i issues].
    + split.
      * intros [issues H]. discriminate.
      * intros [[_ H]|(v' & H & Hnot)]; [discriminate|].
        injection H as <-. exfalso. apply Hnot, Hv. reflexivity.
    + split.
      * intros _. right. exists v. split; [reflexivity|].
        intros Hc. apply Hv in Hc. discriminate.
      * intros _. eexists. reflexivity.
  - destruct (Zod.default f) as [d|].
    + split.
      * intros [issues H]. discriminate.
      * intros [[H _]|(v' & H & _)]; discriminate.
    + split.
      * intros _. left. split; reflexivity.
      * intros _. eexists. reflexivity.
Qed.

Lemma parseField_issues f data issues :
  Zod.parseField f data = inl issues -> issues <> [].
Proof.
  unfold Zod.parseField.
  destruct (ownProperty (Zod.name f) data) as [v|].
  - destruct (Zod.validate (Zod.type f) [Zod.Key (Zod.name f)] v); intros H;
      inversion H; subst; discriminate.
  - destruct (Zod.default f); intros H; inversion H; subst; discriminate.
Qed.

Lemma parseFields_accepts shape data :
  fst (Zod.parseFields shape data) = []
  <-> (forall f, In f shape -> forall issues, Zod.parseField f data <> inl issues).
Proof.
  induction shape as [|f shape IH]; cbn [Zod.parseFields].
  - split; [intros _ f []|reflexivity].
  - destruct (Zod.parseFields shape data) as [issues parsed]. cbn [fst] in IH.
    destruct (Zod.parseField f data) as [mine|v] eqn:Hf; cbn [fst].
    + split.
      * intros Happ. apply app_eq_nil in Happ as [Hmine _].
        exfalso. exact (parseField_issues f data mine Hf Hmine).
      * intros Hall. exfalso. exact (Hall f (or_introl eq_refl) mine Hf).
    + rewrite IH. split.
      * intros Hall g [<-|Hin] more; [congruence|apply Hall, Hin].
      * intros Hall g Hin. apply Hall. right. exact Hin.
Qed.

Lemma parse_issues shape args issues :
  Zod.parse shape args = inl issues -> issues <> [].
Proof.
  unfold Zod.parse. destruct args as [[| | | | |data]|]; try (intros H; inversion H; discriminate).
  destruct (Zod.parseFields shape data) as [[|i more] parsed]; intros H; inversion H; discriminate.
Qed.

Lemma parse_rejects_iff_violates shape args :
  Forall (fun f => boundsAreNumbers (Zod.type f) = true) shape ->
  ((exists issues, Zod.parse shape args = inl issues) <-> violates shape args).
Proof.
  intros Hok. rewrite Forall_forall in Hok. split.
  - intros [issues Hparse]. unfold Zod.parse in Hparse.
    destruct args as [[| | | | |data]|];
      try (apply violates_not_object; intros data' H'; discriminate).
    pose proof (parseFields_accepts shape data) as Hacc.
    destruct (Zod.parseFields shape data) as [[|i more] parsed]; [discriminate|].
    cbn [fst] in Hacc.
    assert (Hsome : ~ (forall f, In f shape ->
                         forall issues, Zod.parseField f data <> inl issues)).
    { intros Hall. apply Hacc in Hall. discriminate. }
    assert (Hex : exists f, In f shape /\ exists issues, Zod.parseField f data = inl issues).
    { clear - Hsome. induction shape as [|f shape IH].
      - exfalso. apply Hsome. intros f [].
      - destruct (Zod.parseField f data) as [mine|v] eqn:Hf.
        + exists f. split; [left; reflexivity|]. exists mine. exact Hf.
        + destruct IH as (g & Hin & Hg).
          * intros Hall. apply Hsome. intros g [<-|Hin] more; [congruence|apply Hall, Hin].
          * exists g. split; [right; exact Hin|exact Hg]. }
    destruct Hex as (f & Hin & Hrej).
    apply (parseField_rejects f data (Hok f Hin)) in Hrej.
    destruct Hrej as [[Hdef Hown]|(v & Hown & Hnot)].
    + exact (violates_missing shape data f Hin Hdef Hown).
    + exact (violates_field shape data f v Hin Hown Hnot).
  - intros Hv.
    assert (Hfield : forall data f, In f shape ->
              (exists issues, Zod.parseField f data = inl issues) ->
              exists issues, Zod.parse shape (Some (JObj data)) = inl issues).
    { intros data f Hin [mine Hrej]. unfold Zod.parse.
      pose proof (parseFields_accepts shape data) as Hacc.
      destruct (Zod.parseFields shape data) as [[|i more] parsed]; [|eexists; reflexivity].
      exfalso. cbn [fst] in Hacc.
      destruct Hacc as [Hacc _]. exact (Hacc eq_refl f Hin mine Hrej). }
    destruct Hv as [args Hno|data f Hin Hdef Hown|data f v Hin Hown Hnot].
    + destruct args as [[| | | | |data]|]; try (eexists; reflexivity).
      exfalso. exact (Hno data eq_refl).
    + apply (Hfield data f Hin).
      apply (parseField_rejects f data (Hok f Hin)). left. split; assumption.
    + apply (Hfield data f Hin).
      apply (parseField_rejects f data (Hok f Hin)). right. exists v. split; assumption.
Qed.

(** What [Zod.parse] returns holds every key of the shape, in order, with the
    value of the arguments when it is there, and conforms, and with the
    default otherwise: the typed views [ofParsed] read keys that exist. *)
Lemma parse_output shape data parsed :
  Zod.parse shape (Some (JObj data)) = inr parsed ->
  Forall2
    (fun f kv =>
       fst kv = Zod.name f
       /\ ((ownProperty (Zod.name f) data = Some (snd kv)
            /\ Zod.validate (Zod.type f) [Zod.Key (Zod.name f)] (snd kv) = [])
           \/ (ownProperty (Zod.name f) data = None /\ Zod.default f = Some (snd kv))))
    shape parsed.
Proof.
  unfold Zod.parse.
  destruct (Zod.parseFields shape data) as [issues out] eqn:Hfields.
  destruct issues as [|i more]; [|discriminate]. intros H; injection H as <-.
  revert out Hfields.
  induction shape as [|f shape IH]; intros out Hfields; cbn [Zod.parseFields] in Hfields.
  - injection Hfields as <-. constructor.
  - destruct (Zod.parseFields shape data) as [issues rest].
    destruct (Zod.parseField f data) as [mine|v] eqn:Hf.
    + injection Hfields as Happ _. apply app_eq_nil in Happ as [Hmine _].
      exfalso. exact (parseField_issues f data mine Hf Hmine).
    + injection Hfields as -> <-. constructor; [|apply IH; reflexivity].
      split; [reflexivity|]. cbn [snd]. unfold Zod.parseField in Hf.
      destruct (ownProperty (Zod.name f) data) as [w|].
      * destruct (Zod.validate (Zod.type f) [Zod.Key (Zod.name f)] w) eqn:Hw;
          [|discriminate]. injection Hf as <-. left. split; [reflexivity|exact Hw].
      * destruct (Zod.default f) as [d|]; [|discriminate].
        injection Hf as <-. right. split; reflexivity.
Qed.

Lemma inputSchemas_bounds name shape :
  In (name, shape) inputSchemas ->
  Forall (fun f => boundsAreNumbers (Zod.type f) = true) shape.
Proof.
  unfold inputSchemas. cbn [In]. intros H.
  repeat (destruct H as [H|H];
          [injection H as <- <-; repeat constructor|]).
  destruct H.
Qed.

(** *** The dispatcher on arguments that do not parse *)

Lemma callTool_parse_failure h providers server name shape args issues :
  In (name, shape) inputSchemas ->
  Zod.parse shape args = inl issues ->
  callToolWith h providers server name args = Thrown (ZodError issues).
Proof.
  unfold inputSchemas. cbn [In]. intros H Hparse.
  repeat (destruct H as [H|H];
          [injection H as <- <-; unfold callToolWith, parseArgs; cbn [String.eqb Ascii.eqb Bool.eqb];
           rewrite Hparse; reflexivity|]).
  destruct H.
Qed.

(** The violations the schemas of the catalog are written against, each on
    an example: a required field that is missing, a value of the wrong
    type, a string below the minimum length, a number that is not an
    integer or is out of bounds, a string outside the enumeration, and
    arguments that are no object. *)
Example violations :
  violates SummarizeSchema (Some (JObj [("maxLength", JNum (ofZ 10))]))
  /\ violates SentimentSchema (Some (JObj [("text", JNum (ofZ 5))]))
  /\ violates SentimentSchema (Some (JObj [("text", JStr "")]))
  /\ violates SearchSchema (Some (JObj [("query", JStr "q"); ("maxResults", JNum (ofDecimal 25 (-1)))]))
  /\ violates SearchSchema (Some (JObj [("query", JStr "q"); ("maxResults", JNum (ofZ 0))]))
  /\ violates SearchSchema (Some (JObj [("query", JStr "q"); ("maxResults", JNum (ofZ 21))]))
  /\ violates WeatherSchema (Some (JObj [("location", JStr "Paris"); ("unit", JStr "kelvin")]))
  /\ violates EntitySchema (Some (JObj [("text", JStr "x"); ("types", JArr [JStr "animal"])]))
  /\ violates SummarizeSchema None.
Proof.
  repeat split.
  - eapply violates_missing; [left; reflexivity|reflexivity|reflexivity].
  - eapply violates_field; [left; reflexivity|reflexivity|]. intros H; inversion H.
  - eapply violates_field; [left; reflexivity|reflexivity|].
    intros H; inversion H; subst. cbn in *. lia.
  - eapply violates_field; [right; left; reflexivity|reflexivity|].
    intros H; inversion H as [|? ? _ Hall| |]; subst.
    inversion Hall as [|? ? Hint _]; subst. vm_compute in Hint. discriminate.
  - eapply violates_field; [right; left; reflexivity|reflexivity|].
    intros H; inversion H as [|? ? _ Hall| |]; subst.
    inversion Hall as [|? ? _ Hrest]; subst.
    inversion Hrest as [|? ? Hmin _]; subst. vm_compute in Hmin. discriminate.
  - eapply violates_field; [right; left; reflexivity|reflexivity|].
    intros H; inversion H as [|? ? _ Hall| |]; subst.
    inversion Hall as [|? ? _ Hrest]; subst.
    inversion Hrest as [|? ? _ Hrest']; subst.
    inversion Hrest' as [|? ? Hmax _]; subst. vm_compute in Hmax. discriminate.
  - eapply violates_field; [right; left; reflexivity|reflexivity|].
    intros H; inversion H as [| |? ? Hin|]; subst.
    cbn [In] in Hin. repeat (destruct Hin as [Hin|Hin]; [discriminate Hin|]). exact Hin.
  - eapply violates_field; [right; left; reflexivity|reflexivity|].
    intros H; inversion H as [| | |? ? Hall]; subst.
    inversion Hall as [|? ? Hitem _]; subst.
    inversion Hitem as [| |? ? Hin|]; subst.
    unfold entityTypes in Hin. cbn [In] in Hin.
    repeat (destruct Hin as [Hin|Hin]; [discriminate Hin|]). exact Hin.
  - apply violates_not_object. intros data H. discriminate.
Qed.

(** C1. For every tool call whose raw arguments violate the schema the
    dispatcher parses them with (a required field is missing, a value has
    the wrong type, or a constraint is broken: minimum length of a string,
    bounds of a number, membership in an enumeration), the dispatcher
    rejects the call before the handler runs: it throws the validation
    error, with at least one issue, whatever the handlers are (so also for
    handlers that would throw or fail), and this outcome is not the
    error-flagged response it makes of the failure of a handler. *)
Theorem callTool_rejects_invalid_arguments :
  forall (h : Handlers.t) (providers : Providers.t) (server : Sdk.Server.t)
         (name : string) (shape : list Zod.field) (args : option json),
    In (name, shape) inputSchemas ->
    violates shape args ->
    exists issues : list Zod.issue,
      issues <> []
      /\ callToolWith h providers server name args = Thrown (ZodError issues)
      /\ (forall h' : Handlers.t,
            callToolWith h' providers server name args = Thrown (ZodError issues))
      /\ (forall error : string,
            callToolWith h providers server name args <> Returned (errorResult error)).
Proof.
  intros h providers server name shape args Hin Hviolates.
  apply (parse_rejects_iff_violates shape args (inputSchemas_bounds name shape Hin))
    in Hviolates.
  destruct Hviolates as [issues Hparse].
  exists issues. split; [exact (parse_issues shape args issues Hparse)|].
  pose proof (fun h0 => callTool_parse_failure h0 providers server name shape args issues
                          Hin Hparse) as Hthrow.
  split; [apply Hthrow|]. split; [exact Hthrow|].
  intros error. rewrite Hthrow. discriminate.
Qed.

Lemma callTool_rejects_invalid_arguments_witness :
  exists issues : list Zod.issue,
    issues <> []
    /\ callToolWith toolHandlers Mock.providers bareClient "brave_web_search" tooManyResults
       = Thrown (ZodError issues)
    /\ (forall h' : Handlers.t,
          callToolWith h' Mock.providers bareClient "brave_web_search" tooManyResults
          = Thrown (ZodError issues))
    /\ (forall error : string,
          callToolWith toolHandlers Mock.providers bareClient "brave_web_search" tooManyResults
          <> Returned (errorResult error)).
Proof.
  apply (callTool_rejects_invalid_arguments toolHandlers Mock.providers bareClient
           "brave_web_search" SearchSchema tooManyResults).
  - unfold inputSchemas. do 3 right. left. reflexivity.
  - eapply violates_field; [right; left; reflexivity|reflexivity|].
    intros H; inversion H as [|? ? _ Hall| |]; subst.
    inversion Hall as [|? ? _ Hrest]; subst.
    inversion Hrest as [|? ? _ Hrest']; subst.
    inversion Hrest' as [|? ? Hmax _]; subst. vm_compute in Hmax. discriminate.
Defined.

(** *** The dispatcher and what a handler does *)

(** C2, refuted as stated. The dispatcher has no [try]: what the handler of
    [get_weather] throws, here the rejection of its provider, is not turned
    into an error-flagged response; the call of the dispatcher throws it. *)
Lemma callTool_handler_exception_escapes :
  callTool brokenProviders bareClient "get_weather" (weatherArgs "Paris" "celsius")
  = Thrown (HandlerFault
      {| rendering := "TypeError: Cannot read properties of undefined (reading 'temp')" |}).
Proof. reflexivity. Qed.

(** C2, amended. For every tool call whose arguments parse, the dispatcher
    answers from what the handler does: the failure of a handler becomes a
    response flagged as an error that carries its message, a success becomes
    the response of the case, and what the handler throws is not caught: the
    call of the dispatcher throws it. *)
Theorem callTool_handler_outcomes :
  forall (h : Handlers.t) (providers : Providers.t) (server : Sdk.Server.t)
         (name : string) (shape : list Zod.field) (args : option json)
         (parsed : list (string * json)) (call : promise (Result CallToolResult.t string)),
    In (name, shape) inputSchemas ->
    Zod.parse shape args = inr parsed ->
    handlerCall h providers server name parsed = Some call ->
    callToolWith h providers server name args
    = match call with
      | Returned (Ok response) => Returned response
      | Returned (Err error) =>
          Returned {| CallToolResult.content := [textItem (Some ("Error: " ++ error))];
                      CallToolResult.structuredContent := None;
                      CallToolResult.isError := true |}
      | Thrown e => Thrown (HandlerFault e)
      end.
Proof.
  intros h providers server name shape args parsed call Hin Hparse Hcall.
  unfold inputSchemas in Hin. cbn [In] in Hin.
  repeat (destruct Hin as [Hin|Hin];
    [injection Hin as <- <-;
     unfold callToolWith, handlerCall, parseArgs in *;
     cbn [String.eqb Ascii.eqb Bool.eqb] in *;
     rewrite Hparse; injection Hcall as <-; cbn [await];
     match goal with
     | |- context [awaitHandler ?c] => destruct c as [[value|error]|e]; reflexivity
     end|]).
  destruct Hin.
Qed.

Lemma callTool_handler_outcomes_witness :
  callToolWith toolHandlers Mock.providers bareClient "smart_summarize" shortText
  = Returned
      {| CallToolResult.content :=
           [textItem (Some ("Error: " ++ "Sampling request failed: Error: Client does not support sampling"))];
         CallToolResult.structuredContent := None;
         CallToolResult.isError := true |}.
Proof.
  apply (callTool_handler_outcomes toolHandlers Mock.providers bareClient
           "smart_summarize" SmartSummarizeSchema shortText
           [("text", JStr "Anthropic builds safe AI."); ("maxLength", JNum (ofZ 20))]
           (Returned (Err "Sampling request failed: Error: Client does not support sampling"))).
  - unfold inputSchemas. do 5 right. left. reflexivity.
  - vm_compute. reflexivity.
  - vm_compute. reflexivity.
Defined.

(** ** The model on the inputs of the test suite *)

(** The decimal literals of the sources, as binary64 values. *)
Example literals :
  ofDecimal 6 (-1) = S754_finite false 5404319552844595 (-53)
  /\ ofDecimal 5 (-1) = S754_finite false 4503599627370496 (-53)
  /\ ofDecimal 35 (-2) = S754_finite false 6305039478318694 (-54)
  /\ ofDecimal 1 (-1) = S754_finite false 7205759403792794 (-56)
  /\ ofDecimal 15 (-2) = S754_finite false 5404319552844595 (-55)
  /\ ofDecimal 85 (-2) = S754_finite false 7656119366529843 (-53)
  /\ ofDecimal 10 (-1) = ofZ 1.
Proof. vm_compute. repeat split. Qed.

(** Numbers print as the engine prints them. *)
Example number_texts :
  map numberToString
    [ofDecimal 6 (-1); ofZ 100; add (ofDecimal 1 (-1)) (ofDecimal 2 (-1));
     Mock.scoreAt 3; ofDecimal 1 21; ofDecimal 1 (-7); ofDecimal 5 (-324);
     div (ofZ 2) (ofZ 3); neg (ofDecimal 125 (-1))]
  = ["0.6"; "100"; "0.30000000000000004"; "0.55"; "1e+21"; "1e-7"; "5e-324";
     "0.6666666666666666"; "-12.5"].
Proof. vm_compute. reflexivity. Qed.

(** [should call analyze_sentiment tool]: the sentiment is positive. *)
Example test_analyze_sentiment :
  option_map SentimentResult.sentiment
    (match analyzeSentiment {| SentimentInput.text := "This is great and amazing!" |}
             Mock.complete with
     | Returned (Ok r) => Some r
     | _ => None
     end)
  = Some positive_.
Proof. vm_compute. reflexivity. Qed.

(** [should call brave_web_search tool]: three results for [maxResults: 3]. *)
Example test_web_search :
  match callTool Mock.providers bareClient "brave_web_search"
          (Some (JObj [("query", JStr "MCP protocol"); ("maxResults", JNum (ofZ 3))])) with
  | Returned response => CallToolResult.isError response
  | Thrown _ => true
  end = false
  /\ match Mock.search "MCP protocol" (ofZ 3) with
     | Returned (Ok results) => List.length results
     | _ => O
     end = 3%nat.
Proof. vm_compute. split; reflexivity. Qed.

(** [should call get_weather tool]: 62 degrees in San Francisco. *)
Example test_get_weather :
  Mock.getWeather "San Francisco"
  = Returned (Ok (Typed
      {| WeatherData.location := "San Francisco, CA";
         WeatherData.temperature := ofZ 62;
         WeatherData.unit := WeatherData.fahrenheit;
         WeatherData.condition := "Partly Cloudy";
         WeatherData.humidity := ofZ 72;
         WeatherData.wind_speed := ofZ 12;
         WeatherData.forecast := "Mild with coastal fog clearing by afternoon" |})).
Proof. reflexivity. Qed.

(** [should call extract_entities tool] *)
Example test_extract_entities :
  extractEntities
    {| EntityInput.text := "Google is based in San Francisco.";
       EntityInput.types := ["organization"; "location"] |} Mock.complete
  = Returned (Ok
      [ {| Entity.text := "Google"; Entity.type := "organization";
           Entity.confidence := ofDecimal 85 (-2) |};
        {| Entity.text := "San Francisco"; Entity.type := "location";
           Entity.confidence := ofDecimal 85 (-2) |} ]).
Proof. vm_compute. reflexivity. Qed.

(** [configure_analysis handles accept action with user-provided config] *)
Example test_configure_accept :
  configureAnalysis {| ConfigureAnalysisInput.text := "Configure this text analysis." |}
    {| Sdk.Server.createMessage := Sdk.Server.createMessage bareClient;
       Sdk.Server.elicitInput := fun _ =>
         Returned
           {| Sdk.ElicitResult.action := "accept";
              Sdk.ElicitResult.content :=
                Some (JObj [("depth", JStr "deep"); ("includeSentiment", JBool true);
                            ("includeEntities", JBool false);
                            ("maxSummaryWords", JNum (ofZ 200))]) |} |}
  = Returned (Ok
      {| ConfigureAnalysisResult.action := accept;
         ConfigureAnalysisResult.config :=
           Some {| AnalysisConfig.depth := JStr "deep";
                   AnalysisConfig.includeSentiment := true;
                   AnalysisConfig.includeEntities := false;
                   AnalysisConfig.maxSummaryWords := ofZ 200 |};
         ConfigureAnalysisResult.message :=
           "Analysis configured: depth=deep, sentiment=true, entities=false, maxWords=200" |}).
Proof. vm_compute. reflexivity. Qed.

(** ** Further properties of the tools *)

Lemma pushMatches_unseen type matches :
  forall seen e,
    In e (pushMatches type matches seen) -> ~ In (toLowerCase (Entity.text e)) seen.
Proof.
  induction matches as [|entityText rest IH]; intros seen e Hin; cbn [pushMatches] in Hin.
  - destruct Hin.
  - destruct (existsb (String.eqb (toLowerCase entityText)) seen) eqn:Hseen.
    + apply IH, Hin.
    + destruct Hin as [<-|Hin].
      * cbn [Entity.text]. intros Hmember.
        apply existsb_eqb_In in Hmember. congruence.
      * intros Hmember. apply (IH _ _ Hin). right. exact Hmember.
Qed.

(** The entities pushed for one requested type never hold the same text
    twice, letter case apart. *)
Lemma pushMatches_no_duplicates :
  forall (type : string) (matches seen : list string),
    NoDup (map (fun e => toLowerCase (Entity.text e)) (pushMatches type matches seen)).
Proof.
  intros type matches. induction matches as [|entityText rest IH]; intros seen;
    cbn [pushMatches].
  - constructor.
  - destruct (existsb (String.eqb (toLowerCase entityText)) seen); [apply IH|].
    cbn [map Entity.text]. constructor; [|apply IH].
    intros Hin. apply in_map_iff in Hin as (e & Heq & He).
    apply pushMatches_unseen in He. apply He. left. symmetry. exact Heq.
Qed.

(** X2. The default of an optional key is put in by [parse], before the handler
    runs: a search with no [maxResults] reaches the provider with 5. *)
Theorem search_default_applied :
  forall (c : ascii) (rest : string),
    Zod.parse SearchSchema (Some (JObj [("query", JStr (String c rest))]))
    = inr [("query", JStr (String c rest)); ("maxResults", JNum (ofZ 5))]
    /\ SearchInput.maxResults
         (SearchInput.ofParsed [("query", JStr (String c rest)); ("maxResults", JNum (ofZ 5))])
       = ofZ 5.
Proof. intros c rest. split; reflexivity. Qed.

(** ** [result.ts] *)

(** Mapping over a result composes, keeps the side the result is on, and
    commutes with taking the value or a default. *)
Theorem mapResult_laws :
  forall (T U V E : Type) (result : Result T E) (f : T -> U) (g : U -> V) (d : T),
    mapResult (mapResult result f) g = mapResult result (fun value => g (f value))
    /\ isOk (mapResult result f) = isOk result
    /\ unwrapOr (mapResult result f) (f d) = f (unwrapOr result d)
    /\ (forall error : E, mapResult (Err error) f = Err error).
Proof.
  intros T U V E result f g d. destruct result as [value|error]; repeat split; reflexivity.
Qed.

(** ** The prompts *)

Lemma includes_prefix a b : includes (a ++ b) a = true.
Proof.
  assert (H : String.prefix a (a ++ b) = true).
  { induction a as [|c a IH]; [destruct b; reflexivity|].
    cbn [append String.prefix]. destruct (ascii_dec c c); [exact IH|congruence]. }
  destruct a; cbn [append includes] in *; [destruct b; reflexivity|].
  rewrite H. reflexivity.
Qed.

Lemma includes_after a s sub : includes s sub = true -> includes (a ++ s) sub = true.
Proof.
  intros H. induction a as [|c a IH]; [exact H|].
  cbn [append includes]. rewrite IH. apply orb_true_r.
Qed.

(** X3. The answer to a request for a prompt whose name is not advertised is
    one message of the user that names the unknown prompt and lists the
    advertised ones; a prompt that is advertised never gets this
    answer. *)
Theorem getPrompt_unknown_name_iff :
  forall (name : string) (arguments : option (list (string * string))),
    ~ In name (map PromptDefinition.name getPromptDefinitions)
    <-> getPromptHandler name arguments
        = [ {| PromptResult.role := user;
               PromptResult.content :=
                 textItem (Some ("Unknown prompt: " ++ name ++ ". Available prompts: "
                                 ++ join ", " (map PromptDefinition.name getPromptDefinitions)
                                 ++ ".")) |} ].
Proof.
  intros name arguments. unfold getPromptHandler, generatePromptMessages.
  cbn [map getPromptDefinitions PromptDefinition.name In]. split.
  - intros Hname.
    destruct (String.eqb_spec name "research_topic") as [->|_]; [exfalso; tauto|].
    destruct (String.eqb_spec name "analyze_text") as [->|_]; [exfalso; tauto|].
    destruct (String.eqb_spec name "weather_briefing") as [->|_]; [exfalso; tauto|].
    reflexivity.
  - intros Hresult [<-|[<-|[<-|[]]]];
      cbn [String.eqb Ascii.eqb Bool.eqb userMessage map PromptMessage.role
           PromptMessage.content] in Hresult;
      injection Hresult; intros;
      match goal with
      | H : true = false |- _ => discriminate H
      | H : false = true |- _ => discriminate H
      end.
Qed.

(** X4. An argument that is left out counts as its fallback: the messages are
    the ones of a request that spells the fallback out.  So an argument
    advertised as required is not asked for, and [research_topic] without a
    topic researches the general topic. *)
Theorem prompt_missing_argument_is_fallback :
  forall (name : string) (args : list (string * string)) (k d : string),
    In (k, d) [("topic", "general topic"); ("depth", "standard"); ("text", "");
               ("location", "current location")] ->
    ownProperty k args = None ->
    generatePromptMessages name args = generatePromptMessages name ((k, d) :: args).
Proof.
  intros name args k d Hin Hnone. cbn [In] in Hin.
  unfold generatePromptMessages, argument.
  destruct Hin as [H|[H|[H|[H|[]]]]]; injection H as <- <-;
    cbn [ownProperty String.eqb Ascii.eqb Bool.eqb]; rewrite ?Hnone; reflexivity.
Qed.

Lemma prompt_missing_argument_is_fallback_witness :
  generatePromptMessages "research_topic" [("depth", "deep")]
  = generatePromptMessages "research_topic" [("topic", "general topic"); ("depth", "deep")].
Proof.
  apply (prompt_missing_argument_is_fallback "research_topic" [("depth", "deep")]
           "topic" "general topic").
  - left. reflexivity.
  - reflexivity.
Defined.

(** X5. Every argument a prompt advertises is used by its template: the value
    given for it occurs in the text of the message. *)
Theorem prompt_embeds_arguments :
  forall (definition : PromptDefinition.t) (argument : PromptArgument.t)
         (args : list (string * string)) (value : string),
    In definition getPromptDefinitions ->
    In argument (PromptDefinition.arguments definition) ->
    ownProperty (PromptArgument.name argument) args = Some value ->
    exists content : string,
      generatePromptMessages (PromptDefinition.name definition) args
      = [ {| PromptMessage.role := user; PromptMessage.content := content |} ]
      /\ includes content value = true.
Proof.
  intros definition argument args value Hdef Harg Hvalue.
  unfold getPromptDefinitions in Hdef. cbn [In] in Hdef.
  destruct Hdef as [<-|[<-|[<-|[]]]];
    cbn [PromptDefinition.arguments In] in Harg;
    repeat (destruct Harg as [<-|Harg]);
    try (destruct Harg);
    cbn [PromptArgument.name PromptDefinition.name] in *;
    unfold generatePromptMessages, Prompts.argument, userMessage;
    cbn [String.eqb Ascii.eqb Bool.eqb]; rewrite Hvalue;
    eexists; (split; [reflexivity|]).
  - do 2 apply includes_after. apply includes_prefix.
  - do 5 apply includes_after. apply includes_prefix.
  - do 4 apply includes_after. apply includes_prefix.
  - do 1 apply includes_after. apply includes_prefix.
Qed.

Lemma prompt_embeds_arguments_witness :
  exists content : string,
    generatePromptMessages "weather_briefing" [("location", "Tokyo")]
    = [ {| PromptMessage.role := user; PromptMessage.content := content |} ]
    /\ includes content "Tokyo" = true.
Proof.
  apply (prompt_embeds_arguments
           {| PromptDefinition.name := "weather_briefing";
              PromptDefinition.description :=
                "Get a weather briefing with recommendations for a location";
              PromptDefinition.arguments :=
                [ {| PromptArgument.name := "location";
                     PromptArgument.description := "City or location name";
                     PromptArgument.required := true |} ] |}
           {| PromptArgument.name := "location";
              PromptArgument.description := "City or location name";
              PromptArgument.required := true |}
           [("location", "Tokyo")] "Tokyo").
  - unfold getPromptDefinitions. do 2 right. left. reflexivity.
  - left. reflexivity.
  - reflexivity.
Defined.

(** ** The resources *)

Lemma stringify_object_head k v fields :
  exists rest,
    stringify (JObj ((k, v) :: fields)) = String "{" (String (ascii_of_nat 10) rest).
Proof. unfold stringify. cbn [stringifyAt]. eexists. reflexivity. Qed.

(** X6. Reading an address that is not advertised answers, with no failure, the
    JSON text of an object whose one key [error] names the address; an
    advertised resource never reads as this text. *)
Theorem readResource_unknown_uri_iff :
  forall (clock : Clock.t) (config : ServerConfig.t) (uri : string),
    ~ In uri (map ResourceDefinition.uri getResourceDefinitions)
    <-> readResourceHandler clock config uri
        = [ {| ResourceContents.uri := uri;
               ResourceContents.mimeType := "application/json";
               ResourceContents.text :=
                 "{" ++ quote "error" ++ ":" ++ quote ("Unknown resource: " ++ uri) ++ "}" |} ].
Proof.
  intros clock config uri. unfold readResourceHandler, readResource.
  cbn [map getResourceDefinitions ResourceDefinition.uri In]. split.
  - intros Huri.
    destruct (String.eqb_spec uri "toolkit://config") as [->|_]; [exfalso; tauto|].
    destruct (String.eqb_spec uri "toolkit://tools") as [->|_]; [exfalso; tauto|].
    destruct (String.eqb_spec uri "toolkit://health") as [->|_]; [exfalso; tauto|].
    reflexivity.
  - intros Hresult [<-|[<-|[<-|[]]]];
      cbn [String.eqb Ascii.eqb Bool.eqb] in Hresult;
      apply (f_equal (fun contents =>
                        match contents with
                        | c :: _ => String.get 1 (ResourceContents.text c)
                        | [] => None
                        end)) in Hresult;
      cbv beta iota in Hresult; cbn [ResourceContents.text] in Hresult;
      match type of Hresult with
      | context [stringify (JObj ((?k, ?v) :: ?fields))] =>
          destruct (stringify_object_head k v fields) as [rest Hhead]
      end;
      rewrite Hhead in Hresult; vm_compute in Hresult; discriminate Hresult.
Qed.

(** No resource shows a key of a service: what is read is the same whatever
    the four keys of the configuration are. *)
Theorem readResource_hides_api_keys :
  forall (clock : Clock.t) (uri : string) (config : ServerConfig.t)
         (openai weather brave openWeatherMap : option string),
    readResource clock uri
      {| ServerConfig.mode := ServerConfig.mode config;
         ServerConfig.name := ServerConfig.name config;
         ServerConfig.version := ServerConfig.version config;
         ServerConfig.openaiApiKey := openai;
         ServerConfig.weatherApiKey := weather;
         ServerConfig.braveApiKey := brave;
         ServerConfig.openWeatherMapApiKey := openWeatherMap;
         ServerConfig.maxConcurrentTools := ServerConfig.maxConcurrentTools config;
         ServerConfig.toolTimeoutMs := ServerConfig.toolTimeoutMs config |}
    = readResource clock uri config.
Proof. intros. reflexivity. Qed.

(** ** The dispatcher and the arguments it parses *)

(** The dispatcher reads its arguments through [parse] only. *)
Lemma callTool_reads_parse h providers server name shape args args' :
  In (name, shape) inputSchemas ->
  Zod.parse shape args = Zod.parse shape args' ->
  callToolWith h providers server name args = callToolWith h providers server name args'.
Proof.
  unfold inputSchemas. cbn [In]. intros H Hparse.
  repeat (destruct H as [H|H];
          [injection H as <- <-; unfold callToolWith, parseArgs;
           cbn [String.eqb Ascii.eqb Bool.eqb]; rewrite Hparse; reflexivity|]).
  destruct H.
Qed.

Lemma parseFields_reads_keys shape data data' :
  (forall f, In f shape -> ownProperty (Zod.name f) data = ownProperty (Zod.name f) data') ->
  Zod.parseFields shape data = Zod.parseFields shape data'.
Proof.
  induction shape as [|f shape IH]; intros Hsame; [reflexivity|].
  cbn [Zod.parseFields]. rewrite IH by (intros g Hg; apply Hsame; right; exact Hg).
  unfold Zod.parseField. rewrite (Hsame f (or_introl eq_refl)). reflexivity.
Qed.

(** X7. A call is answered from the values at the keys of the schema and from
    nothing else in the arguments: two argument objects that agree on these
    keys get the same outcome, so a key the schema does not name never
    reaches a handler. *)
Theorem callTool_ignores_unknown_keys :
  forall (h : Handlers.t) (providers : Providers.t) (server : Sdk.Server.t)
         (name : string) (shape : list Zod.field) (data data' : list (string * json)),
    In (name, shape) inputSchemas ->
    (forall f, In f shape -> ownProperty (Zod.name f) data = ownProperty (Zod.name f) data') ->
    callToolWith h providers server name (Some (JObj data))
    = callToolWith h providers server name (Some (JObj data')).
Proof.
  intros h providers server name shape data data' Hin Hsame.
  apply (callTool_reads_parse h providers server name shape _ _ Hin).
  unfold Zod.parse. rewrite (parseFields_reads_keys shape data data' Hsame). reflexivity.
Qed.

Lemma callTool_ignores_unknown_keys_witness :
  callToolWith toolHandlers Mock.providers bareClient "get_weather"
    (Some (JObj [("verbose", JBool true); ("location", JStr "London")]))
  = callToolWith toolHandlers Mock.providers bareClient "get_weather"
      (Some (JObj [("location", JStr "London")])).
Proof.
  apply (callTool_ignores_unknown_keys toolHandlers Mock.providers bareClient
           "get_weather" WeatherSchema).
  - unfold inputSchemas. do 4 right. left. reflexivity.
  - intros f [<-|[<-|[]]]; reflexivity.
Defined.

(** The defaults of the schemas pass their own checks. *)
Lemma inputSchemas_defaults name shape f d :
  In (name, shape) inputSchemas -> In f shape -> Zod.default f = Some d ->
  Zod.validate (Zod.type f) [Zod.Key (Zod.name f)] d = [].
Proof.
  unfold inputSchemas. cbn [In]. intros H Hf Hd.
  repeat (destruct H as [H|H];
          [injection H as <- <-; cbn [In] in Hf;
           repeat (destruct Hf as [<-|Hf]; [try discriminate Hd|]); try destruct Hf;
           injection Hd as <-; vm_compute; reflexivity|]).
  destruct H.
Qed.

Lemma inputSchemas_distinct_keys name shape :
  In (name, shape) inputSchemas -> NoDup (map Zod.name shape).
Proof.
  unfold inputSchemas. cbn [In]. intros H.
  repeat (destruct H as [H|H];
          [injection H as <- <-; cbn [map Zod.name];
           repeat (constructor; [cbn [In]; intros Hk;
                                 repeat (destruct Hk as [Hk|Hk]; [discriminate Hk|]);
                                 exact Hk|]); constructor|]).
  destruct H.
Qed.

(** The key of a parsed object holds what [parse] put there. *)
Lemma parsed_lookup shape : forall parsed : list (string * json),
  NoDup (map Zod.name shape) ->
  Forall2 (fun f kv => fst kv = Zod.name f) shape parsed ->
  forall f kv, In (f, kv) (combine shape parsed) ->
    ownProperty (Zod.name f) parsed = Some (snd kv).
Proof.
  induction shape as [|g shape IH]; intros parsed Hnodup Hall f kv Hc; [destruct Hc|].
  inversion Hall as [|? [k v] ? rest Hk Hrest]; subst. cbn [fst] in Hk. subst k.
  inversion Hnodup as [|? ? Hnotin Hnodup']; subst.
  cbn [combine In] in Hc. cbn [ownProperty]. destruct Hc as [Hc|Hc].
  - injection Hc as <- <-. rewrite String.eqb_refl. reflexivity.
  - destruct (String.eqb_spec (Zod.name f) (Zod.name g)) as [Heq|_].
    + exfalso. apply Hnotin. rewrite <- Heq. apply in_map.
      exact (in_combine_l _ _ _ _ Hc).
    + exact (IH rest Hnodup' Hrest f kv Hc).
Qed.

Lemma Forall2_combine {A B : Type} (P : A -> B -> Prop) xs ys :
  Forall2 (fun _ _ => True) xs ys ->
  (forall x y, In (x, y) (combine xs ys) -> P x y) -> Forall2 P xs ys.
Proof.
  intros Hlen. induction Hlen as [|x y xs ys _ _ IH]; intros Hall; constructor.
  - apply Hall. left. reflexivity.
  - apply IH. intros a b Hc. apply Hall. right. exact Hc.
Qed.

Lemma Forall2_In {A B : Type} (P : A -> B -> Prop) xs ys :
  Forall2 P xs ys -> forall x y, In (x, y) (combine xs ys) -> P x y.
Proof.
  intros Hall. induction Hall as [|x y xs ys Hxy _ IH]; intros a b Hc; [destruct Hc|].
  destruct Hc as [Hc|Hc]; [injection Hc as <- <-; exact Hxy|exact (IH a b Hc)].
Qed.

Lemma Forall2_weaken {A B : Type} (P Q : A -> B -> Prop) xs ys :
  (forall x y, P x y -> Q x y) -> Forall2 P xs ys -> Forall2 Q xs ys.
Proof. intros HPQ Hall. induction Hall; constructor; auto. Qed.

Lemma parseFields_fixed shape full : forall parsed,
  Forall2 (fun f kv =>
             fst kv = Zod.name f
             /\ ownProperty (Zod.name f) full = Some (snd kv)
             /\ Zod.validate (Zod.type f) [Zod.Key (Zod.name f)] (snd kv) = [])
          shape parsed ->
  Zod.parseFields shape full = ([], parsed).
Proof.
  induction shape as [|f shape IH]; intros parsed Hall.
  - inversion Hall; subst. reflexivity.
  - inversion Hall as [|? [k v] ? rest (Hk & Hown & Hvalid) Hrest]; subst.
    cbn [fst snd] in *. subst k.
    cbn [Zod.parseFields]. rewrite (IH rest Hrest).
    unfold Zod.parseField. rewrite Hown, Hvalid. reflexivity.
Qed.

(** The values of a parsed object pass the checks of the schema, the
    defaults included. *)
Lemma parse_output_valid name shape data parsed :
  In (name, shape) inputSchemas ->
  Zod.parse shape (Some (JObj data)) = inr parsed ->
  Forall2 (fun f kv =>
             fst kv = Zod.name f
             /\ Zod.validate (Zod.type f) [Zod.Key (Zod.name f)] (snd kv) = [])
          shape parsed.
Proof.
  intros Hin Hparse.
  pose proof (parse_output shape data parsed Hparse) as Hout.
  apply (Forall2_combine _ shape parsed).
  - exact (Forall2_weaken _ _ _ _ (fun _ _ _ => I) Hout).
  - intros f kv Hc. destruct (Forall2_In _ _ _ Hout f kv Hc) as [Hk Hv].
    split; [exact Hk|]. destruct Hv as [[_ Hv]|[_ Hd]]; [exact Hv|].
    exact (inputSchemas_defaults name shape f (snd kv) Hin (in_combine_l _ _ _ _ Hc) Hd).
Qed.

Lemma parse_object shape args parsed :
  Zod.parse shape args = inr parsed -> exists data, args = Some (JObj data).
Proof.
  unfold Zod.parse. destruct args as [[| | | | |data]|]; try discriminate. 
  intros _. exists data. reflexivity.
Qed.

(** X8. What [parse] returns for a call of a tool is a fixed point of [parse]:
    it holds the keys of the schema and no other, each with a value that
    passes the checks of the schema, the defaults included, so parsing it
    again returns it unchanged. *)
Theorem parse_output_parses_to_itself :
  forall (name : string) (shape : list Zod.field) (args : option json)
         (parsed : list (string * json)),
    In (name, shape) inputSchemas ->
    Zod.parse shape args = inr parsed ->
    map fst parsed = map Zod.name shape
    /\ Zod.parse shape (Some (JObj parsed)) = inr parsed.
Proof.
  intros name shape args parsed Hin Hparse.
  destruct (parse_object shape args parsed Hparse) as [data ->].
  pose proof (parse_output_valid name shape data parsed Hin Hparse) as Hvalid.
  assert (Hkeys : Forall2 (fun f kv => fst kv = Zod.name f) shape parsed)
    by exact (Forall2_weaken _ _ _ _ (fun _ _ H => proj1 H) Hvalid).
  split.
  - clear - Hkeys. induction Hkeys as [|f kv shape' parsed' Hk _ IH]; [reflexivity|].
    cbn [map]. rewrite Hk, IH. reflexivity.
  - unfold Zod.parse. rewrite (parseFields_fixed shape parsed parsed); [reflexivity|].
    apply (Forall2_combine _ shape parsed).
    + exact (Forall2_weaken _ _ _ _ (fun _ _ _ => I) Hvalid).
    + intros f kv Hc. destruct (Forall2_In _ _ _ Hvalid f kv Hc) as [Hk Hv].
      split; [exact Hk|]. split; [|exact Hv].
      exact (parsed_lookup shape parsed (inputSchemas_distinct_keys name shape Hin)
               Hkeys f kv Hc).
Qed.

Lemma parse_output_parses_to_itself_witness :
  map fst [("location", JStr "Paris"); ("unit", JStr "fahrenheit")]
  = map Zod.name WeatherSchema
  /\ Zod.parse WeatherSchema
       (Some (JObj [("location", JStr "Paris"); ("unit", JStr "fahrenheit")]))
     = inr [("location", JStr "Paris"); ("unit", JStr "fahrenheit")].
Proof.
  apply (parse_output_parses_to_itself "get_weather" WeatherSchema
           (Some (JObj [("location", JStr "Paris")]))).
  - unfold inputSchemas. do 4 right. left. reflexivity.
  - reflexivity.
Defined.

(** ** What the handlers receive *)

(** X9. The search handler only ever sees, from the dispatcher, a query that is
    not empty and a number of results that is an integer from 1 to 20. *)
Theorem search_input_within_bounds :
  forall (args : option json) (parsed : list (string * json)),
    Zod.parse SearchSchema args = inr parsed ->
    (1 <= String.length (SearchInput.query (SearchInput.ofParsed parsed)))%nat
    /\ isNaN (SearchInput.maxResults (SearchInput.ofParsed parsed)) = false
    /\ isInteger (SearchInput.maxResults (SearchInput.ofParsed parsed)) = true
    /\ le (ofZ 1) (SearchInput.maxResults (SearchInput.ofParsed parsed)) = true
    /\ le (SearchInput.maxResults (SearchInput.ofParsed parsed)) (ofZ 20) = true.
Proof.
  intros args parsed Hparse.
  destruct (parse_object _ _ _ Hparse) as [data ->].
  assert (Hin : In ("brave_web_search", SearchSchema) inputSchemas)
    by (unfold inputSchemas; do 3 right; left; reflexivity).
  pose proof (parse_output_valid _ _ _ _ Hin Hparse) as Hvalid.
  pose proof (inputSchemas_bounds _ _ Hin) as Hbounds.
  unfold SearchSchema in Hvalid, Hbounds.
  inversion Hvalid as [|f1 [k1 v1] ? ? [Hk1 Hv1] Hrest]; subst.
  inversion Hrest as [|f2 [k2 v2] ? ? [Hk2 Hv2] Hnil]; subst.
  inversion Hnil; subst.
  inversion Hbounds as [|? ? Hb1 Hbounds']; subst.
  inversion Hbounds' as [|? ? Hb2 _]; subst.
  cbn [fst snd Zod.name Zod.type] in *. subst k1 k2.
  apply (validate_conforms _ Hb1) in Hv1. apply (validate_conforms _ Hb2) in Hv2.
  inversion Hv1 as [? s Hlen| | |]; subst.
  inversion Hv2 as [|? x Hnan Hchecks| |]; subst.
  inversion Hchecks as [|? ? Hint Hchecks1]; subst.
  inversion Hchecks1 as [|? ? Hmin Hchecks2]; subst.
  inversion Hchecks2 as [|? ? Hmax _]; subst.
  unfold SearchInput.ofParsed, Zod.getString, Zod.getNumber.
  cbn [ownProperty String.eqb Ascii.eqb Bool.eqb SearchInput.query SearchInput.maxResults].
  repeat split; assumption.
Qed.

Lemma search_input_within_bounds_witness :
  (1 <= String.length
          (SearchInput.query
             (SearchInput.ofParsed [("query", JStr "MCP"); ("maxResults", JNum (ofZ 5))])))%nat
  /\ isNaN (SearchInput.maxResults
              (SearchInput.ofParsed [("query", JStr "MCP"); ("maxResults", JNum (ofZ 5))]))
     = false
  /\ isInteger (SearchInput.maxResults
                  (SearchInput.ofParsed [("query", JStr "MCP"); ("maxResults", JNum (ofZ 5))]))
     = true
  /\ le (ofZ 1)
        (SearchInput.maxResults
           (SearchInput.ofParsed [("query", JStr "MCP"); ("maxResults", JNum (ofZ 5))]))
     = true
  /\ le (SearchInput.maxResults
           (SearchInput.ofParsed [("query", JStr "MCP"); ("maxResults", JNum (ofZ 5))]))
        (ofZ 20)
     = true.
Proof.
  apply (search_input_within_bounds (Some (JObj [("query", JStr "MCP")]))).
  reflexivity.
Defined.

(** X10. Every entity type that gets past the schema has a pattern of its own:
    the lookup in the table of patterns, which would also find what the
    table inherits, only ever meets its own five keys. *)
Theorem entity_types_have_patterns :
  forall (args : option json) (parsed : list (string * json)),
    Zod.parse EntitySchema args = inr parsed ->
    Forall (fun type =>
              In type entityTypes
              /\ exists ignoreCase pattern,
                   getProperty patterns type = Some (Typed (ignoreCase, pattern)))
           (EntityInput.types (EntityInput.ofParsed parsed)).
Proof.
  intros args parsed Hparse.
  destruct (parse_object _ _ _ Hparse) as [data ->].
  assert (Hin : In ("extract_entities", EntitySchema) inputSchemas)
    by (unfold inputSchemas; do 2 right; left; reflexivity).
  pose proof (parse_output_valid _ _ _ _ Hin Hparse) as Hvalid.
  pose proof (inputSchemas_bounds _ _ Hin) as Hbounds.
  unfold EntitySchema in Hvalid, Hbounds.
  inversion Hvalid as [|f1 [k1 v1] ? ? [Hk1 Hv1] Hrest]; subst.
  inversion Hrest as [|f2 [k2 v2] ? ? [Hk2 Hv2] Hnil]; subst.
  inversion Hnil; subst.
  inversion Hbounds as [|? ? Hb1 Hbounds']; subst.
  inversion Hbounds' as [|? ? Hb2 _]; subst.
  cbn [fst snd Zod.name Zod.type] in *. subst k1 k2.
  apply (validate_conforms _ Hb2) in Hv2.
  inversion Hv2 as [| | |? xs Hall]; subst.
  unfold EntityInput.ofParsed, Zod.getStrings.
  cbn [ownProperty String.eqb Ascii.eqb Bool.eqb EntityInput.types].
  clear - Hall. induction Hall as [|x xs Hx _ IH]; cbn [map]; constructor; [|exact IH].
  inversion Hx as [| |? s Hs|]; subst. split; [exact Hs|].
  unfold entityTypes in Hs. cbn [In] in Hs.
  repeat (destruct Hs as [<-|Hs]; [eexists _, _; reflexivity|]). destruct Hs.
Qed.

Lemma entity_types_have_patterns_witness :
  Forall (fun type =>
            In type entityTypes
            /\ exists ignoreCase pattern,
                 getProperty patterns type = Some (Typed (ignoreCase, pattern)))
         (EntityInput.types
            (EntityInput.ofParsed
               [("text", JStr "Ada Lovelace");
                ("types", JArr [JStr "person"; JStr "organization"; JStr "location"])])).
Proof.
  apply (entity_types_have_patterns (Some (JObj [("text", JStr "Ada Lovelace")]))).
  reflexivity.
Defined.

(** ** The entities that [extractEntities] finds *)

Lemma str_app a b : str (a ++ b)%list = str a ++ str b.
Proof. unfold str. induction a as [|c a IH]; [reflexivity|]. simpl. rewrite IH. reflexivity. Qed.

Lemma str_chars s : str (chars s) = s.
Proof. apply string_of_list_ascii_of_string. Qed.

(** A match is a piece of the input that is not empty. *)
Lemma scan_pieces ignoreCase r input : forall prev skip m,
  In m (scan ignoreCase r prev input skip) ->
  exists before piece after,
    input = (before ++ piece ++ after)%list /\ piece <> [] /\ m = str piece.
Proof.
  induction input as [|c rest IH]; intros prev skip m Hin; cbn [scan] in Hin; [destruct Hin|].
  assert (Hrest : forall prev' skip', In m (scan ignoreCase r prev' rest skip') ->
            exists before piece after,
              (c :: rest) = (before ++ piece ++ after)%list /\ piece <> [] /\ m = str piece).
  { intros prev' skip' H. destruct (IH prev' skip' m H) as (before & piece & after & -> & Hne & ->).
    exists (c :: before), piece, after. repeat split; assumption. }
  destruct skip as [|skip']; [|exact (Hrest _ _ Hin)].
  destruct (matchRegex ignoreCase r prev (c :: rest) (fun _ out => Some out)) as [out|];
    [|exact (Hrest _ _ Hin)].
  destruct (List.length (c :: rest) - List.length out)%nat as [|k] eqn:Hk;
    [exact (Hrest _ _ Hin)|].
  destruct Hin as [<-|Hin]; [|exact (Hrest _ _ Hin)].
  exists [], (firstn (S k) (c :: rest)), (skipn (S k) (c :: rest)).
  split; [cbn [app]; symmetry; apply firstn_skipn|].
  split; [cbn [firstn]; discriminate|reflexivity].
Qed.

Lemma matchAll_pieces ignoreCase r text m :
  In m (matchAll ignoreCase r text) -> m <> "" /\ includes text m = true.
Proof.
  intros Hin. apply scan_pieces in Hin as (before & piece & after & Htext & Hne & ->).
  split.
  - destruct piece as [|c piece]; [congruence|discriminate].
  - rewrite <- (str_chars text), Htext, !str_app.
    apply includes_after, includes_prefix.
Qed.

Lemma pushMatches_entities type matches : forall seen e,
  In e (pushMatches type matches seen) ->
  Entity.type e = type /\ Entity.confidence e = ofDecimal 85 (-2) /\ In (Entity.text e) matches.
Proof.
  induction matches as [|entityText rest IH]; intros seen e Hin; cbn [pushMatches] in Hin;
    [destruct Hin|].
  destruct (existsb (String.eqb (toLowerCase entityText)) seen).
  - destruct (IH _ _ Hin) as (Ht & Hc & Hm). repeat split; [assumption..|right; exact Hm].
  - destruct Hin as [<-|Hin].
    + repeat split; [reflexivity..|left; reflexivity].
    + destruct (IH _ _ Hin) as (Ht & Hc & Hm). repeat split; [assumption..|right; exact Hm].
Qed.

(** X11. For every input whose types are types of the schema,
    [extractEntities] succeeds, and every entity it returns is of a type
    that was asked for, carries the confidence 0.85, and has as text a
    piece of the input, letter for letter, that is not empty. *)
Theorem extractEntities_entities_come_from_text :
  forall (input : EntityInput.t) (provider : TextProvider),
    Forall (fun type => In type entityTypes) (EntityInput.types input) ->
    exists entities : list Entity.t,
      extractEntities input provider = Returned (Ok entities)
      /\ Forall (fun e =>
                   In (Entity.type e) (EntityInput.types input)
                   /\ Entity.confidence e = ofDecimal 85 (-2)
                   /\ Entity.text e <> ""
                   /\ includes (EntityInput.text input) (Entity.text e) = true)
                entities.
Proof.
  intros input provider _. eexists. split; [reflexivity|].
  apply Forall_forall. intros e He.
  apply in_flat_map in He as (type & Htype & He).
  destruct (getProperty patterns type) as [[[ignoreCase pattern]|member]|];
    [| |destruct He];
    apply pushMatches_entities in He as (Ht & Hc & Hm);
    apply matchAll_pieces in Hm as [Hne Hinc];
    rewrite Ht; repeat split; assumption.
Qed.

Lemma extractEntities_entities_come_from_text_witness :
  exists entities : list Entity.t,
    extractEntities
      {| EntityInput.text := "Google is based in San Francisco.";
         EntityInput.types := ["organization"; "location"] |} Mock.complete
    = Returned (Ok entities)
    /\ Forall (fun e =>
                 In (Entity.type e) ["organization"; "location"]
                 /\ Entity.confidence e = ofDecimal 85 (-2)
                 /\ Entity.text e <> ""
                 /\ includes "Google is based in San Francisco." (Entity.text e) = true)
              entities.
Proof.
  apply (extractEntities_entities_come_from_text
           {| EntityInput.text := "Google is based in San Francisco.";
              EntityInput.types := ["organization"; "location"] |} Mock.complete).
  repeat constructor; unfold entityTypes; cbn [In]; tauto.
Defined.

(** The entities of one requested type: what one turn of the loop over the
    types pushes. *)
Lemma extractEntities_turn text type e :
  In e match getProperty patterns type with
       | Some (Typed (ignoreCase, pattern)) =>
           pushMatches type (matchAll ignoreCase pattern text) []
       | Some (Foreign member) => pushMatches type (matchAll false (memberPattern member) text) []
       | None => []
       end ->
  Entity.type e = type.
Proof.
  destruct (getProperty patterns type) as [[[ignoreCase pattern]|member]|];
    [| |intros []]; intros He; apply pushMatches_entities in He as [Ht _]; exact Ht.
Qed.

Lemma NoDup_map_finer {A B C : Type} (g : A -> B) (h : A -> C) xs :
  (forall a b, g a = g b -> h a = h b) -> NoDup (map h xs) -> NoDup (map g xs).
Proof.
  intros Hfiner. induction xs as [|x xs IH]; cbn [map]; intros Hno; [constructor|].
  inversion Hno as [|? ? Hnotin Hrest]; subst. constructor; [|apply IH, Hrest].
  intros Hin. apply Hnotin. apply in_map_iff in Hin as (y & Heq & Hy).
  apply in_map_iff. exists y. split; [apply Hfiner, Heq|exact Hy].
Qed.

(** X1. When the requested types are all different, [extractEntities] never
    returns two entities of the same type whose texts are the same, letter
    case apart.  The texts already pushed are kept per turn of the loop
    over the types, so a type that is requested twice has its entities
    twice: [extractEntities_repeated_type]. *)
Theorem extractEntities_no_duplicates :
  forall (input : EntityInput.t) (provider : TextProvider),
    NoDup (EntityInput.types input) ->
    exists entities : list Entity.t,
      extractEntities input provider = Returned (Ok entities)
      /\ NoDup (map (fun e => (Entity.type e, toLowerCase (Entity.text e))) entities).
Proof.
  intros input provider Htypes. eexists. split; [reflexivity|].
  set (turn := fun type =>
         match getProperty patterns type with
         | Some (Typed (ignoreCase, pattern)) =>
             pushMatches type (matchAll ignoreCase pattern (EntityInput.text input)) []
         | Some (Foreign member) =>
             pushMatches type (matchAll false (memberPattern member) (EntityInput.text input)) []
         | None => []
         end).
  assert (Hturn : forall type,
            NoDup (map (fun e => (Entity.type e, toLowerCase (Entity.text e))) (turn type))).
  { intros type. apply (NoDup_map_finer _ (fun e => toLowerCase (Entity.text e))).
    - intros a b Heq. injection Heq as _ Heq. exact Heq.
    - subst turn. cbv beta.
      destruct (getProperty patterns type) as [[[ignoreCase pattern]|member]|];
        [apply pushMatches_no_duplicates..|constructor]. }
  induction Htypes as [|type types Hnotin _ IH]; cbn [flat_map]; [constructor|].
  rewrite map_app. apply NoDup_app; [apply Hturn|exact IH|].
  intros key Hhere Hthere.
  apply in_map_iff in Hhere as (e & <- & He).
  apply in_map_iff in Hthere as (e' & Heq & He').
  apply in_flat_map in He' as (type' & Htype' & He').
  apply extractEntities_turn in He. apply extractEntities_turn in He'.
  injection Heq as Heq _. apply Hnotin. congruence.
Qed.

Lemma extractEntities_no_duplicates_witness :
  exists entities : list Entity.t,
    extractEntities
      {| EntityInput.text := "Google and google met GOOGLE in London.";
         EntityInput.types := ["organization"; "location"] |} Mock.complete
    = Returned (Ok entities)
    /\ NoDup (map (fun e => (Entity.type e, toLowerCase (Entity.text e))) entities).
Proof.
  apply (extractEntities_no_duplicates
           {| EntityInput.text := "Google and google met GOOGLE in London.";
              EntityInput.types := ["organization"; "location"] |} Mock.complete).
  repeat constructor; cbn [In]; intros H;
    repeat (destruct H as [H|H]; [discriminate H|]); exact H.
Defined.

(** A type that is requested twice, which the schema allows, has its
    entities twice. *)
Example extractEntities_repeated_type :
  extractEntities
    {| EntityInput.text := "Google builds it.";
       EntityInput.types := ["organization"; "organization"] |} Mock.complete
  = Returned (Ok
      [ {| Entity.text := "Google"; Entity.type := "organization";
           Entity.confidence := ofDecimal 85 (-2) |};
        {| Entity.text := "Google"; Entity.type := "organization";
           Entity.confidence := ofDecimal 85 (-2) |} ])
  /\ Zod.parse EntitySchema
       (Some (JObj [("text", JStr "Google builds it.");
                    ("types", JArr [JStr "organization"; JStr "organization"])]))
     = inr [("text", JStr "Google builds it.");
            ("types", JArr [JStr "organization"; JStr "organization"])].
Proof. vm_compute. split; reflexivity. Qed.

(** A type that names a member the table of patterns inherits is not
    skipped: the member is matched as the pattern its text makes. *)
Example extractEntities_inherited_member :
  extractEntities
    {| EntityInput.text := "Obj"; EntityInput.types := ["__proto__"] |} Mock.complete
  = Returned (Ok
      [ {| Entity.text := "O"; Entity.type := "__proto__";
           Entity.confidence := ofDecimal 85 (-2) |};
        {| Entity.text := "b"; Entity.type := "__proto__";
           Entity.confidence := ofDecimal 85 (-2) |};
        {| Entity.text := "j"; Entity.type := "__proto__";
           Entity.confidence := ofDecimal 85 (-2) |} ])
  /\ extractEntities
       {| EntityInput.text := "a function Object { n } here";
          EntityInput.types := ["constructor"] |} Mock.complete
     = Returned (Ok
         [ {| Entity.text := "function Object { n }"; Entity.type := "constructor";
              Entity.confidence := ofDecimal 85 (-2) |} ]).
Proof. vm_compute. split; reflexivity. Qed.

(** ** The catalog of tools and the dispatcher *)

(** The tool of an entry of the catalog, one at a time. *)
Ltac each_tool H :=
  unfold listTools in H; cbn [In] in H;
  repeat (destruct H as [H|H]; [subst|]); [..|destruct H].

(** The response of a tool of the catalog is a success of its case or the
    failure of its handler. *)
Lemma known_tool_response h providers server name args response :
  In name toolNames ->
  callToolWith h providers server name args = Returned response ->
  CallToolResult.isError response = false
  \/ exists error, response = errorResult error.
Proof.
  unfold toolNames. cbn [In]. intros Hname Hcall.
  repeat (destruct Hname as [<-|Hname];
    [unfold callToolWith, parseArgs in Hcall; cbn [String.eqb Ascii.eqb Bool.eqb] in Hcall;
     match type of Hcall with
     | context [Zod.parse ?shape args] => destruct (Zod.parse shape args) as [issues|parsed]
     end; [discriminate Hcall|]; cbn [await] in Hcall;
     match type of Hcall with
     | context [awaitHandler ?c] => destruct c as [[value|error]|e]
     end; cbn [await awaitHandler respond] in Hcall;
     [injection Hcall as <-; left; reflexivity
     |injection Hcall as <-; right; exists error; reflexivity
     |discriminate Hcall]|]).
  destruct Hname.
Qed.

(** X12. A name of the catalog is never answered as an unknown tool, whatever
    its handler does and whatever the arguments are. *)
Theorem callTool_known_tool_is_dispatched :
  forall (h : Handlers.t) (providers : Providers.t) (server : Sdk.Server.t)
         (name : string) (args : option json),
    In name (map Tool.name listTools) ->
    callToolWith h providers server name args
    <> Returned {| CallToolResult.content := [textItem (Some ("Unknown tool: " ++ name))];
                   CallToolResult.structuredContent := None;
                   CallToolResult.isError := true |}.
Proof.
  intros h providers server name args Hname Hcall.
  destruct (known_tool_response h providers server name args _ Hname Hcall) as [H|[error H]].
  - discriminate H.
  - unfold errorResult in H. injection H as H. discriminate H.
Qed.

Lemma callTool_known_tool_is_dispatched_witness :
  In "get_weather" (map Tool.name listTools)
  /\ callToolWith toolHandlers Mock.providers bareClient "get_weather" None
     <> Returned {| CallToolResult.content := [textItem (Some ("Unknown tool: " ++ "get_weather"))];
                    CallToolResult.structuredContent := None;
                    CallToolResult.isError := true |}.
Proof.
  assert (H : In "get_weather" (map Tool.name listTools))
    by (cbn [map listTools Tool.name In]; do 4 right; left; reflexivity).
  split; [exact H|].
  exact (callTool_known_tool_is_dispatched toolHandlers Mock.providers bareClient
           "get_weather" None H).
Defined.

(** X13. A success of a tool that advertises an output schema carries
    structured content, an object that has every key the schema requires;
    a success of a tool that advertises none carries no structured
    content. *)
Theorem structuredContent_follows_outputSchema :
  forall (h : Handlers.t) (providers : Providers.t) (server : Sdk.Server.t)
         (tool : Tool.t) (args : option json) (response : CallToolResult.t),
    In tool listTools ->
    callToolWith h providers server (Tool.name tool) args = Returned response ->
    CallToolResult.isError response = false ->
    match Tool.outputSchema tool with
    | Some schema =>
        exists fields,
          CallToolResult.structuredContent response = Some (JObj fields)
          /\ Forall (fun k => ownProperty k fields <> None) (requiredKeys schema)
    | None => CallToolResult.structuredContent response = None
    end.
Proof.
  intros h providers server tool args response Htool Hcall Hok.
  each_tool Htool; cbn [Tool.name Tool.outputSchema] in *;
    unfold callToolWith, parseArgs in Hcall; cbn [String.eqb Ascii.eqb Bool.eqb] in Hcall;
    match type of Hcall with
    | context [Zod.parse ?shape args] => destruct (Zod.parse shape args) as [issues|parsed]
    end; try discriminate Hcall; cbn [await] in Hcall;
    match type of Hcall with
    | context [awaitHandler ?c] => destruct c as [[value|error]|e]
    end; cbn [await awaitHandler respond] in Hcall; try discriminate Hcall;
    injection Hcall as <-; try discriminate Hok; try reflexivity;
    eexists; (split; [reflexivity|]);
    cbn; repeat constructor; discriminate.
Qed.

Lemma structuredContent_follows_outputSchema_witness :
  exists fields,
    Some (JObj [("summary", JStr "short")]) = Some (JObj fields)
    /\ Forall (fun k => ownProperty k fields <> None) (requiredKeys SUMMARIZE_OUTPUT_SCHEMA).
Proof.
  apply (structuredContent_follows_outputSchema
           {| Handlers.summarize := fun _ _ => Returned (Ok "short");
              Handlers.analyzeSentiment := TextAnalysis.analyzeSentiment;
              Handlers.extractEntities := TextAnalysis.extractEntities;
              Handlers.webSearch := WebSearch.webSearch;
              Handlers.getWeather := Weather.getWeather;
              Handlers.smartSummarize := Sampling.smartSummarize;
              Handlers.configureAnalysis := Elicitation.configureAnalysis |}
           Mock.providers bareClient
           {| Tool.name := "summarize";
              Tool.properties :=
                [("text", plain "string"); ("maxLength", withDefault "number" (JNum (ofZ 100)))];
              Tool.required := ["text"];
              Tool.outputSchema := Some SUMMARIZE_OUTPUT_SCHEMA;
              Tool.annotations := hints true true false false |}
           shortText
           (textResult (Some "short") (Some (JObj [("summary", JStr "short")])))).
  - left. reflexivity.
  - vm_compute. reflexivity.
  - reflexivity.
Defined.

(** X14. A key that the catalog advertises as required is enforced: a call
    whose arguments lack it is rejected with a validation error that
    names the key, before any handler runs. *)
Theorem advertised_required_key_is_enforced :
  forall (h : Handlers.t) (providers : Providers.t) (server : Sdk.Server.t)
         (tool : Tool.t) (k : string) (data : list (string * json)),
    In tool listTools ->
    In k (Tool.required tool) ->
    ownProperty k data = None ->
    exists issues : list Zod.issue,
      callToolWith h providers server (Tool.name tool) (Some (JObj data))
      = Thrown (ZodError issues)
      /\ In {| Zod.problem := Zod.invalid_type; Zod.path := [Zod.Key k] |} issues.
Proof.
  intros h providers server tool k data Htool Hk Hnone.
  each_tool Htool; cbn [Tool.required Tool.name In] in *;
    destruct Hk as [<-|[]];
    unfold callToolWith, parseArgs, Zod.parse; cbn [String.eqb Ascii.eqb Bool.eqb];
    match goal with
    | |- context [Zod.parseFields ?shape data] => unfold shape
    end;
    cbn [Zod.parseFields];
    match goal with
    | |- context [Zod.parseField ?f data] =>
        replace (Zod.parseField f data)
          with (@inl (list Zod.issue) json
                  [{| Zod.problem := Zod.invalid_type; Zod.path := [Zod.Key (Zod.name f)] |}])
          by (unfold Zod.parseField; cbn [Zod.name Zod.default]; rewrite Hnone; reflexivity)
    end;
    repeat match goal with
           | |- context [Zod.parseField ?f data] => destruct (Zod.parseField f data)
           end;
    cbn [app Zod.name await]; eexists; (split; [reflexivity|left; reflexivity]).
Qed.

Lemma advertised_required_key_is_enforced_witness :
  exists issues : list Zod.issue,
    callToolWith toolHandlers Mock.providers bareClient "brave_web_search"
      (Some (JObj [("maxResults", JNum (ofZ 3))]))
    = Thrown (ZodError issues)
    /\ In {| Zod.problem := Zod.invalid_type; Zod.path := [Zod.Key "query"] |} issues.
Proof.
  apply (advertised_required_key_is_enforced toolHandlers Mock.providers bareClient
           {| Tool.name := "brave_web_search";
              Tool.properties :=
                [("query", plain "string"); ("maxResults", withDefault "number" (JNum (ofZ 5)))];
              Tool.required := ["query"];
              Tool.outputSchema := None;
              Tool.annotations := hints true false false true |}
           "query" [("maxResults", JNum (ofZ 3))]).
  - unfold listTools. do 3 right. left. reflexivity.
  - left. reflexivity.
  - reflexivity.
Defined.

Lemma parseFields_default shape data k d :
  (forall f, In f shape -> Zod.name f = k ->
     Zod.default f = Some d /\ Zod.validate (Zod.type f) [Zod.Key (Zod.name f)] d = []) ->
  ownProperty k data = None ->
  Zod.parseFields shape ((k, d) :: data) = Zod.parseFields shape data.
Proof.
  intros Hshape Hnone. induction shape as [|f shape IH]; [reflexivity|].
  cbn [Zod.parseFields]. rewrite IH by (intros g Hg; apply Hshape; right; exact Hg).
  replace (Zod.parseField f ((k, d) :: data)) with (Zod.parseField f data); [reflexivity|].
  unfold Zod.parseField. cbn [ownProperty].
  destruct (String.eqb_spec (Zod.name f) k) as [Heq|_]; [|reflexivity].
  destruct (Hshape f (or_introl eq_refl) Heq) as [Hd Hvalid].
  rewrite Heq, Hnone, <- Heq, Hd, Hvalid. reflexivity.
Qed.

(** X15. A default that the catalog advertises is the one the dispatcher
    applies: a call that leaves the key out is answered as the call that
    sends the advertised default. *)
Theorem advertised_default_is_applied :
  forall (h : Handlers.t) (providers : Providers.t) (server : Sdk.Server.t)
         (tool : Tool.t) (k : string) (property : Property.t) (d : json)
         (data : list (string * json)),
    In tool listTools ->
    In (k, property) (Tool.properties tool) ->
    Property.default property = Some d ->
    ownProperty k data = None ->
    callToolWith h providers server (Tool.name tool) (Some (JObj data))
    = callToolWith h providers server (Tool.name tool) (Some (JObj ((k, d) :: data))).
Proof.
  intros h providers server tool k property d data Htool Hk Hd Hnone.
  assert (Hshape : exists shape,
            In (Tool.name tool, shape) inputSchemas
            /\ forall f, In f shape -> Zod.name f = k ->
                 Zod.default f = Some d
                 /\ Zod.validate (Zod.type f) [Zod.Key (Zod.name f)] d = []).
  { each_tool Htool; cbn [Tool.properties Tool.name In] in *;
      repeat (destruct Hk as [Hk|Hk]; [injection Hk as <- <-; try discriminate Hd|]);
      try destruct Hk; injection Hd as <-;
      (eexists; split;
       [unfold inputSchemas; cbn [In];
        first [left; reflexivity | right; left; reflexivity
              | do 2 right; left; reflexivity | do 3 right; left; reflexivity
              | do 4 right; left; reflexivity | do 5 right; left; reflexivity
              | do 6 right; left; reflexivity]
       |intros f Hf Hname; cbn [In] in Hf;
        repeat (destruct Hf as [<-|Hf]; [try discriminate Hname|]); try destruct Hf;
        split; [reflexivity|vm_compute; reflexivity]]). }
  destruct Hshape as (shape & Hin & Hfields).
  apply (callTool_reads_parse h providers server _ shape _ _ Hin).
  unfold Zod.parse. rewrite (parseFields_default shape data k d Hfields Hnone). reflexivity.
Qed.

Lemma advertised_default_is_applied_witness :
  callToolWith toolHandlers Mock.providers bareClient "get_weather"
    (Some (JObj [("location", JStr "London")]))
  = callToolWith toolHandlers Mock.providers bareClient "get_weather"
      (Some (JObj [("unit", JStr "fahrenheit"); ("location", JStr "London")])).
Proof.
  apply (advertised_default_is_applied toolHandlers Mock.providers bareClient
           {| Tool.name := "get_weather";
              Tool.properties :=
                [("location", plain "string"); ("unit", withDefault "string" (JStr "fahrenheit"))];
              Tool.required := ["location"];
              Tool.outputSchema := None;
              Tool.annotations := hints true false false true |}
           "unit" (withDefault "string" (JStr "fahrenheit")) (JStr "fahrenheit")
           [("location", JStr "London")]).
  - unfold listTools. do 4 right. left. reflexivity.
  - right. left. reflexivity.
  - reflexivity.
  - reflexivity.
Defined.

(** X16. The resource [toolkit://tools] lists five tools by name.  Four of them
    are names of the catalog; the fifth, [web_search], is not: the search
    tool is dispatched as [brave_web_search], and a call of the listed name
    is answered as an unknown tool, whatever the arguments. *)
Theorem listed_tool_is_callable_iff :
  forall (h : Handlers.t) (providers : Providers.t) (server : Sdk.Server.t)
         (name : string) (args : option json),
    In (Some (JStr name)) (map (member "name") listedTools) ->
    (callToolWith h providers server name args
     = Returned {| CallToolResult.content := [textItem (Some ("Unknown tool: " ++ name))];
                   CallToolResult.structuredContent := None;
                   CallToolResult.isError := true |})
    <-> name = "web_search".
Proof.
  intros h providers server name args Hlisted. split.
  - intros Hcall.
    destruct (String.eqb_spec name "web_search") as [Heq|Hne]; [exact Heq|exfalso].
    assert (Hname : In name toolNames).
    { cbn [map listedTools toolEntry member ownProperty String.eqb Ascii.eqb Bool.eqb In]
        in Hlisted.
      unfold toolNames. cbn [In].
      repeat (destruct Hlisted as [H|Hlisted];
              [injection H as <-; first [exfalso; apply Hne; reflexivity | tauto]|]).
      destruct Hlisted. }
    destruct (known_tool_response h providers server name args _ Hname Hcall) as [H|[error H]].
    + discriminate H.
    + unfold errorResult in H. injection H as H. discriminate H.
  - intros ->. reflexivity.
Qed.

Lemma listed_tool_is_callable_iff_witness :
  (callToolWith toolHandlers Mock.providers bareClient "web_search"
     (Some (JObj [("query", JStr "MCP protocol")]))
   = Returned {| CallToolResult.content := [textItem (Some ("Unknown tool: " ++ "web_search"))];
                 CallToolResult.structuredContent := None;
                 CallToolResult.isError := true |})
  <-> "web_search" = "web_search".
Proof.
  apply (listed_tool_is_callable_iff toolHandlers Mock.providers bareClient "web_search"
           (Some (JObj [("query", JStr "MCP protocol")]))).
  cbn [map listedTools toolEntry member ownProperty String.eqb Ascii.eqb Bool.eqb In].
  do 3 right. left. reflexivity.
Defined.

(** ** The server over the mock providers *)

(** X17. With the mock providers, a call of one of the five tools they back,
    with arguments that parse, is always answered with a success that has
    one item of content: none of these handlers fails and none throws. *)
Theorem mock_tools_always_succeed :
  forall (server : Sdk.Server.t) (name : string) (shape : list Zod.field)
         (args : option json) (parsed : list (string * json)),
    In (name, shape) (firstn 5 inputSchemas) ->
    Zod.parse shape args = inr parsed ->
    exists response : CallToolResult.t,
      callTool Mock.providers server name args = Returned response
      /\ CallToolResult.isError response = false
      /\ List.length (CallToolResult.content response) = 1%nat.
Proof.
  intros server name shape args parsed Hin Hparse.
  unfold inputSchemas in Hin. cbn [firstn In] in Hin.
  repeat (destruct Hin as [Hin|Hin]; [injection Hin as <- <-|]); try destruct Hin;
    unfold callTool, callToolWith, parseArgs; cbn [String.eqb Ascii.eqb Bool.eqb];
    rewrite Hparse; cbn [await toolHandlers Handlers.summarize Handlers.analyzeSentiment
                           Handlers.extractEntities Handlers.webSearch Handlers.getWeather
                           Mock.providers Providers.text Providers.search Providers.weather].
  - eexists. split; [reflexivity|]. split; reflexivity.
  - unfold analyzeSentiment.
    destruct (countWords _) as [positiveCount negativeCount].
    eexists. split; [reflexivity|]. split; reflexivity.
  - eexists. split; [reflexivity|]. split; reflexivity.
  - eexists. split; [reflexivity|]. split; reflexivity.
  - unfold Weather.getWeather, Mock.getWeather.
    destruct (getProperty Mock.mockData _) as [data|];
      (eexists; split; [reflexivity|]; split; reflexivity).
Qed.

Lemma mock_tools_always_succeed_witness :
  exists response : CallToolResult.t,
    callTool Mock.providers bareClient "get_weather" (weatherArgs "Lima" "celsius")
    = Returned response
    /\ CallToolResult.isError response = false
    /\ List.length (CallToolResult.content response) = 1%nat.
Proof.
  apply (mock_tools_always_succeed bareClient "get_weather" WeatherSchema
           (weatherArgs "Lima" "celsius")
           [("location", JStr "Lima"); ("unit", JStr "celsius")]).
  - unfold inputSchemas. cbn [firstn]. do 4 right. left. reflexivity.
  - reflexivity.
Defined.

(** X18. With the mock providers, for any client, name and arguments, a
    call returns a response or throws the validation error of its
    arguments, with one exception: the call of [configure_analysis] throws
    the [TypeError] of a conversion when the client accepts the
    elicitation with a payload that cannot be converted, since neither the
    handler nor the dispatcher catches it
    ([configure_analysis_conversion_escapes]).  Nothing else that a handler
    throws leaves the dispatcher: [smart_summarize] catches what the client
    throws, and so does [configure_analysis] for the request itself. *)
Theorem mock_server_thrown_values :
  forall (server : Sdk.Server.t) (name : string) (args : option json),
    match callTool Mock.providers server name args with
    | Returned _ => True
    | Thrown (ZodError issues) => issues <> []
    | Thrown (HandlerFault e) =>
        name = "configure_analysis" /\ e = cannotConvert
        /\ exists parsed,
             Zod.parse ConfigureAnalysisSchema args = inr parsed
             /\ configureAnalysis (ConfigureAnalysisInput.ofParsed parsed) server
                = Thrown cannotConvert
    end.
Proof.
  intros server name args. unfold callTool, callToolWith, parseArgs.
  repeat match goal with
         | |- context [String.eqb name ?known] =>
             destruct (String.eqb_spec name known) as [->|_];
             [match goal with
              | |- context [Zod.parse ?shape args] =>
                  destruct (Zod.parse shape args) as [issues|parsed] eqn:Hparse
              end;
              [exact (parse_issues _ _ _ Hparse)|]|]
         end;
    cbn [await toolHandlers Handlers.summarize Handlers.analyzeSentiment
           Handlers.extractEntities Handlers.webSearch Handlers.getWeather
           Handlers.smartSummarize Handlers.configureAnalysis
           Mock.providers Providers.text Providers.search Providers.weather];
    try exact I.
  - unfold analyzeSentiment. destruct (countWords _). exact I.
  - unfold Weather.getWeather, Mock.getWeather.
    destruct (getProperty Mock.mockData _); exact I.
  - unfold smartSummarize.
    destruct (Sdk.Server.createMessage server _) as [response|err]; [|exact I].
    destruct (Sdk.CreateMessageResult.content response); exact I.
  - destruct (configureAnalysis_succeeds_or_throws
                (ConfigureAnalysisInput.ofParsed parsed) server) as [[r Hok]|Hthrown].
    + rewrite Hok. exact I.
    + rewrite Hthrown. cbn [awaitHandler await].
      split; [reflexivity|]. split; [reflexivity|].
      exists parsed. split; [reflexivity|exact Hthrown].
Qed.

(** The exception, on a client that accepts with a depth that is an object
    with an own key [toString]: the call of the dispatcher throws. *)
Example configure_analysis_conversion_escapes :
  callTool Mock.providers (acceptingClient depthWithToString) "configure_analysis"
    (Some (JObj [("text", JStr "Some text.")]))
  = Thrown (HandlerFault
      {| rendering := "TypeError: Cannot convert object to primitive value" |}).
Proof. vm_compute. reflexivity. Qed.

(** ** The configuration and the provider factory *)

Lemma createProviders_outside_production net config :
  ServerConfig.mode config <> "production" -> createProviders net config = Mock.providers.
Proof.
  intros Hmode. unfold createProviders.
  destruct (String.eqb_spec (ServerConfig.mode config) "production"); [contradiction|reflexivity].
Qed.

Lemma createProviders_live_search net config apiKey :
  ServerConfig.mode config = "production" ->
  ServerConfig.braveApiKey config = Some apiKey -> apiKey <> "" ->
  Providers.search (createProviders net config)
  = BraveWebSearchProvider.search (Network.brave net) apiKey.
Proof.
  intros Hmode Hkey Hne. unfold createProviders, truthyKey.
  rewrite Hmode, Hkey. cbn [String.eqb Ascii.eqb Bool.eqb Providers.search].
  destruct (String.eqb_spec apiKey ""); [contradiction|reflexivity].
Qed.

Lemma createProviders_live_weather net config apiKey :
  ServerConfig.mode config = "production" ->
  ServerConfig.openWeatherMapApiKey config = Some apiKey -> apiKey <> "" ->
  Providers.weather (createProviders net config)
  = OpenWeatherMapProvider.getWeather (Network.openWeatherMap net) apiKey.
Proof.
  intros Hmode Hkey Hne. unfold createProviders, truthyKey.
  rewrite Hmode, Hkey. cbn [String.eqb Ascii.eqb Bool.eqb Providers.weather].
  destruct (String.eqb_spec apiKey ""); [contradiction|reflexivity].
Qed.

(** X19. The factory picks a live provider only in production mode and only for
    a service whose key is set and not empty; in every other case the
    provider is the mock, and the text provider is the mock in every case.
    So a configuration that [isMockMode] accepts gets the three mocks,
    production mode with no key is all mocks as well, and no key makes the
    text provider live. *)
Theorem createProviders_selection :
  forall (net : Network.t) (config : ServerConfig.t),
    Providers.text (createProviders net config) = Mock.complete
    /\ (isMockMode config = true -> createProviders net config = Mock.providers)
    /\ (ServerConfig.mode config <> "production" ->
        createProviders net config = Mock.providers)
    /\ (ServerConfig.braveApiKey config = None \/ ServerConfig.braveApiKey config = Some "" ->
        Providers.search (createProviders net config) = Mock.search)
    /\ (ServerConfig.openWeatherMapApiKey config = None
        \/ ServerConfig.openWeatherMapApiKey config = Some "" ->
        Providers.weather (createProviders net config) = Mock.getWeather)
    /\ (forall apiKey,
          ServerConfig.mode config = "production" ->
          ServerConfig.braveApiKey config = Some apiKey -> apiKey <> "" ->
          Providers.search (createProviders net config)
          = BraveWebSearchProvider.search (Network.brave net) apiKey)
    /\ (forall apiKey,
          ServerConfig.mode config = "production" ->
          ServerConfig.openWeatherMapApiKey config = Some apiKey -> apiKey <> "" ->
          Providers.weather (createProviders net config)
          = OpenWeatherMapProvider.getWeather (Network.openWeatherMap net) apiKey).
Proof.
  intros net config. split; [|split; [|split; [|split; [|split; [|split]]]]].
  - unfold createProviders. destruct (String.eqb _ _); reflexivity.
  - intros Hmock. apply createProviders_outside_production. intros Hmode.
    unfold isMockMode in Hmock. rewrite Hmode in Hmock. discriminate Hmock.
  - apply createProviders_outside_production.
  - intros Hkey. unfold createProviders.
    destruct (String.eqb _ _); [|reflexivity].
    destruct Hkey as [-> | ->]; reflexivity.
  - intros Hkey. unfold createProviders.
    destruct (String.eqb _ _); [|reflexivity].
    destruct Hkey as [-> | ->]; reflexivity.
  - intros apiKey. apply createProviders_live_search.
  - intros apiKey. apply createProviders_live_weather.
Qed.

(** X20. With no [MCP_MODE] in the environment and no override, the server is
    in mock mode and on the mock providers, whatever else the environment
    holds: setting the keys of the services alone does not make a provider
    live. *)
Theorem keys_alone_do_not_go_live :
  forall (net : Network.t) (env : environment),
    ownProperty "MCP_MODE" env = None ->
    ServerConfig.mode (loadConfig env Overrides.none) = "mock"
    /\ isMockMode (loadConfig env Overrides.none) = true
    /\ createProviders net (loadConfig env Overrides.none) = Mock.providers.
Proof.
  intros net env Hmode.
  assert (H : ServerConfig.mode (loadConfig env Overrides.none) = "mock").
  { unfold loadConfig. cbn [ServerConfig.mode Overrides.mode Overrides.none spread].
    rewrite Hmode. reflexivity. }
  split; [exact H|]. split.
  - unfold isMockMode. rewrite H. reflexivity.
  - apply createProviders_outside_production. rewrite H. discriminate.
Qed.

Lemma keys_alone_do_not_go_live_witness :
  ServerConfig.mode (loadConfig [("BRAVE_API_KEY", "key")] Overrides.none) = "mock"
  /\ isMockMode (loadConfig [("BRAVE_API_KEY", "key")] Overrides.none) = true
  /\ createProviders offline (loadConfig [("BRAVE_API_KEY", "key")] Overrides.none)
     = Mock.providers.
Proof.
  apply (keys_alone_do_not_go_live offline [("BRAVE_API_KEY", "key")]). reflexivity.
Defined.

(** X21. A limit that the environment gives as a text that does not start with
    a number is not replaced by the default of the limit: it is read as
    NaN. *)
Theorem loadConfig_number_is_not_validated :
  forall (env : environment) (overrides : Overrides.t) (c : ascii) (rest : string),
    ownProperty "MCP_MAX_CONCURRENT" env = Some (String c rest) ->
    Overrides.maxConcurrentTools overrides = None ->
    between 65 90 c || between 97 122 c = true ->
    ServerConfig.maxConcurrentTools (loadConfig env overrides) = NaN.
Proof.
  intros env overrides c rest Henv Hover Hletter.
  unfold loadConfig. cbn [ServerConfig.maxConcurrentTools]. rewrite Hover, Henv.
  cbn [spread orDefault]. unfold parseInt10. cbn [chars list_ascii_of_string dropWhiteSpace].
  destruct c as [[] [] [] [] [] [] [] []];
    try discriminate Hletter; reflexivity.
Qed.

Lemma loadConfig_number_is_not_validated_witness :
  ServerConfig.maxConcurrentTools (loadConfig [("MCP_MAX_CONCURRENT", "many")] Overrides.none)
  = NaN.
Proof.
  apply (loadConfig_number_is_not_validated [("MCP_MAX_CONCURRENT", "many")] Overrides.none
           "m"%char "any").
  - reflexivity.
  - reflexivity.
  - reflexivity.
Defined.

(** ** The live search provider *)

Lemma mapFrom_length {A B : Type} (f : A -> nat -> B) xs :
  forall i, List.length (mapFrom f i xs) = List.length xs.
Proof. induction xs as [|x xs IH]; intros i; cbn [mapFrom List.length]; [|rewrite IH]; reflexivity. Qed.

Lemma mapFrom_nth {A B : Type} (f : A -> nat -> B) xs :
  forall i j, nth_error (mapFrom f i xs) j = option_map (fun x => f x (i + j)%nat) (nth_error xs j).
Proof.
  induction xs as [|x xs IH]; intros i j; cbn [mapFrom]; [destruct j; reflexivity|].
  destruct j as [|j]; cbn [nth_error option_map].
  - rewrite Nat.add_0_r. reflexivity.
  - rewrite IH. rewrite Nat.add_succ_r. reflexivity.
Qed.

(** [slice(0, N)] for a bound within the schema. *)
Lemma sliceTo_bound {A : Type} (xs : list A) (N : Z) :
  (1 <= N <= 20)%Z -> sliceTo xs (ofZ N) = firstn (Z.to_nat N) xs.
Proof.
  intros HN. unfold sliceTo.
  assert (HT : toIntegerOrInfinity (ofZ N) = Finite N).
  { revert N HN. apply (small_cases _ 1 20). intros k Hk.
    do 20 (destruct k as [|k]; [vm_compute; reflexivity|]).
    exfalso. cbn in Hk. lia. }
  rewrite HT. destruct (Z.ltb_spec N 0); [lia|].
  destruct (Z.le_ge_cases N (Z.of_nat (List.length xs))) as [Hle|Hge].
  - rewrite Z.min_l by assumption. reflexivity.
  - rewrite Z.min_r by assumption. rewrite Nat2Z.id.
    rewrite firstn_all. symmetry. apply firstn_all2. lia.
Qed.

(** X22. When the search service answers with a body of the shape the provider
    expects, the live provider succeeds, for every bound [N] within the
    schema, with the first [N] results of the body, or all of them when
    there are fewer, in their order: each keeps the title and the address
    of its source, takes its description as snippet, or the empty text
    when it has none, and is scored [1.0 - i * 0.1] at index [i]. *)
Theorem brave_search_results :
  forall (fetch : Http.fetch BraveSearchResponse.t) (apiKey query : string) (N : Z)
         (response : Http.Response.t BraveSearchResponse.t) (data : BraveSearchResponse.t),
    (1 <= N <= 20)%Z ->
    fetch (BraveWebSearchProvider.request apiKey query (ofZ N)) = Returned response ->
    Http.Response.ok response = true ->
    Http.Response.json response = Returned data ->
    exists results : list SearchResult.t,
      BraveWebSearchProvider.search fetch apiKey query (ofZ N) = Returned (Ok results)
      /\ List.length results
         = Nat.min (Z.to_nat N) (List.length (BraveWebSearchProvider.rawResults data))
      /\ forall i item,
           (i < Z.to_nat N)%nat ->
           nth_error (BraveWebSearchProvider.rawResults data) i = Some item ->
           nth_error results i
           = Some {| SearchResult.title := BraveSearchResponse.Item.title item;
                     SearchResult.url := BraveSearchResponse.Item.url item;
                     SearchResult.snippet :=
                       match BraveSearchResponse.Item.description item with
                       | Some d => d
                       | None => ""
                       end;
                     SearchResult.score :=
                       sub (ofDecimal 10 (-1)) (mul (ofZ (Z.of_nat i)) (ofDecimal 1 (-1))) |}.
Proof.
  intros fetch apiKey query N response data HN Hfetch Hok Hjson.
  eexists. split; [|split].
  - unfold BraveWebSearchProvider.search. rewrite Hfetch, Hok, Hjson. cbn [negb].
    rewrite (sliceTo_bound _ N HN). reflexivity.
  - rewrite mapFrom_length, length_firstn. reflexivity.
  - intros i item Hi Hnth. rewrite mapFrom_nth, nth_error_firstn.
    destruct (Nat.ltb_spec i (Z.to_nat N)); [|lia].
    rewrite Hnth. reflexivity.
Qed.

Lemma brave_search_results_witness :
  exists results : list SearchResult.t,
    BraveWebSearchProvider.search (braveAnswers (braveBody 3)) "key" "MCP" (ofZ 2)
    = Returned (Ok results)
    /\ List.length results
       = Nat.min (Z.to_nat 2) (List.length (BraveWebSearchProvider.rawResults (braveBody 3)))
    /\ forall i item,
         (i < Z.to_nat 2)%nat ->
         nth_error (BraveWebSearchProvider.rawResults (braveBody 3)) i = Some item ->
         nth_error results i
         = Some {| SearchResult.title := BraveSearchResponse.Item.title item;
                   SearchResult.url := BraveSearchResponse.Item.url item;
                   SearchResult.snippet :=
                     match BraveSearchResponse.Item.description item with
                     | Some d => d
                     | None => ""
                     end;
                   SearchResult.score :=
                     sub (ofDecimal 10 (-1)) (mul (ofZ (Z.of_nat i)) (ofDecimal 1 (-1))) |}.
Proof.
  apply (brave_search_results (braveAnswers (braveBody 3)) "key" "MCP" 2
           {| Http.Response.ok := true;
              Http.Response.status := ofZ 200;
              Http.Response.json := Returned (braveBody 3) |}
           (braveBody 3)).
  - lia.
  - reflexivity.
  - reflexivity.
  - reflexivity.
Defined.

(** X23. The score [1.0 - i * 0.1] of the live provider is below zero from the
    index 11 on: of the twenty results the schema allows, the last nine are
    scored below zero, and the one before them exactly zero. *)
Theorem brave_scores_below_zero :
  forall (fetch : Http.fetch BraveSearchResponse.t) (apiKey query : string) (N : Z)
         (results : list SearchResult.t) (i : nat) (r : SearchResult.t),
    (1 <= N <= 20)%Z ->
    BraveWebSearchProvider.search fetch apiKey query (ofZ N) = Returned (Ok results) ->
    nth_error results i = Some r ->
    lt (SearchResult.score r) (S754_zero false) = (10 <? i)%nat
    /\ (i = 10%nat -> SearchResult.score r = S754_zero false).
Proof.
  intros fetch apiKey query N results i r HN Hsearch Hnth.
  unfold BraveWebSearchProvider.search in Hsearch.
  destruct (fetch _) as [response|err]; [|discriminate Hsearch].
  destruct (negb (Http.Response.ok response)); [discriminate Hsearch|].
  destruct (Http.Response.json response) as [data|e]; [|discriminate Hsearch].
  injection Hsearch as <-.
  rewrite (sliceTo_bound _ N HN) in Hnth.
  assert (Hi : (i < 20)%nat).
  { assert (Hsome : nth_error (mapFrom BraveWebSearchProvider.resultOf 0
                                 (firstn (Z.to_nat N) (BraveWebSearchProvider.rawResults data))) i
                    <> None) by congruence.
    apply nth_error_Some in Hsome. rewrite mapFrom_length, length_firstn in Hsome. lia. }
  rewrite mapFrom_nth in Hnth.
  destruct (nth_error _ i) as [item|]; [|discriminate Hnth].
  injection Hnth as <-. cbn [SearchResult.score BraveWebSearchProvider.resultOf Nat.add].
  do 20 (destruct i as [|i]; [split; [vm_compute; reflexivity|]; intros Hten;
                              first [discriminate Hten | vm_compute; reflexivity]|]).
  exfalso. lia.
Qed.

Lemma brave_scores_below_zero_witness :
  lt (BraveWebSearchProvider.scoreAt 11) (S754_zero false) = (10 <? 11)%nat
  /\ (11%nat = 10%nat -> BraveWebSearchProvider.scoreAt 11 = S754_zero false).
Proof.
  apply (brave_scores_below_zero (braveAnswers (braveBody 12)) "key" "MCP" 12
           (mapFrom BraveWebSearchProvider.resultOf 0
              (BraveWebSearchProvider.rawResults (braveBody 12)))
           11
           {| SearchResult.title := "Result 12";
              SearchResult.url := "https://example.com/12";
              SearchResult.snippet := "";
              SearchResult.score := BraveWebSearchProvider.scoreAt 11 |}).
  - lia.
  - vm_compute. reflexivity.
  - vm_compute. reflexivity.
Defined.

(** ** The server over the live search provider *)

(** X24. In production mode with a key for the search service, the failures of
    the service do not leave the dispatcher as exceptions.  The call of
    [brave_web_search] sends one request, with the query and the key, and
    when the request throws, when the answer is not a success of HTTP, and
    when its body cannot be read, the call is answered with a response
    flagged as an error, whose text tells which of the three it was. *)
Theorem live_search_failures_are_error_responses :
  forall (net : Network.t) (config : ServerConfig.t) (server : Sdk.Server.t)
         (apiKey : string) (args : option json) (parsed : list (string * json)),
    ServerConfig.mode config = "production" ->
    ServerConfig.braveApiKey config = Some apiKey ->
    apiKey <> "" ->
    Zod.parse SearchSchema args = inr parsed ->
    exists request : Http.Request.t,
      ownProperty "q" (Http.Request.searchParams request)
      = Some (SearchInput.query (SearchInput.ofParsed parsed))
      /\ ownProperty "X-Subscription-Token" (Http.Request.headers request) = Some apiKey
      /\ (forall err,
            Network.brave net request = Thrown err ->
            createServer net config server "brave_web_search" args
            = Returned (errorResult ("Brave Search fetch failed: " ++ rendering err)))
      /\ (forall response,
            Network.brave net request = Returned response ->
            Http.Response.ok response = false ->
            createServer net config server "brave_web_search" args
            = Returned (errorResult ("Brave Search API error: HTTP "
                                     ++ numberToString (Http.Response.status response))))
      /\ (forall response e,
            Network.brave net request = Returned response ->
            Http.Response.ok response = true ->
            Http.Response.json response = Thrown e ->
            createServer net config server "brave_web_search" args
            = Returned (errorResult "Failed to parse Brave Search response")).
Proof.
  intros net config server apiKey args parsed Hmode Hkey Hne Hparse.
  exists (BraveWebSearchProvider.request apiKey
            (SearchInput.query (SearchInput.ofParsed parsed))
            (SearchInput.maxResults (SearchInput.ofParsed parsed))).
  split; [reflexivity|]. split; [reflexivity|].
  assert (Hcall : createServer net config server "brave_web_search" args
                  = let* result := awaitHandler
                      (BraveWebSearchProvider.search (Network.brave net) apiKey
                         (SearchInput.query (SearchInput.ofParsed parsed))
                         (SearchInput.maxResults (SearchInput.ofParsed parsed))) in
                    Returned (respond result (fun value =>
                      textResult (Some (stringify (JArr (map SearchResult.toJson value)))) None))).
  { unfold createServer, callTool, callToolWith, parseArgs.
    cbn [String.eqb Ascii.eqb Bool.eqb]. rewrite Hparse. cbn [await].
    cbn [toolHandlers Handlers.webSearch]. unfold webSearch.
    rewrite (createProviders_live_search net config apiKey Hmode Hkey Hne). reflexivity. }
  rewrite Hcall. unfold BraveWebSearchProvider.search.
  split; [|split].
  - intros err ->. reflexivity.
  - intros response -> ->. reflexivity.
  - intros response e -> -> ->. reflexivity.
Qed.

Lemma live_search_failures_are_error_responses_witness :
  exists request : Http.Request.t,
    ownProperty "q" (Http.Request.searchParams request)
    = Some (SearchInput.query
              (SearchInput.ofParsed [("query", JStr "MCP"); ("maxResults", JNum (ofZ 5))]))
    /\ ownProperty "X-Subscription-Token" (Http.Request.headers request) = Some "key"
    /\ (forall err,
          Network.brave offline request = Thrown err ->
          createServer offline (productionConfig (Some "key") None) bareClient
            "brave_web_search" (Some (JObj [("query", JStr "MCP")]))
          = Returned (errorResult ("Brave Search fetch failed: " ++ rendering err)))
    /\ (forall response,
          Network.brave offline request = Returned response ->
          Http.Response.ok response = false ->
          createServer offline (productionConfig (Some "key") None) bareClient
            "brave_web_search" (Some (JObj [("query", JStr "MCP")]))
          = Returned (errorResult ("Brave Search API error: HTTP "
                                   ++ numberToString (Http.Response.status response))))
    /\ (forall response e,
          Network.brave offline request = Returned response ->
          Http.Response.ok response = true ->
          Http.Response.json response = Thrown e ->
          createServer offline (productionConfig (Some "key") None) bareClient
            "brave_web_search" (Some (JObj [("query", JStr "MCP")]))
          = Returned (errorResult "Failed to parse Brave Search response")).
Proof.
  apply (live_search_failures_are_error_responses offline
           (productionConfig (Some "key") None) bareClient "key"
           (Some (JObj [("query", JStr "MCP")]))
           [("query", JStr "MCP"); ("maxResults", JNum (ofZ 5))]).
  - reflexivity.
  - reflexivity.
  - discriminate.
  - reflexivity.
Defined.

(** ** The sentiment that [analyzeSentiment] reports *)

Lemma countWord_positive words : forall p n,
  (0 <? fst (fold_left countWord words (p, n)))%nat
  = (0 <? p)%nat || existsb (fun word => existsb (includes word) positiveWords) words.
Proof.
  induction words as [|w words IH]; intros p n; cbn [fold_left existsb].
  - rewrite orb_false_r. reflexivity.
  - unfold countWord at 2. rewrite IH.
    destruct (existsb (includes w) positiveWords); cbn [orb].
    + rewrite orb_true_r. reflexivity.
    + reflexivity.
Qed.

Lemma countWord_negative words : forall p n,
  (0 <? snd (fold_left countWord words (p, n)))%nat
  = (0 <? n)%nat || existsb (fun word => existsb (includes word) negativeWords) words.
Proof.
  induction words as [|w words IH]; intros p n; cbn [fold_left existsb].
  - rewrite orb_false_r. reflexivity.
  - unfold countWord at 2. rewrite IH.
    destruct (existsb (includes w) negativeWords); cbn [orb].
    + rewrite orb_true_r. reflexivity.
    + reflexivity.
Qed.

(** X25. The sentiment is decided by which kinds of indicator the text
    mentions, not by how many: mixed when it mentions both kinds, positive
    or negative when it mentions one kind only, neutral when it mentions
    none.  So one negative indicator among many positive ones is enough for
    the text not to be reported as positive. *)
Theorem analyzeSentiment_sentiment_by_kind :
  forall (input : SentimentInput.t) (provider : TextProvider),
    exists result : SentimentResult.t,
      analyzeSentiment input provider = Returned (Ok result)
      /\ SentimentResult.sentiment result
         = match mentions positiveWords (SentimentInput.text input),
                 mentions negativeWords (SentimentInput.text input) with
           | true, true => mixed
           | true, false => positive_
           | false, true => negative_
           | false, false => neutral
           end.
Proof.
  intros input provider. unfold analyzeSentiment, mentions.
  pose proof (countWord_positive (splitWhiteSpace (toLowerCase (SentimentInput.text input))) 0 0)
    as Hp.
  pose proof (countWord_negative (splitWhiteSpace (toLowerCase (SentimentInput.text input))) 0 0)
    as Hn.
  fold (countWords (splitWhiteSpace (toLowerCase (SentimentInput.text input)))) in Hp, Hn.
  destruct (countWords _) as [p n].
  change (0 <? 0)%nat with false in Hp, Hn. cbn [fst snd orb] in Hp, Hn.
  rewrite <- Hp, <- Hn. eexists. split; [reflexivity|].
  unfold classify.
  destruct p as [|p], n as [|n]; cbn [Nat.add Nat.eqb Nat.ltb Nat.leb andb]; reflexivity.
Qed.

Lemma lowerChar_idempotent c : lowerChar (lowerChar c) = lowerChar c.
Proof. destruct c as [[] [] [] [] [] [] [] []]; vm_compute; reflexivity. Qed.

Lemma toLowerCase_idempotent s : toLowerCase (toLowerCase s) = toLowerCase s.
Proof.
  unfold toLowerCase. rewrite chars_str, map_map. f_equal.
  apply map_ext. intros c. apply lowerChar_idempotent.
Qed.

(** X26. The analysis does not see the case of the letters, and does not use
    its provider: a text and its lower-case form get the same result, from
    any two providers. *)
Theorem analyzeSentiment_ignores_case_and_provider :
  forall (text : string) (provider provider' : TextProvider),
    analyzeSentiment {| SentimentInput.text := toLowerCase text |} provider
    = analyzeSentiment {| SentimentInput.text := text |} provider'.
Proof.
  intros text provider provider'. unfold analyzeSentiment. cbn [SentimentInput.text].
  rewrite toLowerCase_idempotent. reflexivity.
Qed.

(** ** The summary of the mock text provider *)

Lemma toLowerCase_app a b : toLowerCase (a ++ b) = toLowerCase a ++ toLowerCase b.
Proof.
  induction a as [|c a IH]; [reflexivity|].
  unfold toLowerCase in *. cbn [append chars list_ascii_of_string map str string_of_list_ascii].
  unfold chars, str in IH. rewrite IH. reflexivity.
Qed.

(** X27. With the mock text provider, [summarize] answers one of three fixed
    texts, whatever the text to summarize is: the topics the mock takes
    from its prompt are the first five words of the instruction that
    [summarize] puts before the text. *)
Theorem mock_summary_ignores_text :
  forall input : SummarizeInput.t,
    exists summary : string,
      summarize input Mock.complete = Returned (Ok summary)
      /\ In summary mockSummaries.
Proof.
  intros input. unfold summarize, Mock.complete.
  set (prompt := "Summarize the following text in "
                 ++ numberToString (SummarizeInput.maxLength input)
                 ++ " words or fewer:" ++ nl ++ nl ++ SummarizeInput.text input).
  assert (Htopics : join ", " (slice0 5 (splitWhiteSpace (toLowerCase prompt)))
                    = "summarize, the, following, text, in").
  { subst prompt. rewrite toLowerCase_app.
    generalize (toLowerCase (numberToString (SummarizeInput.maxLength input)
                             ++ " words or fewer:" ++ nl ++ nl ++ SummarizeInput.text input)).
    intros rest. reflexivity. }
  rewrite Htopics. eexists. split; [reflexivity|].
  cbn [List.length]. unfold mockSummaries.
  pose proof (Nat.mod_upper_bound (String.length prompt) 3 ltac:(discriminate)) as Hlt.
  destruct (String.length prompt mod 3)%nat as [|[|[|k]]]; cbn [nth In]; [tauto..|lia].
Qed.

(** ** The payload of an accepted elicitation *)

(** X28. An accepted elicitation whose payload has none of the four settings,
    or has them as null, is taken as the default configuration, and so is
    a payload that is no object at all: what the client sends is not
    checked against the schema the request carried. *)
Theorem configureAnalysis_accepts_any_payload :
  forall (input : ConfigureAnalysisInput.t) (server : Sdk.Server.t) (raw : json),
    Sdk.Server.elicitInput server (elicitRequest input)
    = Returned {| Sdk.ElicitResult.action := "accept"; Sdk.ElicitResult.content := Some raw |} ->
    raw <> JNull ->
    Forall (fun k => member k raw = None \/ member k raw = Some JNull)
           (requiredKeys ANALYSIS_CONFIG_SCHEMA) ->
    configureAnalysis input server
    = Returned (Ok
        {| ConfigureAnalysisResult.action := accept;
           ConfigureAnalysisResult.config := Some defaultConfig;
           ConfigureAnalysisResult.message :=
             "Analysis configured: depth=standard, sentiment=true, entities=true, maxWords=100" |}).
Proof.
  intros input server raw Hcall Hraw Hkeys.
  unfold configureAnalysis. rewrite Hcall.
  cbn [Sdk.ElicitResult.action Sdk.ElicitResult.content String.eqb Ascii.eqb Bool.eqb].
  assert (Hnot : notNullish (Some raw) = Some raw) by (destruct raw; [exfalso; apply Hraw; reflexivity|reflexivity..]).
  rewrite Hnot.
  assert (Hconfig : readConfig raw = Some defaultConfig).
  { change (requiredKeys ANALYSIS_CONFIG_SCHEMA)
      with ["depth"; "includeSentiment"; "includeEntities"; "maxSummaryWords"] in Hkeys.
    inversion Hkeys as [|? ? H1 Hkeys1]; subst.
    inversion Hkeys1 as [|? ? H2 Hkeys2]; subst.
    inversion Hkeys2 as [|? ? H3 Hkeys3]; subst.
    inversion Hkeys3 as [|? ? H4 _]; subst.
    unfold readConfig, defaultConfig.
    destruct H1 as [-> | ->], H2 as [-> | ->], H3 as [-> | ->], H4 as [-> | ->]; reflexivity. }
  rewrite Hconfig. vm_compute. reflexivity.
Qed.

Lemma configureAnalysis_accepts_any_payload_witness :
  configureAnalysis {| ConfigureAnalysisInput.text := "Some text." |}
    {| Sdk.Server.createMessage := Sdk.Server.createMessage bareClient;
       Sdk.Server.elicitInput := fun _ =>
         Returned {| Sdk.ElicitResult.action := "accept";
                     Sdk.ElicitResult.content := Some (JStr "yes") |} |}
  = Returned (Ok
      {| ConfigureAnalysisResult.action := accept;
         ConfigureAnalysisResult.config := Some defaultConfig;
         ConfigureAnalysisResult.message :=
           "Analysis configured: depth=standard, sentiment=true, entities=true, maxWords=100" |}).
Proof.
  apply (configureAnalysis_accepts_any_payload
           {| ConfigureAnalysisInput.text := "Some text." |}
           {| Sdk.Server.createMessage := Sdk.Server.createMessage bareClient;
              Sdk.Server.elicitInput := fun _ =>
                Returned {| Sdk.ElicitResult.action := "accept";
                            Sdk.ElicitResult.content := Some (JStr "yes") |} |}
           (JStr "yes")).
  - reflexivity.
  - discriminate.
  - repeat constructor.
Defined.

(** ** The server over the live weather provider *)

(** X29. In production mode with a key for the weather service, the call of
    [get_weather] sends one request, for the location and in imperial
    units whatever unit was asked for, and the failures of the service
    are answered with a response flagged as an error, whose text tells
    whether the request threw, the answer was not a success of HTTP, or
    its body could not be read. *)
Theorem live_weather_failures_are_error_responses :
  forall (net : Network.t) (config : ServerConfig.t) (server : Sdk.Server.t)
         (apiKey : string) (args : option json) (parsed : list (string * json)),
    ServerConfig.mode config = "production" ->
    ServerConfig.openWeatherMapApiKey config = Some apiKey ->
    apiKey <> "" ->
    Zod.parse WeatherSchema args = inr parsed ->
    exists request : Http.Request.t,
      Http.Request.searchParams request
      = [("q", WeatherInput.location (WeatherInput.ofParsed parsed)); ("appid", apiKey);
         ("units", "imperial")]
      /\ (forall err,
            Network.openWeatherMap net request = Thrown err ->
            createServer net config server "get_weather" args
            = Returned (errorResult ("OpenWeatherMap fetch failed: " ++ rendering err)))
      /\ (forall response,
            Network.openWeatherMap net request = Returned response ->
            Http.Response.ok response = false ->
            createServer net config server "get_weather" args
            = Returned (errorResult ("OpenWeatherMap API error: HTTP "
                                     ++ numberToString (Http.Response.status response))))
      /\ (forall response e,
            Network.openWeatherMap net request = Returned response ->
            Http.Response.ok response = true ->
            Http.Response.json response = Thrown e ->
            createServer net config server "get_weather" args
            = Returned (errorResult "Failed to parse OpenWeatherMap response")).
Proof.
  intros net config server apiKey args parsed Hmode Hkey Hne Hparse.
  exists (OpenWeatherMapProvider.request apiKey
            (WeatherInput.location (WeatherInput.ofParsed parsed))).
  split; [reflexivity|].
  assert (Hcall : createServer net config server "get_weather" args
                  = let* result := awaitHandler
                      (OpenWeatherMapProvider.getWeather (Network.openWeatherMap net) apiKey
                         (WeatherInput.location (WeatherInput.ofParsed parsed))) in
                    Returned (respond result (fun value =>
                      textResult (stringifyDyn WeatherData.toJson value) None))).
  { unfold createServer, callTool, callToolWith, parseArgs.
    cbn [String.eqb Ascii.eqb Bool.eqb]. rewrite Hparse. cbn [await].
    cbn [toolHandlers Handlers.getWeather]. unfold Weather.getWeather.
    rewrite (createProviders_live_weather net config apiKey Hmode Hkey Hne). reflexivity. }
  rewrite Hcall. unfold OpenWeatherMapProvider.getWeather.
  split; [|split].
  - intros err ->. reflexivity.
  - intros response -> ->. reflexivity.
  - intros response e -> -> ->. reflexivity.
Qed.

Lemma live_weather_failures_are_error_responses_witness :
  exists request : Http.Request.t,
    Http.Request.searchParams request
    = [("q", WeatherInput.location
               (WeatherInput.ofParsed [("location", JStr "Oslo"); ("unit", JStr "celsius")]));
       ("appid", "key"); ("units", "imperial")]
    /\ (forall err,
          Network.openWeatherMap offline request = Thrown err ->
          createServer offline (productionConfig None (Some "key")) bareClient
            "get_weather" (weatherArgs "Oslo" "celsius")
          = Returned (errorResult ("OpenWeatherMap fetch failed: " ++ rendering err)))
    /\ (forall response,
          Network.openWeatherMap offline request = Returned response ->
          Http.Response.ok response = false ->
          createServer offline (productionConfig None (Some "key")) bareClient
            "get_weather" (weatherArgs "Oslo" "celsius")
          = Returned (errorResult ("OpenWeatherMap API error: HTTP "
                                   ++ numberToString (Http.Response.status response))))
    /\ (forall response e,
          Network.openWeatherMap offline request = Returned response ->
          Http.Response.ok response = true ->
          Http.Response.json response = Thrown e ->
          createServer offline (productionConfig None (Some "key")) bareClient
            "get_weather" (weatherArgs "Oslo" "celsius")
          = Returned (errorResult "Failed to parse OpenWeatherMap response")).
Proof.
  apply (live_weather_failures_are_error_responses offline
           (productionConfig None (Some "key")) bareClient "key"
           (weatherArgs "Oslo" "celsius")
           [("location", JStr "Oslo"); ("unit", JStr "celsius")]).
  - reflexivity.
  - reflexivity.
  - discriminate.
  - reflexivity.
Defined.

(** ** The readings of the live weather provider *)

Section Rounding.
Local Open Scope Z_scope.

Lemma iter_xO_value a k : Zpos (Pos.iter xO a k) = Zpos a * 2 ^ Zpos k.
Proof.
  induction k as [|k IH] using Pos.peano_ind.
  - cbn [Pos.iter]. lia.
  - rewrite Pos.iter_succ, Pos2Z.inj_xO, IH, Pos2Z.inj_succ, Z.pow_succ_r by lia. lia.
Qed.

(** An integer below 2^53 is a binary64 value, exactly. *)
Lemma binary_round_integer s a :
  Zpos a < 2 ^ 53 -> isInteger (binary_round prec emax s a 0) = true.
Proof.
  intros H. unfold binary_round.
  pose proof (digits2_pos_spec a) as [Hlo _].
  assert (Hd : Zpos (digits2_pos a) <= 53).
  { destruct (Z.le_gt_cases (Zpos (digits2_pos a)) 53) as [|Hgt]; [assumption|].
    assert (2 ^ 53 <= 2 ^ (Zpos (digits2_pos a) - 1)) by (apply Z.pow_le_mono_r; lia).
    lia. }
  unfold shl_align.
  replace (fexp prec emax (Zpos (digits2_pos a) + 0) - 0)
    with (Zpos (digits2_pos a) - 53) by (unfold fexp, emin, prec, emax; lia).
  destruct (Zpos (digits2_pos a) - 53) as [|k|k] eqn:E; try lia.
  - rewrite binary_round_aux_canonical by (unfold emin, prec, emax; lia). reflexivity.
  - rewrite binary_round_aux_canonical.
    + unfold isInteger. rewrite iter_xO_value.
      replace (fexp prec emax (Zpos (digits2_pos a) + 0)) with (Zneg k)
        by (unfold fexp, emin, prec, emax; lia).
      change (- Zneg k) with (Zpos k). rewrite Z.mod_mul by lia. apply orb_true_r.
    + rewrite digits2_pos_iter_xO. unfold prec. lia.
    + unfold fexp, emin, prec, emax. lia.
Qed.

Lemma ofZ_integer z : - 2 ^ 53 < z < 2 ^ 53 -> isInteger (ofZ z) = true.
Proof.
  intros H. unfold ofZ, binary_normalize. destruct z as [|a|a].
  - reflexivity.
  - apply binary_round_integer. lia.
  - apply binary_round_integer. lia.
Qed.

(** [Math.round] of a binary64 value that is finite is an integer. *)
Lemma Math_round_integer x :
  isFinite x = true -> valid_binary prec emax x = true -> isInteger (Math_round x) = true.
Proof.
  intros Hfinite Hvalid. destruct x as [s|s| |s m e]; try discriminate Hfinite; [reflexivity|].
  unfold Math_round. destruct (isInteger (S754_finite s m e)) eqn:Hint; [exact Hint|].
  cbn [isInteger] in Hint. apply orb_false_elim in Hint as [He _].
  apply Z.leb_gt in He.
  cbn [valid_binary] in Hvalid. unfold bounded, canonical_mantissa in Hvalid.
  apply andb_prop in Hvalid as [Hcanon _]. apply Z.eqb_eq in Hcanon.
  assert (Hm : Zpos m < 2 ^ 53).
  { pose proof (digits2_pos_spec m) as [_ Hhi].
    assert (Zpos (digits2_pos m) <= 53) by (unfold fexp, emin, prec, emax in Hcanon; lia).
    assert (2 ^ Zpos (digits2_pos m) <= 2 ^ 53) by (apply Z.pow_le_mono_r; lia).
    lia. }
  assert (Hd : 2 <= 2 ^ (- e)).
  { change 2 with (2 ^ 1) at 1. apply Z.pow_le_mono_r; lia. }
  set (d := 2 ^ (- e)) in *.
  set (n := if s then Zneg m else Zpos m).
  assert (Hn : - 2 ^ 53 < n < 2 ^ 53) by (subst n; destruct s; lia).
  destruct (Z.eqb_spec ((2 * n + d) / (2 * d)) 0); [reflexivity|].
  apply ofZ_integer.
  assert (Hlo : - 2 ^ 53 * (2 * d) < 2 * n + d) by nia.
  assert (Hhi : 2 * n + d < 2 ^ 53 * (2 * d)) by nia.
  split.
  - apply Z.lt_le_trans with (- 2 ^ 53 + 1); [lia|].
    apply Z.div_le_lower_bound; nia.
  - apply Z.div_lt_upper_bound; nia.
Qed.

End Rounding.

(** X30. When the weather service answers with a body of the shape the provider
    expects, whose temperature and wind speed are finite numbers, the live
    provider succeeds with a reading in fahrenheit whose temperature and
    wind speed are whole numbers, whose place is the name of the body,
    followed by the country when the body has one, and whose forecast
    names the place. *)
Theorem live_weather_reading :
  forall (fetch : Http.fetch OWMCurrentResponse.t) (apiKey location : string)
         (response : Http.Response.t OWMCurrentResponse.t) (data : OWMCurrentResponse.t),
    fetch (OpenWeatherMapProvider.request apiKey location) = Returned response ->
    Http.Response.ok response = true ->
    Http.Response.json response = Returned data ->
    isFinite (OWMCurrentResponse.Main.temp (OWMCurrentResponse.main data)) = true ->
    valid_binary prec emax (OWMCurrentResponse.Main.temp (OWMCurrentResponse.main data)) = true ->
    isFinite (OWMCurrentResponse.Wind.speed (OWMCurrentResponse.wind data)) = true ->
    valid_binary prec emax (OWMCurrentResponse.Wind.speed (OWMCurrentResponse.wind data)) = true ->
    exists reading : WeatherData.t,
      OpenWeatherMapProvider.getWeather fetch apiKey location = Returned (Ok (Typed reading))
      /\ WeatherData.unit reading = WeatherData.fahrenheit
      /\ isInteger (WeatherData.temperature reading) = true
      /\ isInteger (WeatherData.wind_speed reading) = true
      /\ String.prefix (OWMCurrentResponse.name data) (WeatherData.location reading) = true
      /\ WeatherData.forecast reading
         = "Current conditions for " ++ WeatherData.location reading.
Proof.
  intros fetch apiKey location response data Hfetch Hok Hjson Htemp Htemp' Hwind Hwind'.
  unfold OpenWeatherMapProvider.getWeather. rewrite Hfetch, Hok, Hjson. cbn [negb].
  eexists. split; [reflexivity|].
  cbn [WeatherData.unit WeatherData.temperature WeatherData.wind_speed WeatherData.location
       WeatherData.forecast].
  split; [reflexivity|]. split; [exact (Math_round_integer _ Htemp Htemp')|].
  split; [exact (Math_round_integer _ Hwind Hwind')|]. split; [|reflexivity].
  unfold OpenWeatherMapProvider.locationName.
  assert (Hprefix : forall a b, String.prefix a (a ++ b) = true).
  { intros a b. induction a as [|c a IH]; [destruct b; reflexivity|].
    cbn [append String.prefix]. destruct (ascii_dec c c); [exact IH|congruence]. }
  destruct (OWMCurrentResponse.sys data) as [sys|]; [|apply prefix_refl].
  destruct (OWMCurrentResponse.Sys.country sys) as [countryCode|]; [|apply prefix_refl].
  destruct (String.eqb countryCode ""); [apply prefix_refl|apply Hprefix].
Qed.

Lemma live_weather_reading_witness :
  exists reading : WeatherData.t,
    OpenWeatherMapProvider.getWeather (weatherAnswers sanFranciscoBody) "owm-key" "San Francisco"
    = Returned (Ok (Typed reading))
    /\ WeatherData.unit reading = WeatherData.fahrenheit
    /\ isInteger (WeatherData.temperature reading) = true
    /\ isInteger (WeatherData.wind_speed reading) = true
    /\ String.prefix (OWMCurrentResponse.name sanFranciscoBody) (WeatherData.location reading)
       = true
    /\ WeatherData.forecast reading = "Current conditions for " ++ WeatherData.location reading.
Proof.
  apply (live_weather_reading (weatherAnswers sanFranciscoBody) "owm-key" "San Francisco"
           {| Http.Response.ok := true;
              Http.Response.status := ofZ 200;
              Http.Response.json := Returned sanFranciscoBody |}
           sanFranciscoBody).
  - reflexivity.
  - reflexivity.
  - reflexivity.
  - vm_compute. reflexivity.
  - vm_compute. reflexivity.
  - vm_compute. reflexivity.
  - vm_compute. reflexivity.
Defined.

(** ** The rest of the model on the inputs of the test suite *)

(** [parseInt] on the defaults of the limits and on texts that are not
    plain numbers. *)
Example parseInt_samples :
  map parseInt10 ["5"; "30000"; " 12px"; "-7"; "-0"; ""; "abc"; "1e3"]
  = [ofZ 5; ofZ 30000; ofZ 12; ofZ (-7); S754_zero true; NaN; NaN; ofZ 1].
Proof. vm_compute. reflexivity. Qed.

(** [Math.round] rounds a half upwards, also below zero. *)
Example Math_round_samples :
  map Math_round
    [ofDecimal 655 (-1); ofDecimal 102 (-1); ofDecimal 25 (-1); neg (ofDecimal 25 (-1));
     neg (ofDecimal 5 (-1)); ofDecimal 4 (-1); ofZ 70; NaN]
  = [ofZ 66; ofZ 10; ofZ 3; ofZ (-2); S754_zero true; S754_zero false; ofZ 70; NaN].
Proof. vm_compute. reflexivity. Qed.

(** [slice(0, end)] for ends of every kind. *)
Example sliceTo_samples :
  map (sliceTo ["a"; "b"; "c"; "d"])
    [ofZ 2; ofZ 9; ofDecimal 29 (-1); ofZ (-1); ofZ (-9); NaN; Infinity; neg Infinity]
  = [["a"; "b"]; ["a"; "b"; "c"; "d"]; ["a"; "b"]; ["a"; "b"; "c"]; []; [];
     ["a"; "b"; "c"; "d"]; []].
Proof. vm_compute. reflexivity. Qed.

(** [loads default config] and [applies overrides]. *)
Example test_load_config :
  (let config := loadConfig [] Overrides.none in
   (ServerConfig.mode config, ServerConfig.name config, ServerConfig.version config,
    ServerConfig.maxConcurrentTools config, ServerConfig.toolTimeoutMs config))
  = ("mock", "mcp-toolkit-server", "0.1.0", ofZ 5, ofZ 30000)
  /\ ServerConfig.braveApiKey (productionConfig (Some "brave-key") None) = Some "brave-key"
  /\ isMockMode (productionConfig None None) = false.
Proof. vm_compute. repeat split. Qed.

(** [should read config resource] and [should handle unknown resource]: the
    texts that are read. *)
Example test_read_resource :
  readResource {| Clock.uptime := ofDecimal 15 (-1); Clock.timestamp := "2025-01-01T00:00:00.000Z" |}
    "toolkit://config" (loadConfig [] Overrides.none)
  = "{" ++ nl ++ "  " ++ dq ++ "mode" ++ dq ++ ": " ++ dq ++ "mock" ++ dq ++ ","
    ++ nl ++ "  " ++ dq ++ "name" ++ dq ++ ": " ++ dq ++ "mcp-toolkit-server" ++ dq ++ ","
    ++ nl ++ "  " ++ dq ++ "version" ++ dq ++ ": " ++ dq ++ "0.1.0" ++ dq ++ ","
    ++ nl ++ "  " ++ dq ++ "maxConcurrentTools" ++ dq ++ ": 5,"
    ++ nl ++ "  " ++ dq ++ "toolTimeoutMs" ++ dq ++ ": 30000"
    ++ nl ++ "}"
  /\ readResource {| Clock.uptime := ofDecimal 15 (-1); Clock.timestamp := "2025-01-01T00:00:00.000Z" |}
       "toolkit://unknown" (loadConfig [] Overrides.none)
     = "{" ++ dq ++ "error" ++ dq ++ ":" ++ dq ++ "Unknown resource: toolkit://unknown" ++ dq ++ "}".
Proof. vm_compute. split; reflexivity. Qed.

(** [calls OpenWeatherMap API with correct parameters]: 65.5 degrees are
    reported as 66, a wind of 10.2 as 10. *)
Example test_live_weather :
  OpenWeatherMapProvider.getWeather (weatherAnswers sanFranciscoBody) "owm-key" "San Francisco"
  = Returned (Ok (Typed
      {| WeatherData.location := "San Francisco, US";
         WeatherData.temperature := ofZ 66;
         WeatherData.unit := WeatherData.fahrenheit;
         WeatherData.condition := "partly cloudy";
         WeatherData.humidity := ofZ 70;
         WeatherData.wind_speed := ofZ 10;
         WeatherData.forecast := "Current conditions for San Francisco, US" |})).
Proof. vm_compute. reflexivity. Qed.

(** [limits results to maxResults]: three of ten results, scored 1, 0.9 and
    0.8. *)
Example test_live_search :
  match BraveWebSearchProvider.search (braveAnswers (braveBody 10)) "test-key" "query" (ofZ 3) with
  | Returned (Ok results) =>
      map (fun r => (SearchResult.title r, numberToString (SearchResult.score r))) results
  | _ => []
  end
  = [("Result 1", "1"); ("Result 2", "0.9"); ("Result 3", "0.8")].
Proof. vm_compute. reflexivity. Qed.
